(** * year_in_review: content resolution and aggregation reports

    A shallow embedding of [year_in_review.py].  Python objects become
    records, dictionaries become insertion-ordered association lists,
    exceptions and the two effects of the script (catalog requests and
    printing) are threaded through a small state-and-error monad. *)

From Stdlib Require Import ZArith String Ascii List Bool Lia.
From Stdlib Require Import Permutation Sorted DecimalString.
From Stdlib Require Import Floats.SpecFloat.
Import ListNotations.

Open Scope string_scope.
Open Scope list_scope.
Open Scope Z_scope.

(** ** Module-level constants of the script *)

Definition STATUS_CODE_OK : Z := 200.
Definition BASE_URL : string := "https://api.themoviedb.org/3".
Definition API_KEY : string := "insert_your_api_key_here".
Definition CAST_Q : Z := 4.
Definition MAX_CAST : nat := 15.
Definition MAX_DIRECTORS : nat := 2.
Definition TOP_N : nat := 20.
Definition MIN_THRESHOLD : Z := 5.
Definition MIN_THRESHOLD_FOR_DIRECTORS : Z := 2.

(** ** Python floats

    A Python [float] is an IEEE 754 binary64 number; the standard
    library's executable specification of binary floating point is used
    at precision 53 and maximal exponent 1024. *)

Definition float : Type := spec_float.
Definition prec : Z := 53.
Definition emax : Z := 1024.

(** [float(n)] for an integer [n] (rounded to nearest even). *)
Definition float_of_int (n : Z) : float := binary_normalize prec emax n 0 false.
Definition float_add : float -> float -> float := SFadd prec emax.
Definition float_div : float -> float -> float := SFdiv prec emax.
Definition float_lt : float -> float -> bool := SFltb.

(** ** Exceptions, results, the world *)

Inductive exn : Type :=
| FailedAPIRequest (url : string) (expected received : Z) (text : string)
| ZeroDivisionError
| OverflowError
| ValueError
| TypeError
| AttributeError
| KeyError
| IndexError.

Inductive result (A : Type) : Type :=
| Ok (a : A)
| Raise (e : exn).
Arguments Ok {A} a.
Arguments Raise {A} e.

(** One argument of a [str.format] call. *)
Inductive fmt_arg : Type :=
| AStr (s : string)
| AInt (n : Z)
| AFloat (x : float).

(** A printed line: the format string and the arguments given to
    [format]; [print()] is [Line EmptyString []]. *)
Inductive line : Type := Line (fmt : string) (args : list fmt_arg).

(** What the script does to the outside: the URLs it requested from the
    catalog, in order, and the lines it printed, in order. *)
Record World : Type := mkWorld {
  calls : list string;
  stdout : list line
}.

Definition empty_world : World := mkWorld [] [].

Definition M (A : Type) : Type := World -> result A * World.

Definition ret {A} (a : A) : M A := fun w => (Ok a, w).
Definition raise {A} (e : exn) : M A := fun w => (Raise e, w).
Definition bind {A B} (m : M A) (k : A -> M B) : M B :=
  fun w => match m w with
           | (Ok a, w') => k a w'
           | (Raise e, w') => (Raise e, w')
           end.

Declare Scope monad_scope.
Delimit Scope monad_scope with monad.
Notation "x <- m ;; k" := (bind m (fun x => k))
  (at level 61, m at next level, right associativity) : monad_scope.
Notation "' pat <- m ;; k" := (bind m (fun x => match x with pat => k end))
  (at level 61, pat pattern, m at next level, right associativity) : monad_scope.
Notation "m ;; k" := (bind m (fun _ => k))
  (at level 61, right associativity) : monad_scope.
Open Scope monad_scope.

Definition print (fmt : string) (args : list fmt_arg) : M unit :=
  fun w => (Ok tt, mkWorld (calls w) (stdout w ++ [Line fmt args])).

Definition log_call (url : string) : M unit :=
  fun w => (Ok tt, mkWorld (calls w ++ [url]) (stdout w)).

(** [for x in l: acc = body(acc, x)] *)
Fixpoint for_each {A S} (l : list A) (body : S -> A -> M S) (acc : S) : M S :=
  match l with
  | [] => ret acc
  | x :: l' => acc' <- body acc x ;; for_each l' body acc'
  end.

(** [for x in l: body(x)] *)
Fixpoint iter {A} (l : list A) (body : A -> M unit) : M unit :=
  match l with
  | [] => ret tt
  | x :: l' => body x ;; iter l' body
  end.

(** ** Builtins of the language and of its standard library *)

Class EqDec (A : Type) : Type := eq_dec : forall x y : A, {x = y} + {x <> y}.

#[export] Instance string_EqDec : EqDec string := string_dec.

(** *** Dictionaries

    A [dict] keeps its keys in insertion order, each key once; iteration
    ([for k in d], [d.items()]) follows that order. *)

Definition dict (K V : Type) : Type := list (K * V).

Section Dict.
Context {K V : Type} `{EqDec K}.

(** [d.get(k)], as an option *)
Fixpoint dict_find (k : K) (d : dict K V) : option V :=
  match d with
  | [] => None
  | (k', v) :: d' => if eq_dec k k' then Some v else dict_find k d'
  end.

(** [k in d] *)
Definition dict_contains (k : K) (d : dict K V) : bool :=
  match dict_find k d with Some _ => true | None => false end.

(** [d[k]] *)
Definition dict_getitem (d : dict K V) (k : K) : M V :=
  match dict_find k d with
  | Some v => ret v
  | None => raise KeyError
  end.

(** [d.get] used as a sort key; it is only ever applied to keys of
    [d], [dflt] stands for the [None] it returns on any other key. *)
Definition dict_get (dflt : V) (d : dict K V) (k : K) : V :=
  match dict_find k d with Some v => v | None => dflt end.

(** [d[k] = v]: an existing key keeps its position, a new key goes
    last. *)
Fixpoint dict_setitem (k : K) (v : V) (d : dict K V) : dict K V :=
  match d with
  | [] => [(k, v)]
  | (k', v') :: d' =>
      if eq_dec k k' then (k', v) :: d' else (k', v') :: dict_setitem k v d'
  end.

Definition dict_keys (d : dict K V) : list K := map fst d.
Definition dict_values (d : dict K V) : list V := map snd d.
End Dict.

(** *** Lists *)

(** [l[i]], negative indices counting from the end *)
Definition list_getitem {A} (l : list A) (i : Z) : M A :=
  let n := Z.of_nat (length l) in
  let j := if i <? 0 then i + n else i in
  if (j <? 0) || (n <=? j) then raise IndexError
  else match nth_error l (Z.to_nat j) with
       | Some a => ret a
       | None => raise IndexError
       end.

(** [sum(l)] and [len(l)] *)
Definition sum (l : list Z) : Z := fold_left Z.add l 0.
Definition len {A} (l : list A) : Z := Z.of_nat (length l).

(** [sorted(l, key=key, reverse=True)]: a stable sort into descending
    key order, comparing keys with [<] only. *)
Section Sorting.
Context {A K : Type} (ltb : K -> K -> bool) (key : A -> K).

Fixpoint insert_desc (x : A) (l : list A) : list A :=
  match l with
  | [] => [x]
  | y :: l' => if ltb (key x) (key y) then y :: insert_desc x l'
               else x :: y :: l'
  end.

Definition sorted_reverse (l : list A) : list A :=
  fold_right insert_desc [] l.

(** [heapq.nlargest(n, l, key=key)], which the library documents as
    [sorted(l, key=key, reverse=True)[:n]].  The two agree, and agree
    with this definition, on keys that [<] orders totally: integers,
    and floats none of which is a NaN.  With a NaN among the keys the
    order and the selection Python makes depend on its sorting
    algorithm; the properties below that concern floats do not
    depend on either. *)
Definition nlargest (n : nat) (l : list A) : list A :=
  firstn n (sorted_reverse l).

(** [max(l, key=key)]: the first of the maximal elements. *)
Definition py_max (l : list A) : M A :=
  match l with
  | [] => raise ValueError
  | x :: l' =>
      ret (fold_left (fun best y => if ltb (key best) (key y) then y else best)
                     l' x)
  end.
End Sorting.

(** *** Strings *)

(** [str(n)] for an integer *)
Definition str_of_int (n : Z) : string := NilZero.string_of_int (Z.to_int n).

(** [s.split(sep)] for a one-character separator *)
Fixpoint str_split (sep : ascii) (s : string) : list string :=
  match s with
  | EmptyString => [EmptyString]
  | String c s' =>
      if Ascii.eqb c sep then EmptyString :: str_split sep s'
      else match str_split sep s' with
           | [] => [String c EmptyString]
           | p :: ps => String c p :: ps
           end
  end.

(** [a, b, c = l] *)
Definition unpack3 {A} (l : list A) : M (A * A * A) :=
  match l with
  | [a; b; c] => ret (a, b, c)
  | _ => raise ValueError
  end.

(** *** Integer division and truncation

    [a / b] on two integers is the correctly rounded binary64 quotient;
    it raises on a zero divisor and when the quotient is out of range.
    The integers enter the division exactly, whatever their size. *)

Definition exact_float (n : Z) : float :=
  match n with
  | Z0 => S754_zero false
  | Zpos p => S754_finite false p 0
  | Zneg p => S754_finite true p 0
  end.

Definition int_truediv (a b : Z) : M float :=
  if b =? 0 then raise ZeroDivisionError
  else match float_div (exact_float a) (exact_float b) with
       | S754_infinity _ => raise OverflowError
       | x => ret x
       end.

(** [int(x)] for a float: truncation towards zero *)
Definition int_of_float (x : float) : M Z :=
  match x with
  | S754_zero _ => ret 0
  | S754_finite s m e =>
      ret (cond_Zopp s (if 0 <=? e then Zpos m * 2 ^ e
                        else Zpos m / 2 ^ (- e)))
  | S754_infinity _ => raise OverflowError
  | S754_nan => raise ValueError
  end.

(** [int(v)] for a JSON value that is an integer or [null] *)
Definition int_of_json (v : option Z) : M Z :=
  match v with
  | Some n => ret n
  | None => raise TypeError
  end.

(** *** Dates ([datetime.datetime] with the time left at midnight) *)

Record datetime : Type := mkDate { year : Z; month : Z; day : Z }.

#[export] Instance datetime_EqDec : EqDec datetime.
Proof. intros x y. unfold EqDec. decide equality; apply Z.eq_dec. Defined.

Definition is_leap (y : Z) : bool :=
  (y mod 4 =? 0) && (negb (y mod 100 =? 0) || (y mod 400 =? 0)).

Definition days_in_month (y m : Z) : Z :=
  if (m =? 2) && is_leap y then 29
  else nth (Z.to_nat m) [0; 31; 28; 31; 30; 31; 30; 31; 31; 30; 31; 30; 31] 0.

Definition days_before_month (y m : Z) : Z :=
  nth (Z.to_nat m) [0; 0; 31; 59; 90; 120; 151; 181; 212; 243; 273; 304; 334] 0
  + (if (2 <? m) && is_leap y then 1 else 0).

Definition days_before_year (y : Z) : Z :=
  let y' := y - 1 in y' * 365 + y' / 4 - y' / 100 + y' / 400.

Definition valid_date (d : datetime) : Prop :=
  1 <= year d <= 9999 /\ 1 <= month d <= 12 /\
  1 <= day d <= days_in_month (year d) (month d).

Definition valid_dateb (d : datetime) : bool :=
  (1 <=? year d) && (year d <=? 9999) && (1 <=? month d) && (month d <=? 12)
  && (1 <=? day d) && (day d <=? days_in_month (year d) (month d)).

(** An integer that fits the C [int] the constructor of [datetime]
    converts each of its arguments to. *)
Definition fits_c_int (n : Z) : bool := (- 2 ^ 31 <=? n) && (n <? 2 ^ 31).

(** [datetime(y, m, d)]: the three arguments are converted to C [int]
    first, which raises [OverflowError] on one that does not fit; a
    triple that is not a date of the calendar raises [ValueError]. *)
Definition new_datetime (y m d : Z) : M datetime :=
  if fits_c_int y && fits_c_int m && fits_c_int d then
    if valid_dateb (mkDate y m d) then ret (mkDate y m d)
    else raise ValueError
  else raise OverflowError.

Definition toordinal (d : datetime) : Z :=
  days_before_year (year d) + days_before_month (year d) (month d) + day d.

(** [d.weekday()]: Monday is 0, Sunday is 6 *)
Definition weekday_of (d : datetime) : Z := (toordinal d + 6) mod 7.

(** [calendar.month_name] and [calendar.day_name] *)
Definition month_name : list string :=
  [EmptyString; "January"; "February"; "March"; "April"; "May"; "June"; "July";
   "August"; "September"; "October"; "November"; "December"].

Definition day_name : list string :=
  ["Monday"; "Tuesday"; "Wednesday"; "Thursday"; "Friday"; "Saturday"; "Sunday"].

(** ** The catalog

    The bodies of the catalog's answers, typed after the catalog's
    published schema.  A field of type [option] is a key the answer may
    lack; reading a missing key raises [KeyError].  The runtime of a
    movie is an integer or [null] in that schema: its key holds an
    [option Z], [None] for [null]. *)

Module TMDB.
Record named : Type := mkNamed { name : string }.
Record crew_member : Type := mkCrew { job : string; crew_name : string }.
Record credits_t : Type := mkCredits {
  cast : list named;
  crew : list crew_member
}.

(** One entry of [movie_results] or [tv_episode_results]. *)
Record find_entry : Type := mkEntry {
  id : Z;
  show_id : option Z;
  season_number : option Z;
  episode_number : option Z
}.

Record find_body : Type := mkFind {
  movie_results : list find_entry;
  tv_episode_results : list find_entry
}.

(** Movie, show and episode details. *)
Record details : Type := mkDetails {
  original_title : option string;
  original_name : option string;
  genres : option (list named);
  credits : option credits_t;
  production_companies : option (list named);
  release_date : option string;
  air_date : option string;
  runtime : option (option Z);
  episode_run_time : option (list Z)
}.
End TMDB.

(** A [requests] response. *)
Record response (A : Type) : Type := mkResponse {
  url : string;
  status_code : Z;
  text : string;
  json : A
}.
Arguments mkResponse {A}.
Arguments url {A}.
Arguments status_code {A}.
Arguments text {A}.
Arguments json {A}.

(** [requests.get(url, params=params)], by the kind of body the
    endpoint answers with. *)
Record Catalog : Type := mkCatalog {
  get_find : string -> list (string * string) -> response TMDB.find_body;
  get_details : string -> list (string * string) -> response TMDB.details
}.

(** [j[key]] on a key that may be missing *)
Definition getitem_key {A} (o : option A) : M A :=
  match o with
  | Some a => ret a
  | None => raise KeyError
  end.

Definition process_API_response {A} (r : response A) (expected_status_code : Z)
  : M unit :=
  if negb (status_code r =? expected_status_code)
  then raise (FailedAPIRequest (url r) expected_status_code (status_code r) (text r))
  else ret tt.

(** ** Object attributes

    An instance attribute is unset until assigned; it may be assigned
    [None]. *)

Inductive attr (A : Type) : Type :=
| Unset
| PyNone
| Val (a : A).
Arguments Unset {A}.
Arguments PyNone {A}.
Arguments Val {A} a.

Definition attr_of_option {A} (o : option A) : attr A :=
  match o with Some a => Val a | None => PyNone end.

(** Reading an attribute where a value, not [None], is needed (an
    operand of [+], the subject of a [for]). *)
Definition attr_value {A} (a : attr A) : M A :=
  match a with
  | Unset => raise AttributeError
  | PyNone => raise TypeError
  | Val v => ret v
  end.

(** An attribute as a condition: [None], [False] and unset differ. *)
Definition attr_truth (a : attr bool) : M bool :=
  match a with
  | Unset => raise AttributeError
  | PyNone => ret false
  | Val b => ret b
  end.

(** [a == None] *)
Definition attr_is_none {A} (a : attr A) : M bool :=
  match a with
  | Unset => raise AttributeError
  | PyNone => ret true
  | Val _ => ret false
  end.

(** ** APIRequests *)

Record APIRequests : Type := mkAPIRequests { api_key : string }.

Section Requests.
Variable requests : Catalog.

Definition get_info_from_imdb_id (self : APIRequests) (imdb_id : string)
  : M (response TMDB.find_body) :=
  let endpoint := ("/find/" ++ imdb_id)%string in
  let params := [("api_key", api_key self); ("external_source", "imdb_id")] in
  log_call (BASE_URL ++ endpoint)%string ;;
  let response := get_find requests (BASE_URL ++ endpoint)%string params in
  process_API_response response STATUS_CODE_OK ;;
  ret response.

Definition get_movie_info (self : APIRequests) (movie_id : string)
  : M (response TMDB.details) :=
  let endpoint := ("/movie/" ++ movie_id)%string in
  let params := [("api_key", api_key self); ("append_to_response", "credits")] in
  log_call (BASE_URL ++ endpoint)%string ;;
  let response := get_details requests (BASE_URL ++ endpoint)%string params in
  process_API_response response STATUS_CODE_OK ;;
  ret response.

Definition get_show_info (self : APIRequests) (show_id : string)
  : M (response TMDB.details) :=
  let endpoint := ("/tv/" ++ show_id)%string in
  let params := [("api_key", api_key self); ("append_to_response", "credits")] in
  log_call (BASE_URL ++ endpoint)%string ;;
  let response := get_details requests (BASE_URL ++ endpoint)%string params in
  process_API_response response STATUS_CODE_OK ;;
  ret response.

Definition get_episode_info (self : APIRequests) (show_id season episode : string)
  : M (response TMDB.details) :=
  let endpoint :=
    ("/tv/" ++ show_id ++ "/season/" ++ season ++ "/episode/" ++ episode)%string in
  let params := [("api_key", api_key self); ("append_to_response", "credits")] in
  log_call (BASE_URL ++ endpoint)%string ;;
  let response := get_details requests (BASE_URL ++ endpoint)%string params in
  process_API_response response STATUS_CODE_OK ;;
  ret response.
End Requests.

(** ** Content, Movie, SeriesEpisode *)

Record Content : Type := mkContent {
  _requester : attr APIRequests;
  tmdb_id : attr string;
  title : attr string;
  genres : attr (list string);
  is_movie : attr bool;
  is_series : attr bool;
  actors : attr (list string);
  directors : attr (list string);
  production_companies : attr (list string);
  pruction_companies : attr unit;
  release_date : attr datetime;
  runtime : attr Z;
  show_id : attr string;
  season : attr string;
  episode : attr string
}.

(** A fresh instance: no attribute assigned yet. *)
Definition new_object : Content :=
  mkContent Unset Unset Unset Unset Unset Unset Unset Unset Unset Unset Unset
            Unset Unset Unset Unset.

Definition set_requester (self : Content) (r : APIRequests) : Content :=
  mkContent (Val r) (tmdb_id self) (title self) (genres self) (is_movie self)
    (is_series self) (actors self) (directors self) (production_companies self)
    (pruction_companies self) (release_date self) (runtime self)
    (show_id self) (season self) (episode self).

Definition set_episode_ids (self : Content) (sh se ep : attr string) : Content :=
  mkContent (_requester self) (tmdb_id self) (title self) (genres self)
    (is_movie self) (is_series self) (actors self) (directors self)
    (production_companies self) (pruction_companies self) (release_date self)
    (runtime self) sh se ep.

Definition set_tmdb_id (self : Content) (i : attr string) : Content :=
  mkContent (_requester self) i (title self) (genres self)
    (is_movie self) (is_series self) (actors self) (directors self)
    (production_companies self) (pruction_companies self) (release_date self)
    (runtime self) (show_id self) (season self) (episode self).

(** The truth value of [self.tmdb_id]: [None] and the empty string are
    false. *)
Definition tmdb_id_truth (a : attr string) : M bool :=
  match a with
  | Unset => raise AttributeError
  | PyNone => ret false
  | Val s => ret (negb (String.eqb s EmptyString))
  end.

(** The methods a subclass of [Content] provides; calling one on
    [self] dispatches on the class of [self]. *)
Record ContentClass : Type := mkClass {
  _get_tmdb_id : Content -> string -> M (Content * option string);
  _get_content_info : Content -> M (response TMDB.details);
  _get_title : Content -> TMDB.details -> M string;
  _get_directors : Content -> TMDB.details -> M (list string);
  _get_release_date : Content -> TMDB.details -> M datetime;
  _get_runtime : Content -> TMDB.details -> M Z
}.

Section Resolver.
Variable requests : Catalog.
(** [int(s)] on a string, [None] when it raises [ValueError]. *)
Variable py_int : string -> option Z.

Definition int_of_str (s : string) : M Z :=
  match py_int s with
  | Some n => ret n
  | None => raise ValueError
  end.

(** [datetime(int(year), int(month), int(day))] from the three parts
    of a date string *)
Definition date_of_parts (year month day : string) : M datetime :=
  y <- int_of_str year ;;
  m <- int_of_str month ;;
  d <- int_of_str day ;;
  new_datetime y m d.

(** *** Content *)

Definition _get_genres (content_info : TMDB.details) : M (list string) :=
  gs <- getitem_key (TMDB.genres content_info) ;;
  ret (map TMDB.name gs).

Definition _get_actors (content_info : TMDB.details) : M (list string) :=
  cr <- getitem_key (TMDB.credits content_info) ;;
  ret (map TMDB.name (firstn MAX_CAST (TMDB.cast cr))).

Definition _get_production_companies (content_info : TMDB.details)
  : M (list string) :=
  cs <- getitem_key (TMDB.production_companies content_info) ;;
  ret (map TMDB.name cs).

(** The loop shared by both [_get_directors]. *)
Definition director_names (content_info : TMDB.details) : M (list string) :=
  cr <- getitem_key (TMDB.credits content_info) ;;
  ret (firstn MAX_DIRECTORS
         (map TMDB.crew_name
            (filter (fun c => String.eqb (TMDB.job c) "Director") (TMDB.crew cr)))).

Definition Content_init (cls : ContentClass) (self : Content)
    (requester : APIRequests) (imdb_id : string) (movie : bool) : M Content :=
  let self := set_requester self requester in
  '(self, i) <- _get_tmdb_id cls self imdb_id ;;
  let self := set_tmdb_id self (attr_of_option i) in
  found <- tmdb_id_truth (tmdb_id self) ;;
  if found then
    r <- _get_content_info cls self ;;
    let content_info := json r in
    t <- _get_title cls self content_info ;;
    g <- _get_genres content_info ;;
    a <- _get_actors content_info ;;
    d <- _get_directors cls self content_info ;;
    p <- _get_production_companies content_info ;;
    rd <- _get_release_date cls self content_info ;;
    rt <- _get_runtime cls self content_info ;;
    ret (mkContent (_requester self) (tmdb_id self) (Val t) (Val g)
           (Val movie) (Val (negb movie)) (Val a) (Val d) (Val p)
           (pruction_companies self) (Val rd) (Val rt)
           (show_id self) (season self) (episode self))
  else
    (* the last-but-two assignment is to [pruction_companies]:
       [production_companies] stays as it was *)
    ret (mkContent (_requester self) (tmdb_id self) PyNone PyNone
           (Val movie) (Val (negb movie)) PyNone PyNone
           (production_companies self) PyNone PyNone PyNone
           (show_id self) (season self) (episode self)).

(** *** Movie *)

Definition Movie_get_tmdb_id (self : Content) (imdb_id : string)
  : M (Content * option string) :=
  rq <- attr_value (_requester self) ;;
  r <- get_info_from_imdb_id requests rq imdb_id ;;
  let movie_info := TMDB.movie_results (json r) in
  if len movie_info =? 0 then ret (self, None)
  else
    e <- list_getitem movie_info 0 ;;
    ret (self, Some (str_of_int (TMDB.id e))).

Definition Movie_get_content_info (self : Content) : M (response TMDB.details) :=
  rq <- attr_value (_requester self) ;;
  i <- attr_value (tmdb_id self) ;;
  get_movie_info requests rq i.

Definition Movie_get_title (self : Content) (content_info : TMDB.details)
  : M string :=
  getitem_key (TMDB.original_title content_info).

Definition Movie_get_directors (self : Content) (content_info : TMDB.details)
  : M (list string) :=
  director_names content_info.

Definition Movie_get_release_date (self : Content) (content_info : TMDB.details)
  : M datetime :=
  s <- getitem_key (TMDB.release_date content_info) ;;
  '(year, month, day) <- unpack3 (str_split "-" s) ;;
  date_of_parts year month day.

Definition Movie_get_runtime (self : Content) (content_info : TMDB.details)
  : M Z :=
  v <- getitem_key (TMDB.runtime content_info) ;;
  int_of_json v.

Definition Movie_class : ContentClass :=
  mkClass Movie_get_tmdb_id Movie_get_content_info Movie_get_title
          Movie_get_directors Movie_get_release_date Movie_get_runtime.

Definition Movie (requester : APIRequests) (imdb_id : string) : M Content :=
  Content_init Movie_class new_object requester imdb_id true.

(** *** SeriesEpisode *)

Definition SeriesEpisode_get_tmdb_id (self : Content) (imdb_id : string)
  : M (Content * option string) :=
  rq <- attr_value (_requester self) ;;
  r <- get_info_from_imdb_id requests rq imdb_id ;;
  let episode_info := TMDB.tv_episode_results (json r) in
  if len episode_info =? 0 then
    ret (set_episode_ids self PyNone PyNone PyNone, None)
  else
    e <- list_getitem episode_info 0 ;;
    sh <- getitem_key (TMDB.show_id e) ;;
    se <- getitem_key (TMDB.season_number e) ;;
    ep <- getitem_key (TMDB.episode_number e) ;;
    ret (set_episode_ids self (Val (str_of_int sh)) (Val (str_of_int se))
                              (Val (str_of_int ep)),
         Some (str_of_int (TMDB.id e))).

Definition SeriesEpisode_get_content_info (self : Content)
  : M (response TMDB.details) :=
  rq <- attr_value (_requester self) ;;
  sh <- attr_value (show_id self) ;;
  get_show_info requests rq sh.

Definition SeriesEpisode_get_title (self : Content) (content_info : TMDB.details)
  : M string :=
  getitem_key (TMDB.original_name content_info).

(** The episode's own details, fetched by both methods below. *)
Definition episode_details (self : Content) : M TMDB.details :=
  rq <- attr_value (_requester self) ;;
  sh <- attr_value (show_id self) ;;
  se <- attr_value (season self) ;;
  ep <- attr_value (episode self) ;;
  r <- get_episode_info requests rq sh se ep ;;
  ret (json r).

Definition SeriesEpisode_get_directors (self : Content)
    (content_info : TMDB.details) : M (list string) :=
  content_info <- episode_details self ;;
  director_names content_info.

Definition SeriesEpisode_get_release_date (self : Content)
    (content_info : TMDB.details) : M datetime :=
  content_info <- episode_details self ;;
  s <- getitem_key (TMDB.air_date content_info) ;;
  '(year, month, day) <- unpack3 (str_split "-" s) ;;
  date_of_parts year month day.

(** [int(sum(l) / len(l))] over the show's [episode_run_time] *)
Definition SeriesEpisode_get_runtime (self : Content)
    (content_info : TMDB.details) : M Z :=
  l <- getitem_key (TMDB.episode_run_time content_info) ;;
  x <- int_truediv (sum l) (len l) ;;
  int_of_float x.

Definition SeriesEpisode_class : ContentClass :=
  mkClass SeriesEpisode_get_tmdb_id SeriesEpisode_get_content_info
          SeriesEpisode_get_title SeriesEpisode_get_directors
          SeriesEpisode_get_release_date SeriesEpisode_get_runtime.

Definition SeriesEpisode (requester : APIRequests) (imdb_id : string)
  : M Content :=
  let self := set_episode_ids new_object PyNone PyNone PyNone in
  Content_init SeriesEpisode_class self requester imdb_id false.
End Resolver.

(** ** WatchedContent *)

Record WatchedContent : Type := mkWatched {
  content : Content;
  platform : string;
  date : datetime;
  rating : float
}.

(** ** The reports *)

(** [x / n] for a float [x] and an integer [n]; [n] is a count of
    events here, far inside the range of binary64. *)
Definition float_truediv (x : float) (n : Z) : M float :=
  if n =? 0 then raise ZeroDivisionError
  else ret (float_div x (float_of_int n)).

(** The accumulation loop of the four "most watched" reports, over the
    attribute [field] of the content:
<<
    for c in watched_content:
        for k in c.content.field:
            if k not in scores: scores[k] = 0
            scores[k] += c.content.runtime
>> *)
Definition watched_step (c : WatchedContent) (scores : dict string Z) (k : string)
  : M (dict string Z) :=
  let scores := if dict_contains k scores then scores
                else dict_setitem k 0 scores in
  old <- dict_getitem scores k ;;
  r <- attr_value (runtime (content c)) ;;
  ret (dict_setitem k (old + r) scores).

Definition watched_scores (field : Content -> attr (list string))
    (watched_content : list WatchedContent) : M (dict string Z) :=
  for_each watched_content
    (fun scores c =>
       ks <- attr_value (field (content c)) ;;
       for_each ks (watched_step c) scores)
    [].

(** [for x in nlargest(TOP_N, scores, key = scores.get): print(...)] *)
Definition print_top_int (scores : dict string Z) : M unit :=
  iter (nlargest Z.ltb (dict_get 0 scores) TOP_N (dict_keys scores))
    (fun x => v <- dict_getitem scores x ;;
              print "{}: {}" [AStr x; AInt v]).

Definition most_watched (field : Content -> attr (list string)) (header : string)
    (watched_content : list WatchedContent) : M unit :=
  scores <- watched_scores field watched_content ;;
  print header [] ;;
  print_top_int scores.

Definition get_most_watched_genres := most_watched genres "Most watched genres".
Definition get_most_watched_actors := most_watched actors "Most watched actors".
Definition get_most_watched_production_companies :=
  most_watched production_companies "Most watched production_companies".
Definition get_most_watched_directors :=
  most_watched directors "Most watched directors".

(** The accumulation loop of the four "best rated" reports:
<<
    for c in watched_content:
        for k in c.content.field:
            if k not in ratings:
                ratings[k] = 0
                amount_watched[k] = 0
            ratings[k] += c.rating
            amount_watched[k] += 1
>> *)
Definition liked_step (c : WatchedContent)
    (acc : dict string float * dict string Z) (k : string)
  : M (dict string float * dict string Z) :=
  let '(ratings, amount_watched) := acc in
  let '(ratings, amount_watched) :=
    if dict_contains k ratings then (ratings, amount_watched)
    else (dict_setitem k (float_of_int 0) ratings,
          dict_setitem k 0 amount_watched) in
  old <- dict_getitem ratings k ;;
  let ratings := dict_setitem k (float_add old (rating c)) ratings in
  n <- dict_getitem amount_watched k ;;
  ret (ratings, dict_setitem k (n + 1) amount_watched).

Definition liked_tables (field : Content -> attr (list string))
    (watched_content : list WatchedContent)
  : M (dict string float * dict string Z) :=
  for_each watched_content
    (fun acc c =>
       ks <- attr_value (field (content c)) ;;
       for_each ks (liked_step c) acc)
    ([], []).

(** The suppression loop:
<<
    for k, rating in ratings.items():
        if amount_watched[k] < threshold: continue
        scores[k] = float(rating) / amount_watched[k]
>> *)
Definition liked_scores (threshold : Z) (ratings : dict string float)
    (amount_watched : dict string Z) : M (dict string float) :=
  for_each ratings
    (fun scores kr =>
       let '(k, rating) := kr in
       n <- dict_getitem amount_watched k ;;
       if n <? threshold then ret scores
       else
         n' <- dict_getitem amount_watched k ;;
         s <- float_truediv rating n' ;;
         ret (dict_setitem k s scores))
    [].

Definition print_top_float (scores : dict string float) : M unit :=
  iter (nlargest float_lt (dict_get S754_nan scores) TOP_N (dict_keys scores))
    (fun x => v <- dict_getitem scores x ;;
              print "{}: {}" [AStr x; AFloat v]).

Definition most_liked (field : Content -> attr (list string)) (threshold : Z)
    (header : string) (watched_content : list WatchedContent) : M unit :=
  '(ratings, amount_watched) <- liked_tables field watched_content ;;
  scores <- liked_scores threshold ratings amount_watched ;;
  print header [] ;;
  print_top_float scores.

Definition get_most_liked_genres :=
  most_liked genres MIN_THRESHOLD "Best rated genres".
Definition get_most_liked_actors :=
  most_liked actors MIN_THRESHOLD "Best rated actor".
Definition get_most_liked_production_companies :=
  most_liked production_companies MIN_THRESHOLD "Best rated production companies".
Definition get_most_liked_directors :=
  most_liked directors MIN_THRESHOLD_FOR_DIRECTORS "Best rated director".

(** The four counters of [get_amount_of_movies_and_series_watched]. *)
Record counters : Type := mkCounters {
  movie_counter : Z;
  movie_minutes : Z;
  series_counter : Z;
  series_minutes : Z
}.

Definition count_movies_and_series (watched_content : list WatchedContent)
  : M counters :=
  for_each watched_content
    (fun n c =>
       m <- attr_truth (is_movie (content c)) ;;
       r <- attr_value (runtime (content c)) ;;
       if (m : bool) then
         ret (mkCounters (movie_counter n + 1) (movie_minutes n + r)
                         (series_counter n) (series_minutes n))
       else
         ret (mkCounters (movie_counter n) (movie_minutes n)
                         (series_counter n + 1) (series_minutes n + r)))
    (mkCounters 0 0 0 0).

Definition get_amount_of_movies_and_series_watched
    (watched_content : list WatchedContent) : M unit :=
  n <- count_movies_and_series watched_content ;;
  print "Amount of movies watched: {} ({} minutes)"
        [AInt (movie_counter n); AInt (movie_minutes n)] ;;
  print "Amount of series watched: {} ({} minutes)"
        [AInt (series_counter n); AInt (series_minutes n)].

(** [if k not in d: d[k] = 0] then [d[k] += r] *)
Definition add_to {K} `{EqDec K} (k : K) (r : attr Z) (d : dict K Z)
  : M (dict K Z) :=
  let d := if dict_contains k d then d else dict_setitem k 0 d in
  old <- dict_getitem d k ;;
  v <- attr_value r ;;
  ret (dict_setitem k (old + v) d).

Definition get_platform_usage (watched_content : list WatchedContent) : M unit :=
  counter <- for_each watched_content
               (fun counter c => add_to (platform c) (runtime (content c)) counter)
               [] ;;
  print "Platform usage" [] ;;
  iter counter (fun pc => print "{}: {}" [AStr (fst pc); AInt (snd pc)]).

(** [d[k] += r] on a key that must exist *)
Definition bump (k : string) (r : attr Z) (d : dict string Z)
  : M (dict string Z) :=
  old <- dict_getitem d k ;;
  v <- attr_value r ;;
  ret (dict_setitem k (old + v) d).

Definition months0 : dict string Z :=
  [("January", 0); ("February", 0); ("March", 0); ("April", 0); ("May", 0);
   ("June", 0); ("July", 0); ("August", 0); ("September", 0); ("October", 0);
   ("November", 0); ("December", 0)].

Definition weekday0 : dict string Z :=
  [("Sunday", 0); ("Monday", 0); ("Tuesday", 0); ("Wednesday", 0);
   ("Thursday", 0); ("Friday", 0); ("Saturday", 0)].

Record activity : Type := mkActivity {
  months : dict string Z;
  weekday : dict string Z;
  days : dict datetime Z
}.

(** The accumulation loop of [get_activity_by_month_and_day]. *)
Definition activity_step (a : activity) (c : WatchedContent) : M activity :=
  mn <- list_getitem month_name (month (date c)) ;;
  months' <- bump mn (runtime (content c)) (months a) ;;
  dn <- list_getitem day_name (weekday_of (date c)) ;;
  weekday' <- bump dn (runtime (content c)) (weekday a) ;;
  days' <- add_to (date c) (runtime (content c)) (days a) ;;
  ret (mkActivity months' weekday' days').

Definition activity_tables (watched_content : list WatchedContent) : M activity :=
  for_each watched_content activity_step (mkActivity months0 weekday0 []).

Definition print_int_items (d : dict string Z) : M unit :=
  iter d (fun kv => print "{}: {}" [AStr (fst kv); AInt (snd kv)]).

Definition get_activity_by_month_and_day (watched_content : list WatchedContent)
  : M unit :=
  a <- activity_tables watched_content ;;
  print "Activity by month" [] ;;
  print_int_items (months a) ;;
  print EmptyString [] ;;
  print "Activity by weekday" [] ;;
  print_int_items (weekday a) ;;
  print EmptyString [] ;;
  max_day <- py_max Z.ltb snd (days a) ;;
  print "Day with the most activity: {}/{}"
        [AInt (month (fst max_day)); AInt (day (fst max_day))].

(** ** main

    Reading the file is left outside: [main] takes the list that
    [load_watching_habits_to_memory_from_csv] returns. *)

(** One line of the watching-habits file, as the reader hands it over:
    the columns [Date], [Movie or Series], [Name], [Platform], [Rating]
    and [IMDB ID]. *)
Record raw_record : Type := mkRaw {
  Date : string;
  Movie_or_Series : string;
  Name : string;
  Platform : string;
  Rating : string;
  IMDB_ID : string
}.

Section Main.
Variable requests : Catalog.
Variable py_int : string -> option Z.
(** [float(s)] on a string, [None] when it raises [ValueError]. *)
Variable py_float : string -> option float.

Definition float_of_str (s : string) : M float :=
  match py_float s with
  | Some x => ret x
  | None => raise ValueError
  end.

(** [Movie(tmdb, id)] or [SeriesEpisode(tmdb, id)], by the record's
    kind. *)
Definition resolve (tmdb : APIRequests) (content : raw_record) : M Content :=
  if String.eqb (Movie_or_Series content) "Movie"
  then Movie requests py_int tmdb (IMDB_ID content)
  else SeriesEpisode requests py_int tmdb (IMDB_ID content).

(** The body of the loop that builds the list of watched content. *)
Definition build_step (tmdb : APIRequests)
    (watched_content : list WatchedContent) (content : raw_record)
  : M (list WatchedContent) :=
  c <- resolve tmdb content ;;
  unresolved <- attr_is_none (tmdb_id c) ;;
  if (unresolved : bool) then
    print "There's an error with {} ({})"
          [AStr (Name content); AStr (IMDB_ID content)] ;;
    ret watched_content
  else
    '(month, day, year) <- unpack3 (str_split "/" (Date content)) ;;
    d <- date_of_parts py_int year month day ;;
    r <- float_of_str (Rating content) ;;
    ret (watched_content ++ [mkWatched c (Platform content) d r]).

Definition build_watched_content (tmdb : APIRequests)
    (watching_habits_raw : list raw_record) : M (list WatchedContent) :=
  for_each watching_habits_raw (build_step tmdb) [].

Definition main (watching_habits_raw : list raw_record) : M unit :=
  let tmdb := mkAPIRequests API_KEY in
  watched_content <- build_watched_content tmdb watching_habits_raw ;;
  get_most_watched_genres watched_content ;;
  print EmptyString [] ;;
  get_most_liked_genres watched_content ;;
  print EmptyString [] ;;
  get_amount_of_movies_and_series_watched watched_content ;;
  print EmptyString [] ;;
  get_platform_usage watched_content ;;
  print EmptyString [] ;;
  get_most_watched_actors watched_content ;;
  print EmptyString [] ;;
  get_most_liked_actors watched_content ;;
  print EmptyString [] ;;
  get_most_watched_production_companies watched_content ;;
  print EmptyString [] ;;
  get_most_liked_production_companies watched_content ;;
  print EmptyString [] ;;
  get_most_watched_directors watched_content ;;
  print EmptyString [] ;;
  get_most_liked_directors watched_content ;;
  print EmptyString [] ;;
  get_activity_by_month_and_day watched_content.
End Main.

(** * Vocabulary of the properties *)

Definition is_val {A} (a : attr A) : bool :=
  match a with Val _ => true | _ => false end.

(** [main] only ever builds a [WatchedContent] from a content whose
    [tmdb_id] is not [None]: the attributes the reports read are then
    all assigned a value. *)
Definition resolvedb (c : WatchedContent) : bool :=
  is_val (genres (content c)) && is_val (actors (content c))
  && is_val (directors (content c))
  && is_val (production_companies (content c))
  && is_val (is_movie (content c)) && is_val (runtime (content c)).

Definition resolved (c : WatchedContent) : Prop := resolvedb c = true.

(** What an attribute holds, for lists, numbers and flags. *)
Definition list_of {A} (a : attr (list A)) : list A :=
  match a with Val l => l | _ => [] end.

Definition runtime_of (c : WatchedContent) : Z :=
  match runtime (content c) with Val r => r | _ => 0 end.

Definition movie_of (c : WatchedContent) : bool :=
  match is_movie (content c) with Val b => b | _ => false end.

Definition total_runtime (watched_content : list WatchedContent) : Z :=
  sum (map runtime_of watched_content).

Definition count_step (n : counters) (c : WatchedContent) : counters :=
  if movie_of c then
    mkCounters (movie_counter n + 1) (movie_minutes n + runtime_of c)
               (series_counter n) (series_minutes n)
  else
    mkCounters (movie_counter n) (movie_minutes n)
               (series_counter n + 1) (series_minutes n + runtime_of c).

(** Descending order of the keys. *)
Definition descending {A} (key : A -> Z) (a b : A) : Prop := key b <= key a.

(** What [if k not in d: d[k] = 0] then [d[k] += r] leaves in [d]. *)
Definition add_pure {K} `{EqDec K} (k : K) (r : Z) (d : dict K Z) : dict K Z :=
  let d' := if dict_contains k d then d else dict_setitem k 0 d in
  dict_setitem k (dict_get 0 d' k + r) d'.

(** What one event adds to the total of [k]: its runtime, once per
    occurrence of [k] in the field. *)
Definition contribution (k : string) (ks : list string) (r : Z) : Z :=
  sum (map (fun k' => if eq_dec k k' then r else 0) ks).

(** The total of [k] over a collection when each occurrence of [k] in
    the field of an event weighs [weight] of that event. *)
Definition total_of (weight : WatchedContent -> Z)
    (field : Content -> attr (list string))
    (wc : list WatchedContent) (k : string) : Z :=
  sum (map (fun c => contribution k (list_of (field (content c))) (weight c)) wc).

(** The summed runtime of [k] and the number of its occurrences. *)
Definition score_of := total_of runtime_of.
Definition occurrences := total_of (fun _ => 1).

Definition reportable (field : Content -> attr (list string)) : Prop :=
  field = genres \/ field = actors \/ field = directors
  \/ field = production_companies.

Definition int_line (kv : string * Z) : line :=
  Line "{}: {}" [AStr (fst kv); AInt (snd kv)].

Definition add_all (r : Z) (ks : list string) (d : dict string Z)
  : dict string Z :=
  fold_left (fun d k => add_pure k r d) ks d.

Definition tally (weight : WatchedContent -> Z)
    (field : Content -> attr (list string))
    (wc : list WatchedContent) (d : dict string Z) : dict string Z :=
  fold_left (fun d c => add_all (weight c) (list_of (field (content c))) d)
            wc d.

Definition scores_pure := tally runtime_of.

(** What a sum-ranking report over [field] must print and what its
    entries must satisfy. *)
Definition sum_ranking_report (field : Content -> attr (list string))
    (header : string) (report : list WatchedContent -> M unit)
    (wc : list WatchedContent) (w : World) : Prop :=
  exists entries : list (string * Z),
    report wc w
    = (Ok tt,
       mkWorld (calls w) (stdout w ++ Line header [] :: map int_line entries))
    /\ (forall k v, In (k, v) entries ->
          (exists c, In c wc /\ In k (list_of (field (content c))))
          /\ v = score_of field wc k /\ 0 <= v)
    /\ StronglySorted (fun a b => snd b <= snd a) entries
    /\ NoDup (map fst entries)
    /\ (length entries <= 20)%nat.

Definition float_line (kv : string * float) : line :=
  Line "{}: {}" [AStr (fst kv); AFloat (snd kv)].

(** What the body of the accumulation loop leaves in [ratings] and
    [amount_watched]. *)
Definition liked_pure (x : float) (acc : dict string float * dict string Z)
    (k : string) : dict string float * dict string Z :=
  let '(ratings, amount_watched) := acc in
  let '(ratings, amount_watched) :=
    if dict_contains k ratings then (ratings, amount_watched)
    else (dict_setitem k (float_of_int 0) ratings,
          dict_setitem k 0 amount_watched) in
  (dict_setitem k (float_add (dict_get S754_nan ratings k) x) ratings,
   dict_setitem k (dict_get 0 amount_watched k + 1) amount_watched).

Definition tables_pure (field : Content -> attr (list string))
    (wc : list WatchedContent) (acc : dict string float * dict string Z)
  : dict string float * dict string Z :=
  fold_left
    (fun acc c => fold_left (liked_pure (rating c)) (list_of (field (content c))) acc)
    wc acc.

(** The two dictionaries always hold the same keys. *)
Definition same_keys (acc : dict string float * dict string Z) : Prop :=
  forall k, dict_contains k (fst acc) = dict_contains k (snd acc).

(** What the body of the suppression loop leaves in [scores]. *)
Definition suppress (threshold : Z) (amount_watched : dict string Z)
    (scores : dict string float) (kr : string * float) : dict string float :=
  if dict_get 0 amount_watched (fst kr) <? threshold then scores
  else dict_setitem (fst kr)
         (float_div (snd kr) (float_of_int (dict_get 0 amount_watched (fst kr))))
         scores.

(** What an average-ranking report over [field] must print: every key
    it shows has been seen at least [threshold] times. *)
Definition average_ranking_report (field : Content -> attr (list string))
    (threshold : Z) (header : string) (report : list WatchedContent -> M unit)
    (wc : list WatchedContent) (w : World) : Prop :=
  exists entries : list (string * float),
    report wc w
    = (Ok tt,
       mkWorld (calls w) (stdout w ++ Line header [] :: map float_line entries))
    /\ (forall k v, In (k, v) entries -> threshold <= occurrences field wc k)
    /\ (length entries <= 20)%nat.

(** What [d[k] += r] leaves in [d] when [k] is a key of [d]. *)
Definition bump_pure (k : string) (r : Z) (d : dict string Z) : dict string Z :=
  dict_setitem k (dict_get 0 d k + r) d.

Definition month_label (d : datetime) : string :=
  nth (Z.to_nat (month d)) month_name EmptyString.

Definition day_label (d : datetime) : string :=
  nth (Z.to_nat (weekday_of d)) day_name EmptyString.

Definition activity_pure (a : activity) (c : WatchedContent) : activity :=
  mkActivity (bump_pure (month_label (date c)) (runtime_of c) (months a))
             (bump_pure (day_label (date c)) (runtime_of c) (weekday a))
             (add_pure (date c) (runtime_of c) (days a)).

(** The runtime an event adds to the bucket [k] when [label] names the
    bucket of the event, and the bucket's total over a collection. *)
Definition bucket_total {K} `{EqDec K} (label : WatchedContent -> K)
    (wc : list WatchedContent) (k : K) : Z :=
  sum (map (fun c => if eq_dec k (label c) then runtime_of c else 0) wc).

Definition month_total := bucket_total (fun c => month_label (date c)).
Definition weekday_total := bucket_total (fun c => day_label (date c)).
Definition day_total := bucket_total date.

(** The lines printed before the most active day is looked up. *)
Definition activity_lines (a : activity) : list line :=
  [Line "Activity by month" []] ++ map int_line (months a)
  ++ [Line EmptyString []; Line "Activity by weekday" []] ++ map int_line (weekday a)
  ++ [Line EmptyString []].

(** The scan of [max(days.items(), key=operator.itemgetter(1))]. *)
Definition max_scan (x : datetime * Z) (l : list (datetime * Z)) : datetime * Z :=
  fold_left (fun best y => if snd best <? snd y then y else best) l x.

(** What the accumulation loop maintains. *)
Definition activity_inv (a : activity) : Prop :=
  dict_keys (months a) = dict_keys months0
  /\ dict_keys (weekday a) = dict_keys weekday0.

Definition days_pure (wc : list WatchedContent) (d : dict datetime Z)
  : dict datetime Z :=
  fold_left (fun d c => add_pure (date c) (runtime_of c) d) wc d.

(** The request that resolves an external id, and the catalog's answer
    to it. *)
Definition find_url (imdb_id : string) : string :=
  (BASE_URL ++ ("/find/" ++ imdb_id))%string.

Definition find_response (requests : Catalog) (tmdb : APIRequests)
    (imdb_id : string) : response TMDB.find_body :=
  get_find requests (find_url imdb_id)
    [("api_key", api_key tmdb); ("external_source", "imdb_id")].

(** The entries the catalog matched to the record's external id: the
    movie results for a movie, the episode results otherwise. *)
Definition matches (requests : Catalog) (tmdb : APIRequests)
    (content : raw_record) : list TMDB.find_entry :=
  let body := json (find_response requests tmdb (IMDB_ID content)) in
  if String.eqb (Movie_or_Series content) "Movie"
  then TMDB.movie_results body
  else TMDB.tv_episode_results body.

(** The diagnostic of the builder for a record. *)
Definition diagnostic (content : raw_record) : line :=
  Line "There's an error with {} ({})"
       [AStr (Name content); AStr (IMDB_ID content)].


(** The content object left by a resolution without a match. *)
Definition unresolved_content (tmdb : APIRequests) (movie : bool) : Content :=
  mkContent (Val tmdb) PyNone PyNone PyNone (Val movie) (Val (negb movie))
            PyNone PyNone Unset PyNone PyNone PyNone
            (if movie then Unset else PyNone)
            (if movie then Unset else PyNone)
            (if movie then Unset else PyNone).

(** The integer part of [m * 2 ^ e]. *)
Definition trunc_val (m e : Z) : Z :=
  if 0 <=? e then m * 2 ^ e else m / 2 ^ (- e).

(** [f] is a zero, or a finite float of sign [s], and the integer part
    of its absolute value is [T]. *)
Definition float_trunc (s : bool) (f : float) (T : Z) : Prop :=
  match f with
  | S754_zero _ => T = 0
  | S754_finite s' m e => s' = s /\ T = trunc_val (Zpos m) e
  | _ => False
  end.

Definition sample_tmdb : APIRequests := mkAPIRequests API_KEY.


(** A catalog that knows no external id. *)
Definition catalog_empty : Catalog :=
  mkCatalog
    (fun u _ => mkResponse u 200 EmptyString (TMDB.mkFind [] []))
    (fun u _ => mkResponse u 404 "Not Found"
                  (TMDB.mkDetails None None None None None None None None None)).

Definition no_int (s : string) : option Z := None.
Definition no_float (s : string) : option float := None.

Definition first_record : raw_record :=
  mkRaw "03/01/2021" "Movie" "Paths of Glory" "Netflix" "8.0" "tt0050825".
Definition second_record : raw_record :=
  mkRaw "03/06/2021" "Series" "Pilot" "HBO" "7.0" "tt0000002".

(** A show whose only declared episode runtime is [2 ^ 53 + 1]. *)
Definition long_show : TMDB.details :=
  TMDB.mkDetails None (Some "Long") (Some []) None (Some []) None None None
                 (Some [9007199254740993]).

Definition short_show : TMDB.details :=
  TMDB.mkDetails None (Some "Short") (Some []) None (Some []) None None None
                 (Some [30; 45; 50]).

Definition sample_content (movie : bool) (g a d p : list string) (r : Z)
  : Content :=
  mkContent (Val sample_tmdb) (Val "42") (Val "T") (Val g) (Val movie)
            (Val (negb movie)) (Val a) (Val d) (Val p) Unset
            (Val (mkDate 1957 12 25)) (Val r) Unset Unset Unset.

Definition war_movie : Content :=
  sample_content true ["Drama"; "War"] ["Kirk"] ["Stanley"] ["Bryna"] 120.
Definition drama_episode : Content :=
  sample_content false ["Drama"] ["Kirk"] ["Alan"] ["Bryna"] 41.

(** Five events: two on Monday 1 March 2021, the others on days of
    their own. *)
Definition sample_events : list WatchedContent :=
  [mkWatched war_movie "Netflix" (mkDate 2021 3 1) (float_of_int 8);
   mkWatched drama_episode "HBO" (mkDate 2021 3 1) (float_of_int 7);
   mkWatched war_movie "Netflix" (mkDate 2021 3 6) (float_of_int 9);
   mkWatched drama_episode "HBO" (mkDate 2021 4 10) (float_of_int 6);
   mkWatched drama_episode "HBO" (mkDate 2021 5 2) (float_of_int 10)].

(** ** Vocabulary of the further properties *)

(** The distinct elements of a list, each at its first occurrence. *)
Definition first_seen {K} `{EqDec K} (l : list K) : list K :=
  fold_left (fun acc x => if in_dec eq_dec x acc then acc else acc ++ [x]) l [].

(** The table that [if k not in d: d[k] = 0] then [d[k] += runtime]
    builds when [label] gives the key of an event. *)
Definition bucket_pure {K} `{EqDec K} (label : WatchedContent -> K)
    (wc : list WatchedContent) (d : dict K Z) : dict K Z :=
  fold_left (fun d c => add_pure (label c) (runtime_of c) d) wc d.

(** The entries of a table whose keys are [ks] and whose values are
    given by [total]. *)
Definition table_of {K} (total : K -> Z) (ks : list K) : list (K * Z) :=
  map (fun k => (k, total k)) ks.

(** What makes the entries of a sum-ranking report the largest ones:
    a key seen in the field is either printed with its total, or the
    report is full and nothing it prints has a smaller total. *)
Definition sum_ranking_top (field : Content -> attr (list string))
    (header : string) (report : list WatchedContent -> M unit)
    (wc : list WatchedContent) (w : World) : Prop :=
  exists entries : list (string * Z),
    report wc w
    = (Ok tt,
       mkWorld (calls w) (stdout w ++ Line header [] :: map int_line entries))
    /\ forall k,
         (exists c, In c wc /\ In k (list_of (field (content c)))) ->
         In (k, score_of field wc k) entries
         \/ (length entries = 20%nat
             /\ forall k' v', In (k', v') entries -> score_of field wc k <= v').

(** The ratings of the events that carry [k], added up in the order of
    the events, once per occurrence of [k] in the field, from [0]. *)
Definition rating_sum_step (k : string) (x : float) (ks : list string)
    (s : float) : float :=
  fold_left (fun s k' => if eq_dec k k' then float_add s x else s) ks s.

Definition rating_sum (field : Content -> attr (list string))
    (wc : list WatchedContent) (k : string) : float :=
  fold_left
    (fun s c => rating_sum_step k (rating c) (list_of (field (content c))) s)
    wc (float_of_int 0).

(** The score of [k] in a "best rated" report. *)
Definition mean_rating (field : Content -> attr (list string))
    (wc : list WatchedContent) (k : string) : float :=
  float_div (rating_sum field wc k) (float_of_int (occurrences field wc k)).

(** What the entries of an average-ranking report are: each is the mean
    rating of its key, and a key seen at least [threshold] times is
    printed unless twenty entries are printed already. *)
Definition average_ranking_values (field : Content -> attr (list string))
    (threshold : Z) (header : string) (report : list WatchedContent -> M unit)
    (wc : list WatchedContent) (w : World) : Prop :=
  exists entries : list (string * float),
    report wc w
    = (Ok tt,
       mkWorld (calls w) (stdout w ++ Line header [] :: map float_line entries))
    /\ (forall k v, In (k, v) entries -> v = mean_rating field wc k)
    /\ NoDup (map fst entries)
    /\ (forall k,
          (exists c, In c wc /\ In k (list_of (field (content c)))) ->
          threshold <= occurrences field wc k ->
          In (k, mean_rating field wc k) entries \/ length entries = 20%nat).

(** A computation leaves the component [f] of the world as it found
    it, whatever it returns or raises. *)
Definition keeps {A X} (f : World -> X) (m : M A) : Prop :=
  forall w r w', m w = (r, w') -> f w' = f w.

(** The detail requests and the catalog's answers to them. *)
Definition movie_url (movie_id : string) : string :=
  (BASE_URL ++ ("/movie/" ++ movie_id))%string.

Definition show_url (show_id : string) : string :=
  (BASE_URL ++ ("/tv/" ++ show_id))%string.

Definition episode_url (show_id season episode : string) : string :=
  (BASE_URL
   ++ ("/tv/" ++ show_id ++ "/season/" ++ season ++ "/episode/" ++ episode))%string.

Definition details_response (requests : Catalog) (tmdb : APIRequests)
    (u : string) : response TMDB.details :=
  get_details requests u
    [("api_key", api_key tmdb); ("append_to_response", "credits")].

(** The attribute [a] holds what [f] makes of the value under a key of
    an answer. *)
Definition read_from {A B} (key : option A) (f : A -> B) (a : attr B) : Prop :=
  exists x, key = Some x /\ a = Val (f x).

(** The attribute [a] holds the date that a [YYYY-MM-DD] string under a
    key of an answer spells. *)
Definition date_from (py_int : string -> option Z) (key : option string)
    (a : attr datetime) : Prop :=
  exists s y m d dt,
    key = Some s /\ str_split "-" s = [y; m; d]
    /\ py_int y = Some (year dt) /\ py_int m = Some (month dt)
    /\ py_int d = Some (day dt) /\ valid_date dt /\ a = Val dt.

(** The names of the first [MAX_DIRECTORS] crew members whose job is
    "Director". *)
Definition directors_of (cr : TMDB.credits_t) : list string :=
  firstn MAX_DIRECTORS
    (map TMDB.crew_name
       (filter (fun c => String.eqb (TMDB.job c) "Director") (TMDB.crew cr))).

(** The names of the first [MAX_CAST] cast members. *)
Definition actors_of (cr : TMDB.credits_t) : list string :=
  map TMDB.name (firstn MAX_CAST (TMDB.cast cr)).

(** What a successful [Movie(requester, imdb_id)] has done and built:
    nothing printed; without a match, one request and the empty
    object; with a match, the details of the first match requested
    next and every attribute read from that answer. *)
Definition movie_built (requests : Catalog) (py_int : string -> option Z)
    (tmdb : APIRequests) (imdb_id : string) (w : World) (c : Content)
    (w' : World) : Prop :=
  stdout w' = stdout w
  /\ status_code (find_response requests tmdb imdb_id) = STATUS_CODE_OK
  /\ match TMDB.movie_results (json (find_response requests tmdb imdb_id)) with
     | [] =>
         c = unresolved_content tmdb true
         /\ calls w' = calls w ++ [find_url imdb_id]
     | e :: _ =>
         let i := str_of_int (TMDB.id e) in
         let r := details_response requests tmdb (movie_url i) in
         calls w' = calls w ++ [find_url imdb_id; movie_url i]
         /\ status_code r = STATUS_CODE_OK
         /\ tmdb_id c = Val i
         /\ is_movie c = Val true /\ is_series c = Val false
         /\ read_from (TMDB.original_title (json r)) (fun t => t) (title c)
         /\ read_from (TMDB.genres (json r)) (map TMDB.name) (genres c)
         /\ read_from (TMDB.credits (json r)) actors_of (actors c)
         /\ read_from (TMDB.credits (json r)) directors_of (directors c)
         /\ read_from (TMDB.production_companies (json r)) (map TMDB.name)
              (production_companies c)
         /\ date_from py_int (TMDB.release_date (json r)) (release_date c)
         /\ (exists n, TMDB.runtime (json r) = Some (Some n)
                       /\ runtime c = Val n)
     end.

(** What a successful [SeriesEpisode(requester, imdb_id)] has done and
    built: nothing printed; without a match, one request and the empty
    object; with a match, the details of the show requested next, then
    the details of the episode twice, the show's answer read for title,
    genres, cast, companies and runtime, the episode's answer for
    directors and air date. *)
Definition episode_built (requests : Catalog) (py_int : string -> option Z)
    (tmdb : APIRequests) (imdb_id : string) (w : World) (c : Content)
    (w' : World) : Prop :=
  stdout w' = stdout w
  /\ status_code (find_response requests tmdb imdb_id) = STATUS_CODE_OK
  /\ match TMDB.tv_episode_results
             (json (find_response requests tmdb imdb_id)) with
     | [] =>
         c = unresolved_content tmdb false
         /\ calls w' = calls w ++ [find_url imdb_id]
     | e :: _ =>
         exists sh se ep,
           TMDB.show_id e = Some sh /\ TMDB.season_number e = Some se
           /\ TMDB.episode_number e = Some ep
           /\ let show :=
                details_response requests tmdb (show_url (str_of_int sh)) in
              let u := episode_url (str_of_int sh) (str_of_int se)
                                   (str_of_int ep) in
              let epi := details_response requests tmdb u in
              calls w'
              = calls w ++ [find_url imdb_id; show_url (str_of_int sh); u; u]
              /\ status_code show = STATUS_CODE_OK
              /\ status_code epi = STATUS_CODE_OK
              /\ tmdb_id c = Val (str_of_int (TMDB.id e))
              /\ show_id c = Val (str_of_int sh)
              /\ season c = Val (str_of_int se)
              /\ episode c = Val (str_of_int ep)
              /\ is_movie c = Val false /\ is_series c = Val true
              /\ read_from (TMDB.original_name (json show)) (fun t => t)
                   (title c)
              /\ read_from (TMDB.genres (json show)) (map TMDB.name) (genres c)
              /\ read_from (TMDB.credits (json show)) actors_of (actors c)
              /\ read_from (TMDB.credits (json epi)) directors_of (directors c)
              /\ read_from (TMDB.production_companies (json show))
                   (map TMDB.name) (production_companies c)
              /\ date_from py_int (TMDB.air_date (json epi)) (release_date c)
              /\ exists l rt,
                   TMDB.episode_run_time (json show) = Some l /\ l <> []
                   /\ runtime c = Val rt
                   /\ (- 2 ^ 53 < sum l < 2 ^ 53 -> rt = Z.quot (sum l) (len l))
     end.

(** The catalog has no match for the record. *)
Definition unmatched (requests : Catalog) (tmdb : APIRequests)
    (content : raw_record) : bool :=
  match matches requests tmdb content with
  | [] => true
  | _ :: _ => false
  end.

(** The event [ev] is what the builder makes of the record: the
    record's platform, the date its [MM/DD/YYYY] string spells, its
    rating, and a content with an identifier. *)
Definition event_of_record (py_int : string -> option Z)
    (py_float : string -> option float) (record : raw_record)
    (ev : WatchedContent) : Prop :=
  platform ev = Platform record
  /\ py_float (Rating record) = Some (rating ev)
  /\ (exists m d y,
         str_split "/" (Date record) = [m; d; y]
         /\ py_int y = Some (year (date ev))
         /\ py_int m = Some (month (date ev))
         /\ py_int d = Some (day (date ev)))
  /\ valid_date (date ev)
  /\ resolved ev
  /\ exists i, tmdb_id (content ev) = Val i /\ i <> EmptyString.

(** The computation ends with the result [r], whatever the world it
    starts from, and sends no request. *)
Definition ends_with {A} (r : result A) (m : M A) : Prop :=
  forall w, exists w', m w = (r, w') /\ calls w' = calls w.

(** The date a [MM/DD/YYYY] string spells: three parts, each an
    integer, that make a date of the calendar. *)
Definition read_date (py_int : string -> option Z) (s : string)
  : option datetime :=
  match str_split "/" s with
  | [m; d; y] =>
      match py_int y, py_int m, py_int d with
      | Some y', Some m', Some d' =>
          if valid_dateb (mkDate y' m' d') then Some (mkDate y' m' d')
          else None
      | _, _, _ => None
      end
  | _ => None
  end.

(** The exception a record that cannot be read ends in:
    [OverflowError] when the three parts of its date are integers of
    which one does not fit a C [int], [ValueError] in every other case
    (a date that has not three parts, a part that is not an integer,
    three integers that are not a date of the calendar, a rating that
    is not a float). *)
Definition record_fault (py_int : string -> option Z) (record : raw_record)
  : exn :=
  match str_split "/" (Date record) with
  | [m; d; y] =>
      match py_int y, py_int m, py_int d with
      | Some y', Some m', Some d' =>
          if fits_c_int y' && fits_c_int m' && fits_c_int d' then ValueError
          else OverflowError
      | _, _, _ => ValueError
      end
  | _ => ValueError
  end.

(** The date a [YYYY-MM-DD] string spells. *)
Definition read_iso_date (py_int : string -> option Z) (s : string)
  : option datetime :=
  match str_split "-" s with
  | [y; m; d] =>
      match py_int y, py_int m, py_int d with
      | Some y', Some m', Some d' =>
          if valid_dateb (mkDate y' m' d') then Some (mkDate y' m' d')
          else None
      | _, _, _ => None
      end
  | _ => None
  end.

(** ** A sample catalog and sample records *)

(** [int] and [float] on the strings of the samples: decimal integers,
    and the two ratings of the sample records. *)
Definition sample_int (s : string) : option Z :=
  option_map Z.of_int (NilZero.int_of_string s).

Definition sample_float (s : string) : option float :=
  if String.eqb s "8.0" then Some (float_of_int 8)
  else if String.eqb s "7.0" then Some (float_of_int 7)
  else None.

Definition no_details : TMDB.details :=
  TMDB.mkDetails None None None None None None None None None.

Definition sample_credits : TMDB.credits_t :=
  TMDB.mkCredits
    [TMDB.mkNamed "Kirk Douglas"; TMDB.mkNamed "Ralph Meeker"]
    [TMDB.mkCrew "Producer" "James B. Harris";
     TMDB.mkCrew "Director" "Stanley Kubrick"].

Definition movie_details (movie_runtime : option Z) : TMDB.details :=
  TMDB.mkDetails (Some "Paths of Glory") None
    (Some [TMDB.mkNamed "Drama"; TMDB.mkNamed "War"])
    (Some sample_credits)
    (Some [TMDB.mkNamed "Bryna Productions"])
    (Some "1957-12-25") None (Some movie_runtime) None.

Definition show_details (run_times : list Z) : TMDB.details :=
  TMDB.mkDetails None (Some "Pilot Show")
    (Some [TMDB.mkNamed "Drama"])
    (Some sample_credits)
    (Some [TMDB.mkNamed "Bryna Productions"])
    None None None (Some run_times).

Definition episode_details_sample : TMDB.details :=
  TMDB.mkDetails None None None
    (Some (TMDB.mkCredits [] [TMDB.mkCrew "Director" "Alan Smithee"]))
    None None (Some "2008-01-20") None None.

(** A catalog that matches [tt0050825] to the movie 975, whose runtime
    is [movie_runtime], and [tt0000002] to episode 1 of season 1 of the
    show 1396, whose episode runtimes are [run_times], and answers the
    details requests for them with the status [details_status]. *)
Definition catalog_of (details_status : Z) (movie_runtime : option Z)
    (run_times : list Z) : Catalog :=
  mkCatalog
    (fun u _ =>
       mkResponse u 200 EmptyString
         (if String.eqb u (find_url "tt0050825")
          then TMDB.mkFind [TMDB.mkEntry 975 None None None] []
          else if String.eqb u (find_url "tt0000002")
          then TMDB.mkFind [] [TMDB.mkEntry 62085 (Some 1396) (Some 1) (Some 1)]
          else TMDB.mkFind [] []))
    (fun u _ =>
       if String.eqb u (movie_url "975")
       then mkResponse u details_status "movie" (movie_details movie_runtime)
       else if String.eqb u (show_url "1396")
       then mkResponse u details_status "show" (show_details run_times)
       else if String.eqb u (episode_url "1396" "1" "1")
       then mkResponse u details_status "episode" episode_details_sample
       else mkResponse u 404 "Not Found" no_details).

Definition catalog_with (details_status : Z) (run_times : list Z) : Catalog :=
  catalog_of details_status (Some 88) run_times.

Definition catalog_sample : Catalog := catalog_with 200 [45; 48].

(** A record the sample catalog does not know, and one it knows whose
    date is not written [MM/DD/YYYY]. *)
Definition unknown_record : raw_record :=
  mkRaw "03/02/2021" "Movie" "Lost Film" "DVD" "5.0" "tt9999999".
Definition misdated_record : raw_record :=
  mkRaw "2021-03-07" "Movie" "Paths of Glory" "Netflix" "8.0" "tt0050825".

(** A record the sample catalog knows, dated in the year [2 ^ 31]. *)
Definition far_record : raw_record :=
  mkRaw "01/01/2147483648" "Movie" "Paths of Glory" "Netflix" "8.0" "tt0050825".

Definition sample_movie : Content :=
  mkContent (Val sample_tmdb) (Val "975") (Val "Paths of Glory")
    (Val ["Drama"; "War"]) (Val true) (Val false)
    (Val ["Kirk Douglas"; "Ralph Meeker"]) (Val ["Stanley Kubrick"])
    (Val ["Bryna Productions"]) Unset (Val (mkDate 1957 12 25)) (Val 88)
    Unset Unset Unset.

Definition sample_episode : Content :=
  mkContent (Val sample_tmdb) (Val "62085") (Val "Pilot Show")
    (Val ["Drama"]) (Val false) (Val true)
    (Val ["Kirk Douglas"; "Ralph Meeker"]) (Val ["Alan Smithee"])
    (Val ["Bryna Productions"]) Unset (Val (mkDate 2008 1 20)) (Val 46)
    (Val "1396") (Val "1") (Val "1").

(** The worlds after the construction of the sample movie, and after
    that of the sample episode. *)
Definition movie_world : World :=
  mkWorld [find_url "tt0050825"; movie_url "975"] [].

Definition twice_movie_world : World :=
  mkWorld [find_url "tt0050825"; movie_url "975";
           find_url "tt0050825"; movie_url "975"] [].

Definition episode_world : World :=
  mkWorld [find_url "tt0000002"; show_url "1396";
           episode_url "1396" "1" "1"; episode_url "1396" "1" "1"] [].

(** What the builder makes of the first, the unknown and the second
    sample record, and the world it leaves. *)
Definition sample_raw : list raw_record :=
  [first_record; unknown_record; second_record].

Definition built_events : list WatchedContent :=
  [mkWatched sample_movie "Netflix" (mkDate 2021 3 1) (float_of_int 8);
   mkWatched sample_episode "HBO" (mkDate 2021 3 6) (float_of_int 7)].

Definition built_world : World :=
  mkWorld [find_url "tt0050825"; movie_url "975"; find_url "tt9999999";
           find_url "tt0000002"; show_url "1396";
           episode_url "1396" "1" "1"; episode_url "1396" "1" "1"]
          [diagnostic unknown_record].

(** Two events of 120 minutes on two days: no day stands out. *)
Definition tied_events : list WatchedContent :=
  [mkWatched war_movie "Netflix" (mkDate 2021 3 1) (float_of_int 8);
   mkWatched war_movie "Netflix" (mkDate 2021 3 6) (float_of_int 9)].

(** * Properties *)

(** ** The monad and its loops *)

Lemma world_eta (w : World) : mkWorld (calls w) (stdout w) = w.
Proof. destruct w; reflexivity. Qed.

Lemma world_app_nil (w : World) : mkWorld (calls w) (stdout w ++ []) = w.
Proof. rewrite app_nil_r. apply world_eta. Qed.

Lemma bind_ok {A B} {m : M A} (k : A -> M B) {w w' : World} {a : A} :
  m w = (Ok a, w') -> bind m k w = k a w'.
Proof. intros E. unfold bind. rewrite E. reflexivity. Qed.

Lemma bind_raise {A B} {m : M A} (k : A -> M B) {w w' : World} {e : exn} :
  m w = (Raise e, w') -> bind m k w = (Raise e, w').
Proof. intros E. unfold bind. rewrite E. reflexivity. Qed.

(** A loop whose body never raises and leaves the world alone is a
    fold; [I] is what the body needs of the accumulator. *)
Lemma for_each_fold {A S} (I : S -> Prop) (f : S -> A -> S)
    (body : S -> A -> M S) (l : list A) :
  forall (acc : S) (w : World),
    I acc ->
    (forall acc x w, In x l -> I acc ->
                     body acc x w = (Ok (f acc x), w) /\ I (f acc x)) ->
    for_each l body acc w = (Ok (fold_left f l acc), w)
    /\ I (fold_left f l acc).
Proof.
  induction l as [|x l IH]; intros acc w HI Hbody; simpl.
  - split; [reflexivity | exact HI].
  - destruct (Hbody acc x w (or_introl eq_refl) HI) as [E HI'].
    rewrite (bind_ok _ E).
    apply IH; [exact HI' |].
    intros acc' y w' Hy. apply Hbody. right; exact Hy.
Qed.

Lemma for_each_pure {A S} (f : S -> A -> S) (body : S -> A -> M S) (l : list A) :
  forall (acc : S) (w : World),
    (forall acc x w, In x l -> body acc x w = (Ok (f acc x), w)) ->
    for_each l body acc w = (Ok (fold_left f l acc), w).
Proof.
  intros acc w Hbody.
  apply (for_each_fold (fun _ => True) f body l acc w I).
  intros acc' x w' Hx _. split; [apply Hbody; exact Hx | exact I].
Qed.

(** A loop that only prints. *)
Lemma iter_prints {A} (g : A -> line) (body : A -> M unit) (l : list A) :
  forall w : World,
    (forall x w, In x l ->
                 body x w = (Ok tt, mkWorld (calls w) (stdout w ++ [g x]))) ->
    iter l body w = (Ok tt, mkWorld (calls w) (stdout w ++ map g l)).
Proof.
  induction l as [|x l IH]; intros w Hbody; simpl.
  - unfold ret. rewrite world_app_nil. reflexivity.
  - rewrite (bind_ok _ (Hbody x w (or_introl eq_refl))).
    rewrite IH by (intros y w' Hy; apply Hbody; right; exact Hy).
    simpl. rewrite <- app_assoc. reflexivity.
Qed.

(** ** Sums *)

Lemma fold_add_shift (l : list Z) (a : Z) :
  fold_left Z.add l a = a + fold_left Z.add l 0.
Proof.
  revert a. induction l as [|x l IH]; intros a; simpl.
  - lia.
  - rewrite IH. rewrite (IH x). lia.
Qed.

Lemma sum_cons (x : Z) (l : list Z) : sum (x :: l) = x + sum l.
Proof. unfold sum. simpl. apply fold_add_shift. Qed.

Lemma sum_nil : sum [] = 0.
Proof. reflexivity. Qed.

Lemma sum_app (l1 l2 : list Z) : sum (l1 ++ l2) = sum l1 + sum l2.
Proof.
  induction l1 as [|x l1 IH].
  - change (sum l2 = sum [] + sum l2). rewrite sum_nil. lia.
  - change ((x :: l1) ++ l2) with (x :: (l1 ++ l2)).
    rewrite !sum_cons, IH. lia.
Qed.

(** ** Dictionaries *)

Section DictFacts.
Context {K V : Type} `{EqDec K}.
Implicit Types (d : dict K V) (k : K) (v : V).

Lemma dict_find_setitem k k' v d :
  dict_find k' (dict_setitem k v d)
  = if eq_dec k' k then Some v else dict_find k' d.
Proof.
  induction d as [|[k0 v0] d IH]; simpl.
  - destruct (eq_dec k' k); reflexivity.
  - destruct (eq_dec k k0) as [E|NE]; simpl.
    + subst k0. destruct (eq_dec k' k); reflexivity.
    + destruct (eq_dec k' k0) as [E'|NE'].
      * subst k0. destruct (eq_dec k' k); [congruence | reflexivity].
      * exact IH.
Qed.

Lemma dict_find_setitem_same k v d :
  dict_find k (dict_setitem k v d) = Some v.
Proof.
  rewrite dict_find_setitem. destruct (eq_dec k k); congruence.
Qed.

Lemma dict_contains_In k d :
  dict_contains k d = true <-> In k (dict_keys d).
Proof.
  unfold dict_contains, dict_keys.
  induction d as [|[k0 v0] d IH]; simpl.
  - split; [discriminate | tauto].
  - destruct (eq_dec k k0) as [E|NE].
    + split; auto.
    + rewrite IH. split; [auto | intros [E|I]; [congruence | exact I]].
Qed.

Lemma dict_find_Some_In k v d :
  dict_find k d = Some v -> In (k, v) d.
Proof.
  induction d as [|[k0 v0] d IH]; simpl; [discriminate |].
  destruct (eq_dec k k0) as [E|NE]; intros E'.
  - left. congruence.
  - right. auto.
Qed.

Lemma dict_find_In_keys k d :
  In k (dict_keys d) -> exists v, dict_find k d = Some v.
Proof.
  intros I. apply dict_contains_In in I. unfold dict_contains in I.
  destruct (dict_find k d) as [v|]; [eauto | discriminate].
Qed.

Lemma dict_keys_setitem_old k v d :
  dict_contains k d = true -> dict_keys (dict_setitem k v d) = dict_keys d.
Proof.
  unfold dict_contains, dict_keys.
  induction d as [|[k0 v0] d IH]; simpl; [discriminate |].
  destruct (eq_dec k k0) as [E|NE]; simpl; intros C.
  - reflexivity.
  - f_equal. auto.
Qed.

Lemma dict_keys_setitem_new k v d :
  dict_contains k d = false ->
  dict_keys (dict_setitem k v d) = dict_keys d ++ [k].
Proof.
  unfold dict_contains, dict_keys.
  induction d as [|[k0 v0] d IH]; simpl; [reflexivity |].
  destruct (eq_dec k k0) as [E|NE]; simpl; intros C.
  - discriminate.
  - f_equal. auto.
Qed.

Lemma dict_getitem_found k v d (w : World) :
  dict_find k d = Some v -> dict_getitem d k w = (Ok v, w).
Proof. intros E. unfold dict_getitem. rewrite E. reflexivity. Qed.

Lemma dict_get_found dflt k v d :
  dict_find k d = Some v -> dict_get dflt d k = v.
Proof. intros E. unfold dict_get. rewrite E. reflexivity. Qed.
End DictFacts.

(** Replacing the value of a key moves the sum of the values by the
    difference. *)
Lemma sum_values_setitem {K} `{EqDec K} (k : K) (v old : Z) (d : dict K Z) :
  dict_find k d = Some old ->
  sum (dict_values (dict_setitem k v d)) = sum (dict_values d) - old + v.
Proof.
  unfold dict_values.
  induction d as [|[k0 v0] d IH]; simpl; [discriminate |].
  destruct (eq_dec k k0) as [E|NE]; simpl; intros E'.
  - injection E' as ->. rewrite !sum_cons. lia.
  - rewrite !sum_cons, IH by exact E'. lia.
Qed.

(** ** Watch events *)

Lemma resolved_runtime {c : WatchedContent} :
  resolved c -> runtime (content c) = Val (runtime_of c).
Proof.
  unfold resolved, resolvedb, runtime_of. intros R.
  repeat (apply andb_prop in R; destruct R as [R ?]).
  destruct (runtime (content c)); try discriminate. reflexivity.
Qed.

Lemma resolved_is_movie {c : WatchedContent} :
  resolved c -> is_movie (content c) = Val (movie_of c).
Proof.
  unfold resolved, resolvedb, movie_of. intros R.
  repeat (apply andb_prop in R; destruct R as [R ?]).
  destruct (is_movie (content c)); try discriminate. reflexivity.
Qed.

Lemma resolved_field {c : WatchedContent} (field : Content -> attr (list string)) :
  resolved c ->
  field = genres \/ field = actors \/ field = directors
  \/ field = production_companies ->
  field (content c) = Val (list_of (field (content c))).
Proof.
  unfold resolved, resolvedb. intros R Hf.
  repeat (apply andb_prop in R; destruct R as [R ?]).
  destruct Hf as [-> | [-> | [-> | ->]]];
    match goal with |- ?f _ = _ => destruct (f (content c)) end;
    try discriminate; reflexivity.
Qed.

Lemma total_runtime_cons c wc :
  total_runtime (c :: wc) = runtime_of c + total_runtime wc.
Proof. unfold total_runtime. simpl map. apply sum_cons. Qed.

(** ** Category totals *)

Lemma count_movies_and_series_fold wc w :
  Forall resolved wc ->
  count_movies_and_series wc w
  = (Ok (fold_left count_step wc (mkCounters 0 0 0 0)), w).
Proof.
  intros R. unfold count_movies_and_series. apply for_each_pure.
  intros n c w' Hc.
  rewrite Forall_forall in R. specialize (R c Hc).
  rewrite (resolved_is_movie R), (resolved_runtime R).
  unfold count_step. simpl. unfold bind, ret; simpl.
  destruct (movie_of c); reflexivity.
Qed.

Lemma count_step_fold wc :
  forall n,
    let n' := fold_left count_step wc n in
    movie_counter n' = movie_counter n + len (filter movie_of wc)
    /\ series_counter n'
       = series_counter n + len (filter (fun c => negb (movie_of c)) wc)
    /\ movie_minutes n'
       = movie_minutes n + total_runtime (filter movie_of wc)
    /\ series_minutes n'
       = series_minutes n
         + total_runtime (filter (fun c => negb (movie_of c)) wc).
Proof.
  unfold len.
  induction wc as [|c wc IH]; intros n; cbn [fold_left filter].
  - unfold total_runtime; cbn [map length]. rewrite sum_nil. simpl. lia.
  - specialize (IH (count_step n c)). cbv zeta in IH.
    destruct IH as (E1 & E2 & E3 & E4).
    cbv zeta. rewrite E1, E2, E3, E4. unfold count_step.
    destruct (movie_of c); cbn [negb length movie_counter movie_minutes
                                 series_counter series_minutes];
      rewrite ?total_runtime_cons, ?Nat2Z.inj_succ; lia.
Qed.

Lemma filter_split_len {A} (p : A -> bool) (l : list A) :
  len (filter p l) + len (filter (fun x => negb (p x)) l) = len l.
Proof.
  unfold len. induction l as [|x l IH]; [reflexivity |].
  cbn [filter]. destruct (p x); cbn [negb length];
    rewrite ?Nat2Z.inj_succ; lia.
Qed.

Lemma filter_split_runtime (p : WatchedContent -> bool) wc :
  total_runtime (filter p wc) + total_runtime (filter (fun x => negb (p x)) wc)
  = total_runtime wc.
Proof.
  induction wc as [|c wc IH]; [reflexivity |].
  cbn [filter]. destruct (p c); cbn [negb];
    rewrite !total_runtime_cons; lia.
Qed.

(** C8. The counts of movies and of series episodes add up to the size
    of the collection and their minutes to its total runtime: each
    event is counted in the movie bucket when its content is a movie
    and in the series bucket otherwise. *)
Theorem category_totals_partition (wc : list WatchedContent) (w : World) :
  Forall resolved wc ->
  exists n : counters,
    count_movies_and_series wc w = (Ok n, w)
    /\ get_amount_of_movies_and_series_watched wc w
       = (Ok tt,
          mkWorld (calls w)
            (stdout w ++
             [Line "Amount of movies watched: {} ({} minutes)"
                   [AInt (movie_counter n); AInt (movie_minutes n)];
              Line "Amount of series watched: {} ({} minutes)"
                   [AInt (series_counter n); AInt (series_minutes n)]]))
    /\ movie_counter n = len (filter movie_of wc)
    /\ series_counter n = len (filter (fun c => negb (movie_of c)) wc)
    /\ movie_counter n + series_counter n = len wc
    /\ movie_minutes n + series_minutes n = total_runtime wc.
Proof.
  intros R.
  exists (fold_left count_step wc (mkCounters 0 0 0 0)).
  pose proof (count_movies_and_series_fold wc w R) as E.
  destruct (count_step_fold wc (mkCounters 0 0 0 0)) as (E1 & E2 & E3 & E4).
  cbv zeta in E1, E2, E3, E4. cbn [movie_counter movie_minutes series_counter series_minutes] in E1, E2, E3, E4.
  split; [exact E |].
  split.
  - unfold get_amount_of_movies_and_series_watched.
    rewrite (bind_ok _ E). unfold bind, print; simpl.
    rewrite <- app_assoc. reflexivity.
  - rewrite E1, E2, E3, E4.
    pose proof (filter_split_len movie_of wc).
    pose proof (filter_split_runtime movie_of wc).
    repeat split; lia.
Qed.

(** ** Sorting and selection *)

Section SortingFacts.
Context {A K : Type} (ltb : K -> K -> bool) (key : A -> K).

Lemma insert_desc_perm (x : A) (l : list A) :
  Permutation (insert_desc ltb key x l) (x :: l).
Proof.
  induction l as [|y l IH]; simpl.
  - apply Permutation_refl.
  - destruct (ltb (key x) (key y)).
    + apply perm_trans with (y :: x :: l).
      * apply perm_skip. exact IH.
      * apply perm_swap.
    + apply Permutation_refl.
Qed.

Lemma sorted_reverse_perm (l : list A) :
  Permutation (sorted_reverse ltb key l) l.
Proof.
  induction l as [|x l IH]; simpl.
  - apply perm_nil.
  - apply perm_trans with (x :: sorted_reverse ltb key l).
    + apply insert_desc_perm.
    + apply perm_skip. exact IH.
Qed.

Lemma firstn_incl (n : nat) (l : list A) (x : A) :
  In x (firstn n l) -> In x l.
Proof.
  intros I. rewrite <- (firstn_skipn n l). apply in_or_app. left. exact I.
Qed.

Lemma nlargest_In (n : nat) (l : list A) (x : A) :
  In x (nlargest ltb key n l) -> In x l.
Proof.
  intros I. apply firstn_incl in I.
  apply (Permutation_in x (sorted_reverse_perm l)). exact I.
Qed.

Lemma nlargest_length (n : nat) (l : list A) :
  (length (nlargest ltb key n l) <= n)%nat.
Proof. unfold nlargest. apply firstn_le_length. Qed.

Lemma nlargest_all (n : nat) (l : list A) :
  (length l <= n)%nat -> Permutation (nlargest ltb key n l) l.
Proof.
  intros L. unfold nlargest. rewrite firstn_all2.
  - apply sorted_reverse_perm.
  - rewrite (Permutation_length (sorted_reverse_perm l)). exact L.
Qed.
End SortingFacts.

Lemma firstn_StronglySorted {A} (R : A -> A -> Prop) (n : nat) (l : list A) :
  StronglySorted R l -> StronglySorted R (firstn n l).
Proof.
  revert n. induction l as [|x l IH]; intros n S.
  - rewrite firstn_nil. constructor.
  - destruct n as [|n]; simpl; [constructor |].
    inversion S as [|? ? S' F]; subst.
    constructor.
    + apply IH. exact S'.
    + rewrite Forall_forall in *. intros y Hy. apply F.
      apply (firstn_incl n l y Hy).
Qed.

(** Over integer keys the selection comes out in descending order. *)
Section IntKeys.
Context {A : Type} (key : A -> Z).

Lemma insert_desc_sorted (x : A) (l : list A) :
  StronglySorted (descending key) l ->
  StronglySorted (descending key) (insert_desc Z.ltb key x l).
Proof.
  induction l as [|y l IH]; intros S; simpl.
  - constructor; constructor.
  - inversion S as [|? ? S' F]; subst.
    destruct (Z.ltb_spec (key x) (key y)) as [LT|GE].
    + constructor; [apply IH; exact S' |].
      rewrite Forall_forall in *. intros z Hz.
      apply (Permutation_in z (insert_desc_perm Z.ltb key x l)) in Hz.
      destruct Hz as [<- | Hz]; [unfold descending; lia | apply F; exact Hz].
    + constructor; [exact S |].
      constructor; [exact GE |].
      rewrite Forall_forall in *. intros z Hz.
      specialize (F z Hz). unfold descending in *. lia.
Qed.

Lemma sorted_reverse_sorted (l : list A) :
  StronglySorted (descending key) (sorted_reverse Z.ltb key l).
Proof.
  induction l as [|x l IH]; simpl.
  - constructor.
  - apply insert_desc_sorted. exact IH.
Qed.

Lemma nlargest_sorted (n : nat) (l : list A) :
  StronglySorted (descending key) (nlargest Z.ltb key n l).
Proof. apply firstn_StronglySorted. apply sorted_reverse_sorted. Qed.
End IntKeys.

Lemma StronglySorted_map {A B} (R : A -> A -> Prop) (R' : B -> B -> Prop)
    (f : A -> B) (l : list A) :
  (forall a b, R a b -> R' (f a) (f b)) ->
  StronglySorted R l -> StronglySorted R' (map f l).
Proof.
  intros HR. induction 1 as [|x l S IH F]; simpl; constructor.
  - exact IH.
  - rewrite Forall_forall in *. intros y Hy.
    apply in_map_iff in Hy. destruct Hy as (a & <- & Ha). apply HR, F, Ha.
Qed.

(** ** Accumulating into a dictionary *)

Section AddFacts.
Context {K : Type} `{EqDec K}.
Implicit Types (d : dict K Z) (k : K).

Lemma add_to_pure k r d (w : World) :
  add_to k (Val r) d w = (Ok (add_pure k r d), w).
Proof.
  unfold add_to, add_pure.
  set (d' := if dict_contains k d then d else dict_setitem k 0 d).
  assert (F : dict_find k d' = Some (dict_get 0 d' k)).
  { unfold d', dict_get, dict_contains.
    destruct (dict_find k d) as [v|] eqn:E.
    - rewrite E. reflexivity.
    - rewrite dict_find_setitem_same. reflexivity. }
  rewrite (bind_ok _ (dict_getitem_found _ _ _ w F)).
  reflexivity.
Qed.

Lemma dict_find_add k k' r d :
  dict_find k' (add_pure k r d)
  = if eq_dec k' k then Some (dict_get 0 d k + r) else dict_find k' d.
Proof.
  unfold add_pure, dict_contains, dict_get.
  destruct (dict_find k d) as [v|] eqn:E.
  - rewrite dict_find_setitem, E. reflexivity.
  - rewrite !dict_find_setitem.
    destruct (eq_dec k k) as [_|N]; [| congruence].
    destruct (eq_dec k' k); reflexivity.
Qed.

Lemma dict_get_add k k' r d :
  dict_get 0 (add_pure k r d) k'
  = dict_get 0 d k' + (if eq_dec k' k then r else 0).
Proof.
  unfold dict_get at 1. rewrite dict_find_add.
  destruct (eq_dec k' k) as [->|N].
  - reflexivity.
  - unfold dict_get. destruct (dict_find k' d); lia.
Qed.

Lemma dict_keys_add k k' r d :
  In k' (dict_keys (add_pure k r d)) <-> In k' (dict_keys d) \/ k' = k.
Proof.
  rewrite <- !dict_contains_In. unfold dict_contains.
  rewrite dict_find_add.
  destruct (eq_dec k' k) as [->|N].
  - split; auto.
  - destruct (dict_find k' d); split; auto.
    intros [D|E]; [discriminate | contradiction].
Qed.

(** The keys of a dictionary built by assignments are distinct. *)
Lemma dict_setitem_NoDup {V} k (v : V) (d : dict K V) :
  NoDup (dict_keys d) -> NoDup (dict_keys (dict_setitem k v d)).
Proof.
  intros N. destruct (dict_contains k d) eqn:C.
  - rewrite dict_keys_setitem_old by exact C. exact N.
  - rewrite dict_keys_setitem_new by exact C.
    apply NoDup_rev in N. rewrite <- (rev_involutive (_ ++ _)).
    apply NoDup_rev. rewrite rev_app_distr. simpl.
    constructor; [| exact N].
    rewrite <- in_rev. intros I. apply dict_contains_In in I. congruence.
Qed.

Lemma add_pure_NoDup k r d :
  NoDup (dict_keys d) -> NoDup (dict_keys (add_pure k r d)).
Proof.
  intros N. unfold add_pure. apply dict_setitem_NoDup.
  destruct (dict_contains k d); [exact N | apply dict_setitem_NoDup, N].
Qed.
End AddFacts.

(** ** Sum-ranking reports *)

Lemma contribution_cons k k' ks r :
  contribution k (k' :: ks) r
  = (if eq_dec k k' then r else 0) + contribution k ks r.
Proof. unfold contribution. simpl map. apply sum_cons. Qed.

Lemma contribution_nonneg k ks r : 0 <= r -> 0 <= contribution k ks r.
Proof.
  intros R. induction ks as [|k' ks IH].
  - unfold contribution; simpl. rewrite sum_nil. lia.
  - rewrite contribution_cons. destruct (eq_dec k k'); lia.
Qed.

Lemma total_of_cons weight field c wc k :
  total_of weight field (c :: wc) k
  = contribution k (list_of (field (content c))) (weight c)
    + total_of weight field wc k.
Proof. unfold total_of. simpl map. apply sum_cons. Qed.

Lemma total_of_nonneg weight field wc k :
  Forall (fun c => 0 <= weight c) wc -> 0 <= total_of weight field wc k.
Proof.
  induction 1 as [|c wc R F IH].
  - unfold total_of; simpl. rewrite sum_nil. lia.
  - rewrite total_of_cons.
    pose proof (contribution_nonneg k (list_of (field (content c))) _ R). lia.
Qed.

Lemma add_all_get r ks : forall d k,
  dict_get 0 (add_all r ks d) k = dict_get 0 d k + contribution k ks r.
Proof.
  induction ks as [|k' ks IH]; intros d k.
  - unfold contribution; simpl. rewrite sum_nil. lia.
  - unfold add_all in *. simpl fold_left. rewrite IH, dict_get_add.
    rewrite contribution_cons. lia.
Qed.

Lemma add_all_keys r ks : forall d k,
  In k (dict_keys (add_all r ks d)) <-> In k (dict_keys d) \/ In k ks.
Proof.
  induction ks as [|k' ks IH]; intros d k.
  - simpl. tauto.
  - unfold add_all in *. simpl fold_left. rewrite IH, dict_keys_add.
    simpl. intuition congruence.
Qed.

Lemma add_all_NoDup r ks : forall d,
  NoDup (dict_keys d) -> NoDup (dict_keys (add_all r ks d)).
Proof.
  induction ks as [|k' ks IH]; intros d N; [exact N |].
  unfold add_all in *. simpl fold_left. apply IH, add_pure_NoDup, N.
Qed.

Lemma tally_get weight field wc : forall d k,
  dict_get 0 (tally weight field wc d) k
  = dict_get 0 d k + total_of weight field wc k.
Proof.
  induction wc as [|c wc IH]; intros d k.
  - unfold total_of; simpl. rewrite sum_nil. lia.
  - unfold tally in *. simpl fold_left.
    rewrite IH, add_all_get, total_of_cons. lia.
Qed.

Lemma tally_keys weight field wc : forall d k,
  In k (dict_keys (tally weight field wc d))
  <-> In k (dict_keys d)
      \/ exists c, In c wc /\ In k (list_of (field (content c))).
Proof.
  induction wc as [|c wc IH]; intros d k.
  - simpl. split; [auto | intros [I | (c & [] & _)]; exact I].
  - unfold tally in *. simpl fold_left. rewrite IH, add_all_keys.
    split.
    + intros [[I | I] | (c' & I & I')]; eauto.
      * right. exists c. split; [left; reflexivity | exact I].
      * right. exists c'. split; [right; exact I | exact I'].
    + intros [I | (c' & [<- | I] & I')]; eauto.
Qed.

Lemma tally_NoDup weight field wc : forall d,
  NoDup (dict_keys d) -> NoDup (dict_keys (tally weight field wc d)).
Proof.
  induction wc as [|c wc IH]; intros d N; [exact N |].
  unfold tally in *. simpl fold_left. apply IH, add_all_NoDup, N.
Qed.

Lemma watched_step_pure c scores k (w : World) :
  resolved c ->
  watched_step c scores k w = (Ok (add_pure k (runtime_of c) scores), w).
Proof.
  intros R. unfold watched_step. rewrite (resolved_runtime R).
  apply (add_to_pure k (runtime_of c) scores w).
Qed.

Lemma watched_scores_pure field wc (w : World) :
  reportable field -> Forall resolved wc ->
  watched_scores field wc w = (Ok (scores_pure field wc []), w).
Proof.
  intros Hf R. unfold watched_scores, scores_pure, tally.
  apply for_each_pure. intros d c w' Hc.
  rewrite Forall_forall in R. specialize (R c Hc).
  rewrite (resolved_field field R Hf).
  unfold bind at 1. unfold attr_value at 1, ret at 1.
  unfold add_all. apply for_each_pure.
  intros d' k w'' _. apply watched_step_pure. exact R.
Qed.

Lemma print_top_int_lines scores (w : World) :
  print_top_int scores w
  = (Ok tt,
     mkWorld (calls w)
       (stdout w ++
        map int_line
          (map (fun x => (x, dict_get 0 scores x))
               (nlargest Z.ltb (dict_get 0 scores) TOP_N (dict_keys scores))))).
Proof.
  unfold print_top_int. rewrite map_map.
  apply iter_prints. intros x w' Hx.
  apply nlargest_In in Hx. apply dict_find_In_keys in Hx.
  destruct Hx as [v F].
  rewrite (bind_ok _ (dict_getitem_found _ _ _ w' F)).
  unfold int_line. simpl. rewrite (dict_get_found 0 _ _ _ F). reflexivity.
Qed.

Lemma firstn_NoDup {A} (n : nat) (l : list A) : NoDup l -> NoDup (firstn n l).
Proof.
  intros N. rewrite <- (firstn_skipn n l) in N.
  apply NoDup_app_remove_r in N. exact N.
Qed.

Lemma most_watched_report field header wc (w : World) :
  reportable field ->
  Forall resolved wc ->
  Forall (fun c => 0 <= runtime_of c) wc ->
  sum_ranking_report field header (most_watched field header) wc w.
Proof.
  intros Hf R P.
  set (scores := scores_pure field wc []).
  set (top := nlargest Z.ltb (dict_get 0 scores) TOP_N (dict_keys scores)).
  exists (map (fun x => (x, dict_get 0 scores x)) top).
  assert (G : forall k, dict_get 0 scores k = score_of field wc k).
  { intros k. unfold scores, scores_pure. rewrite tally_get. reflexivity. }
  split; [| split; [| split; [| split]]].
  - unfold most_watched.
    rewrite (bind_ok _ (watched_scores_pure field wc w Hf R)).
    fold scores. unfold bind at 1. unfold print at 1.
    rewrite print_top_int_lines. simpl calls. simpl stdout.
    rewrite <- app_assoc. reflexivity.
  - intros k v I. apply in_map_iff in I. destruct I as (x & E & I).
    injection E as -> <-.
    apply nlargest_In in I. apply tally_keys in I.
    destruct I as [[] | I].
    rewrite G. split; [exact I | split; [reflexivity |]].
    apply total_of_nonneg. exact P.
  - apply StronglySorted_map with (R := descending (dict_get 0 scores)).
    + intros a b D. exact D.
    + apply nlargest_sorted.
  - rewrite map_map. simpl. rewrite map_id.
    apply firstn_NoDup.
    apply (Permutation_NoDup
             (Permutation_sym (sorted_reverse_perm Z.ltb _ (dict_keys scores)))).
    apply tally_NoDup. constructor.
  - rewrite length_map. apply (nlargest_length Z.ltb _ TOP_N).
Qed.

(** C4. Each of the four "most watched" reports prints its header and
    then at most 20 entries; every entry's key occurs in the relevant
    field of some event, its total is the summed runtime of the events
    that carry it and is not negative, and the entries come in
    descending order of total. *)
Theorem sum_ranking_reports_sound (wc : list WatchedContent) (w : World) :
  Forall resolved wc ->
  Forall (fun c => 0 <= runtime_of c) wc ->
  sum_ranking_report genres "Most watched genres"
    get_most_watched_genres wc w
  /\ sum_ranking_report actors "Most watched actors"
       get_most_watched_actors wc w
  /\ sum_ranking_report directors "Most watched directors"
       get_most_watched_directors wc w
  /\ sum_ranking_report production_companies "Most watched production_companies"
       get_most_watched_production_companies wc w.
Proof.
  intros R P. unfold reportable.
  repeat split; apply most_watched_report; unfold reportable; auto.
Qed.

(** ** Average-ranking reports *)

Lemma dict_contains_setitem {K V} `{EqDec K} (k k' : K) (v : V) (d : dict K V) :
  dict_contains k' (dict_setitem k v d)
  = if eq_dec k' k then true else dict_contains k' d.
Proof.
  unfold dict_contains. rewrite dict_find_setitem.
  destruct (eq_dec k' k); reflexivity.
Qed.

Lemma dict_keys_setitem_In {K V} `{EqDec K} (k k' : K) (v : V) (d : dict K V) :
  In k' (dict_keys (dict_setitem k v d)) <-> In k' (dict_keys d) \/ k' = k.
Proof.
  rewrite <- !dict_contains_In, dict_contains_setitem.
  destruct (eq_dec k' k) as [->|N]; split; auto.
  intros [C|E]; [exact C | contradiction].
Qed.

Lemma dict_contains_get {K V} `{EqDec K} (dflt : V) (k : K) (d : dict K V) :
  dict_contains k d = true -> dict_find k d = Some (dict_get dflt d k).
Proof.
  unfold dict_contains, dict_get. destruct (dict_find k d); [reflexivity |].
  discriminate.
Qed.

Lemma liked_step_pure c acc k (w : World) :
  same_keys acc ->
  liked_step c acc k w = (Ok (liked_pure (rating c) acc k), w).
Proof.
  destruct acc as [ra am]. intros S. specialize (S k). simpl in S.
  unfold liked_step, liked_pure.
  destruct (dict_contains k ra) eqn:C.
  - rewrite (bind_ok _ (dict_getitem_found _ _ _ w (dict_contains_get S754_nan _ _ C))).
    symmetry in S.
    rewrite (bind_ok _ (dict_getitem_found _ _ _ w (dict_contains_get 0 _ _ S))).
    reflexivity.
  - assert (F1 : dict_contains k (dict_setitem k (float_of_int 0) ra) = true).
    { rewrite dict_contains_setitem. destruct (eq_dec k k); congruence. }
    assert (F2 : dict_contains k (dict_setitem k 0 am) = true).
    { rewrite dict_contains_setitem. destruct (eq_dec k k); congruence. }
    rewrite (bind_ok _ (dict_getitem_found _ _ _ w (dict_contains_get S754_nan _ _ F1))).
    rewrite (bind_ok _ (dict_getitem_found _ _ _ w (dict_contains_get 0 _ _ F2))).
    reflexivity.
Qed.

Lemma liked_pure_same_keys x acc k :
  same_keys acc -> same_keys (liked_pure x acc k).
Proof.
  destruct acc as [ra am]. intros S k'. pose proof (S k') as S'.
  simpl in S'. unfold liked_pure.
  destruct (dict_contains k ra); simpl;
    rewrite !dict_contains_setitem; destruct (eq_dec k' k); congruence.
Qed.

Lemma liked_pure_snd x acc k :
  same_keys acc -> snd (liked_pure x acc k) = add_pure k 1 (snd acc).
Proof.
  destruct acc as [ra am]. intros S. specialize (S k). simpl in S.
  unfold liked_pure, add_pure. cbn [snd]. rewrite <- S.
  destruct (dict_contains k ra); reflexivity.
Qed.

Lemma liked_inner x ks : forall acc,
  same_keys acc ->
  same_keys (fold_left (liked_pure x) ks acc)
  /\ snd (fold_left (liked_pure x) ks acc) = add_all 1 ks (snd acc).
Proof.
  induction ks as [|k ks IH]; intros acc S; simpl.
  - split; [exact S | reflexivity].
  - destruct (IH _ (liked_pure_same_keys x acc k S)) as [S' E].
    split; [exact S' |]. rewrite E, liked_pure_snd by exact S. reflexivity.
Qed.

Lemma tables_pure_spec field wc : forall acc,
  same_keys acc ->
  same_keys (tables_pure field wc acc)
  /\ snd (tables_pure field wc acc) = tally (fun _ => 1) field wc (snd acc).
Proof.
  induction wc as [|c wc IH]; intros acc S.
  - split; [exact S | reflexivity].
  - unfold tables_pure, tally in *. simpl fold_left.
    destruct (liked_inner (rating c) (list_of (field (content c))) acc S) as [S' E].
    destruct (IH _ S') as [S'' E'].
    split; [exact S'' |]. rewrite E', E. reflexivity.
Qed.

Lemma liked_tables_pure field wc (w : World) :
  reportable field -> Forall resolved wc ->
  liked_tables field wc w = (Ok (tables_pure field wc ([], [])), w).
Proof.
  intros Hf R. unfold liked_tables, tables_pure.
  apply (for_each_fold same_keys); [intros k; reflexivity |].
  intros acc c w' Hc S.
  rewrite Forall_forall in R. specialize (R c Hc).
  rewrite (resolved_field field R Hf).
  unfold bind at 1. unfold attr_value at 1, ret at 1.
  apply (for_each_fold same_keys); [exact S |].
  intros acc' k w'' _ S'.
  split; [apply liked_step_pure; exact S' | apply liked_pure_same_keys; exact S'].
Qed.

Lemma liked_scores_pure threshold ra am (w : World) :
  0 < threshold ->
  (forall k, In k (dict_keys ra) -> dict_contains k am = true) ->
  liked_scores threshold ra am w
  = (Ok (fold_left (suppress threshold am) ra []), w).
Proof.
  intros T Hk. unfold liked_scores. apply for_each_pure.
  intros scores [k x] w' I.
  assert (C : dict_contains k am = true).
  { apply Hk. unfold dict_keys. apply in_map_iff. exists (k, x). auto. }
  pose proof (dict_getitem_found _ _ _ w' (dict_contains_get 0 _ _ C)) as G.
  rewrite (bind_ok _ G). unfold suppress. simpl fst; simpl snd.
  destruct (dict_get 0 am k <? threshold) eqn:L; [reflexivity |].
  rewrite (bind_ok _ G). unfold float_truediv.
  apply Z.ltb_ge in L.
  destruct (Z.eqb_spec (dict_get 0 am k) 0) as [E|NE]; [lia | reflexivity].
Qed.

Lemma suppress_keys threshold am l : forall scores k,
  In k (dict_keys (fold_left (suppress threshold am) l scores)) ->
  In k (dict_keys scores) \/ threshold <= dict_get 0 am k.
Proof.
  induction l as [|[k' x] l IH]; intros scores k I; simpl in I.
  - left. exact I.
  - apply IH in I. destruct I as [I | I]; [| right; exact I].
    unfold suppress in I. simpl fst in I; simpl snd in I.
    destruct (Z.ltb_spec (dict_get 0 am k') threshold) as [L|G].
    + left. exact I.
    + apply dict_keys_setitem_In in I. destruct I as [I | ->]; auto.
Qed.

Lemma print_top_float_lines scores (w : World) :
  print_top_float scores w
  = (Ok tt,
     mkWorld (calls w)
       (stdout w ++
        map float_line
          (map (fun x => (x, dict_get S754_nan scores x))
               (nlargest float_lt (dict_get S754_nan scores) TOP_N
                         (dict_keys scores))))).
Proof.
  unfold print_top_float. rewrite map_map.
  apply iter_prints. intros x w' Hx.
  apply nlargest_In in Hx. apply dict_find_In_keys in Hx.
  destruct Hx as [v F].
  rewrite (bind_ok _ (dict_getitem_found _ _ _ w' F)).
  unfold float_line. simpl. rewrite (dict_get_found S754_nan _ _ _ F).
  reflexivity.
Qed.

Lemma most_liked_report field threshold header wc (w : World) :
  reportable field -> 0 < threshold ->
  Forall resolved wc ->
  average_ranking_report field threshold header
    (most_liked field threshold header) wc w.
Proof.
  intros Hf T R.
  destruct (tables_pure field wc ([], [])) as [ra am] eqn:Et.
  destruct (tables_pure_spec field wc ([], [])) as [S E];
    [intros k; reflexivity |].
  rewrite Et in S, E. simpl snd in E.
  set (scores := fold_left (suppress threshold am) ra []).
  set (top := nlargest float_lt (dict_get S754_nan scores) TOP_N (dict_keys scores)).
  exists (map (fun x => (x, dict_get S754_nan scores x)) top).
  split; [| split].
  - unfold most_liked.
    rewrite (bind_ok _ (liked_tables_pure field wc w Hf R)). rewrite Et.
    rewrite (bind_ok _ (liked_scores_pure threshold ra am w T
                          (fun k I => eq_trans (eq_sym (S k))
                                        (proj2 (dict_contains_In k ra) I)))).
    fold scores. unfold bind at 1. unfold print at 1.
    rewrite print_top_float_lines. simpl calls. simpl stdout.
    rewrite <- app_assoc. reflexivity.
  - intros k v I. apply in_map_iff in I. destruct I as (x & Ex & I).
    injection Ex as -> <-.
    apply nlargest_In in I. apply suppress_keys in I.
    destruct I as [[] | I].
    rewrite E, tally_get in I. unfold occurrences. simpl in I. exact I.
  - rewrite length_map. apply (nlargest_length float_lt _ TOP_N).
Qed.

(** C3. None of the four "best rated" reports shows a key seen fewer
    times than its threshold: 5 for genres, actors and production
    companies, 2 for directors. *)
Theorem average_ranking_suppresses_rare_keys
    (wc : list WatchedContent) (w : World) :
  Forall resolved wc ->
  average_ranking_report genres 5 "Best rated genres"
    get_most_liked_genres wc w
  /\ average_ranking_report actors 5 "Best rated actor"
       get_most_liked_actors wc w
  /\ average_ranking_report production_companies 5
       "Best rated production companies"
       get_most_liked_production_companies wc w
  /\ average_ranking_report directors 2 "Best rated director"
       get_most_liked_directors wc w.
Proof.
  intros R.
  repeat split; apply most_liked_report; unfold reportable; auto; lia.
Qed.

(** ** Calendar activity *)

Lemma bucket_total_cons {K} `{EqDec K} (label : WatchedContent -> K) c wc k :
  bucket_total label (c :: wc) k
  = (if eq_dec k (label c) then runtime_of c else 0) + bucket_total label wc k.
Proof. unfold bucket_total. simpl map. apply sum_cons. Qed.

Lemma month_name_getitem (d : datetime) (w : World) :
  1 <= month d <= 12 ->
  list_getitem month_name (month d) w = (Ok (month_label d), w)
  /\ In (month_label d) (dict_keys months0).
Proof.
  intros B. unfold month_label.
  assert (E : month d = 1 \/ month d = 2 \/ month d = 3 \/ month d = 4
              \/ month d = 5 \/ month d = 6 \/ month d = 7 \/ month d = 8
              \/ month d = 9 \/ month d = 10 \/ month d = 11 \/ month d = 12)
    by lia.
  repeat (destruct E as [E | E]); rewrite E; (split; [reflexivity |]);
    simpl; tauto.
Qed.

Lemma weekday_range (d : datetime) : 0 <= weekday_of d < 7.
Proof. unfold weekday_of. apply Z.mod_pos_bound. lia. Qed.

Lemma day_name_getitem (d : datetime) (w : World) :
  list_getitem day_name (weekday_of d) w = (Ok (day_label d), w)
  /\ In (day_label d) (dict_keys weekday0).
Proof.
  unfold day_label. pose proof (weekday_range d) as B.
  assert (E : weekday_of d = 0 \/ weekday_of d = 1 \/ weekday_of d = 2
              \/ weekday_of d = 3 \/ weekday_of d = 4 \/ weekday_of d = 5
              \/ weekday_of d = 6) by lia.
  repeat (destruct E as [E | E]); rewrite E; (split; [reflexivity |]);
    simpl; tauto.
Qed.

Lemma bump_is_pure k r d (w : World) :
  In k (dict_keys d) ->
  bump k (Val r) d w = (Ok (bump_pure k r d), w).
Proof.
  intros I. apply dict_contains_In in I.
  unfold bump. rewrite (bind_ok _ (dict_getitem_found _ _ _ w
                                     (dict_contains_get 0 _ _ I))).
  reflexivity.
Qed.

Lemma bump_pure_keys k r d :
  In k (dict_keys d) -> dict_keys (bump_pure k r d) = dict_keys d.
Proof.
  intros I. apply dict_keys_setitem_old. apply dict_contains_In. exact I.
Qed.

Lemma bump_pure_sum k r d :
  In k (dict_keys d) ->
  sum (dict_values (bump_pure k r d)) = sum (dict_values d) + r.
Proof.
  intros I. apply dict_contains_In in I. unfold bump_pure.
  rewrite (sum_values_setitem _ _ _ _ (dict_contains_get 0 _ _ I)). lia.
Qed.

Lemma bump_pure_get k k' r d :
  dict_get 0 (bump_pure k r d) k'
  = dict_get 0 d k' + (if eq_dec k' k then r else 0).
Proof.
  unfold bump_pure. unfold dict_get at 1. rewrite dict_find_setitem.
  destruct (eq_dec k' k) as [->|N]; [reflexivity |].
  unfold dict_get. destruct (dict_find k' d); lia.
Qed.

Lemma activity_step_pure a c (w : World) :
  resolved c -> valid_date (date c) -> activity_inv a ->
  activity_step a c w = (Ok (activity_pure a c), w)
  /\ activity_inv (activity_pure a c).
Proof.
  intros R (_ & Bm & _) (Km & Kw).
  destruct (month_name_getitem (date c) w Bm) as [Em Im].
  destruct (day_name_getitem (date c) w) as [Ed Id].
  rewrite <- Km in Im. rewrite <- Kw in Id.
  split.
  - unfold activity_step.
    rewrite (bind_ok _ Em), (resolved_runtime R).
    rewrite (bind_ok _ (bump_is_pure _ _ _ w Im)).
    rewrite (bind_ok _ Ed).
    rewrite (bind_ok _ (bump_is_pure _ _ _ w Id)).
    rewrite (bind_ok _ (add_to_pure _ _ _ w)).
    reflexivity.
  - unfold activity_inv, activity_pure. simpl.
    rewrite !bump_pure_keys by assumption. split; assumption.
Qed.

Lemma activity_tables_pure wc (w : World) :
  Forall resolved wc -> Forall (fun c => valid_date (date c)) wc ->
  activity_tables wc w
  = (Ok (fold_left activity_pure wc (mkActivity months0 weekday0 [])), w)
  /\ activity_inv (fold_left activity_pure wc (mkActivity months0 weekday0 [])).
Proof.
  intros R V. unfold activity_tables.
  apply (for_each_fold activity_inv).
  - split; reflexivity.
  - intros a c w' Hc Ia. rewrite Forall_forall in R, V.
    apply activity_step_pure; auto.
Qed.

(** The three tables after the loop, bucket by bucket. *)
Lemma activity_fold_spec wc : forall a,
  activity_inv a ->
  Forall (fun c => valid_date (date c)) wc ->
  let a' := fold_left activity_pure wc a in
  (forall k, dict_get 0 (months a') k = dict_get 0 (months a) k + month_total wc k)
  /\ (forall k, dict_get 0 (weekday a') k
                = dict_get 0 (weekday a) k + weekday_total wc k)
  /\ sum (dict_values (months a')) = sum (dict_values (months a)) + total_runtime wc
  /\ sum (dict_values (weekday a'))
     = sum (dict_values (weekday a)) + total_runtime wc
  /\ days a' = fold_left (fun d c => add_pure (date c) (runtime_of c) d) wc (days a).
Proof.
  induction wc as [|c wc IH]; intros a Ia V; cbv zeta.
  - unfold month_total, weekday_total, bucket_total, total_runtime. simpl.
    rewrite sum_nil. repeat split; intros; lia.
  - inversion V as [|? ? Vc V']; subst.
    destruct Ia as (Km & Kw). destruct Vc as (_ & Bm & _).
    destruct (month_name_getitem (date c) empty_world Bm) as [_ Im].
    destruct (day_name_getitem (date c) empty_world) as [_ Id].
    rewrite <- Km in Im. rewrite <- Kw in Id.
    assert (Ia' : activity_inv (activity_pure a c)).
    { unfold activity_inv, activity_pure. simpl.
      rewrite !bump_pure_keys by assumption. split; assumption. }
    specialize (IH (activity_pure a c) Ia' V'). cbv zeta in IH.
    destruct IH as (Gm & Gw & Sm & Sw & D).
    simpl fold_left.
    unfold month_total, weekday_total in *.
    repeat split.
    + intros k. rewrite Gm, bucket_total_cons. unfold activity_pure; simpl.
      rewrite bump_pure_get. lia.
    + intros k. rewrite Gw, bucket_total_cons. unfold activity_pure; simpl.
      rewrite bump_pure_get. lia.
    + rewrite Sm, total_runtime_cons. unfold activity_pure; simpl.
      rewrite bump_pure_sum by assumption. lia.
    + rewrite Sw, total_runtime_cons. unfold activity_pure; simpl.
      rewrite bump_pure_sum by assumption. lia.
    + rewrite D. reflexivity.
Qed.

Lemma days_pure_get wc : forall d k,
  dict_get 0 (days_pure wc d) k = dict_get 0 d k + day_total wc k.
Proof.
  induction wc as [|c wc IH]; intros d k.
  - unfold day_total, bucket_total; simpl. rewrite sum_nil. lia.
  - unfold days_pure in *. simpl fold_left. rewrite IH, dict_get_add.
    unfold day_total. rewrite bucket_total_cons. lia.
Qed.

Lemma days_pure_keys wc : forall d k,
  In k (dict_keys (days_pure wc d))
  <-> In k (dict_keys d) \/ exists c, In c wc /\ date c = k.
Proof.
  induction wc as [|c wc IH]; intros d k.
  - simpl. split; [auto | intros [I | (c & [] & _)]; exact I].
  - unfold days_pure in *. simpl fold_left. rewrite IH, dict_keys_add.
    split.
    + intros [[I | ->] | (c' & I & E)]; eauto.
      * right. exists c. split; [left; reflexivity | reflexivity].
      * right. exists c'. split; [right; exact I | exact E].
    + intros [I | (c' & [<- | I] & E)]; eauto.
Qed.

Lemma days_pure_NoDup wc : forall d,
  NoDup (dict_keys d) -> NoDup (dict_keys (days_pure wc d)).
Proof.
  induction wc as [|c wc IH]; intros d N; [exact N |].
  unfold days_pure in *. simpl fold_left. apply IH, add_pure_NoDup, N.
Qed.

Lemma NoDup_keys_find {K V} `{EqDec K} (k : K) (v : V) (d : dict K V) :
  NoDup (dict_keys d) -> In (k, v) d -> dict_find k d = Some v.
Proof.
  induction d as [|[k0 v0] d IH]; simpl; intros N I; [contradiction |].
  inversion N as [|? ? N0 N']; subst.
  destruct (eq_dec k k0) as [->|NE].
  - destruct I as [E | I]; [congruence |].
    exfalso. apply N0. unfold dict_keys.
    apply in_map_iff. exists (k0, v). auto.
  - destruct I as [E | I]; [congruence | auto].
Qed.

Lemma max_scan_spec l : forall x,
  In (max_scan x l) (x :: l)
  /\ forall y, In y (x :: l) -> snd y <= snd (max_scan x l).
Proof.
  induction l as [|z l IH]; intros x; unfold max_scan in *; simpl fold_left.
  - split; [left; reflexivity |]. intros y [<- | []]. lia.
  - destruct (Z.ltb_spec (snd x) (snd z)) as [L|G].
    + destruct (IH z) as [I B]. split.
      * right. exact I.
      * intros y [<- | Hy]; [| apply B; exact Hy].
        specialize (B z (or_introl eq_refl)). lia.
    + destruct (IH x) as [I B]. split.
      * destruct I as [<- | I]; [left; reflexivity | right; right; exact I].
      * intros y [<- | [<- | Hy]].
        -- apply B. left; reflexivity.
        -- specialize (B x (or_introl eq_refl)). lia.
        -- apply B. right; exact Hy.
Qed.

Lemma print_int_items_lines d (w : World) :
  print_int_items d w = (Ok tt, mkWorld (calls w) (stdout w ++ map int_line d)).
Proof.
  unfold print_int_items. apply iter_prints. intros x w' _. reflexivity.
Qed.

Lemma print_ok fmt args (w : World) :
  print fmt args w = (Ok tt, mkWorld (calls w) (stdout w ++ [Line fmt args])).
Proof. reflexivity. Qed.

(** The report once its tables are known: the two tables are printed,
    then the scan of the per-date table either raises or names a day. *)
Lemma get_activity_by_month_and_day_lines wc a (w : World) :
  activity_tables wc w = (Ok a, w) ->
  get_activity_by_month_and_day wc w
  = match days a with
    | [] => (Raise ValueError,
             mkWorld (calls w) (stdout w ++ activity_lines a))
    | x :: l =>
        (Ok tt,
         mkWorld (calls w)
           (stdout w ++ activity_lines a ++
            [Line "Day with the most activity: {}/{}"
                  [AInt (month (fst (max_scan x l)));
                   AInt (day (fst (max_scan x l)))]]))
    end.
Proof.
  intros E. unfold get_activity_by_month_and_day.
  rewrite (bind_ok _ E).
  rewrite (bind_ok _ (print_ok _ _ _)).
  rewrite (bind_ok _ (print_int_items_lines _ _)).
  rewrite (bind_ok _ (print_ok _ _ _)).
  rewrite (bind_ok _ (print_ok _ _ _)).
  rewrite (bind_ok _ (print_int_items_lines _ _)).
  rewrite (bind_ok _ (print_ok _ _ _)).
  unfold activity_lines.
  destruct (days a) as [|x l]; unfold bind, py_max, raise, ret, print;
    simpl calls; simpl stdout.
  - repeat rewrite <- app_assoc. reflexivity.
  - fold (max_scan x l). repeat rewrite <- app_assoc. reflexivity.
Qed.

Lemma months0_get k : dict_get 0 months0 k = 0.
Proof.
  unfold dict_get, months0. simpl.
  repeat match goal with |- context [eq_dec ?a ?b] => destruct (eq_dec a b) end;
    reflexivity.
Qed.

Lemma weekday0_get k : dict_get 0 weekday0 k = 0.
Proof.
  unfold dict_get, weekday0. simpl.
  repeat match goal with |- context [eq_dec ?a ?b] => destruct (eq_dec a b) end;
    reflexivity.
Qed.

(** C7. The calendar report prints twelve month buckets and seven
    weekday buckets, whatever the collection; each bucket holds the
    runtime of the events of that month (that weekday), so the month
    buckets and the weekday buckets each add up to the total runtime. *)
Theorem calendar_buckets_complete (wc : list WatchedContent) (w : World) :
  Forall resolved wc ->
  Forall (fun c => valid_date (date c)) wc ->
  exists (a : activity) (r : result unit) (w' : World) (rest : list line),
    activity_tables wc w = (Ok a, w)
    /\ get_activity_by_month_and_day wc w = (r, w')
    /\ stdout w' = stdout w ++ activity_lines a ++ rest
    /\ dict_keys (months a)
       = ["January"; "February"; "March"; "April"; "May"; "June"; "July";
          "August"; "September"; "October"; "November"; "December"]
    /\ dict_keys (weekday a)
       = ["Sunday"; "Monday"; "Tuesday"; "Wednesday"; "Thursday"; "Friday";
          "Saturday"]
    /\ (forall k, dict_get 0 (months a) k = month_total wc k)
    /\ (forall k, dict_get 0 (weekday a) k = weekday_total wc k)
    /\ sum (dict_values (months a)) = total_runtime wc
    /\ sum (dict_values (weekday a)) = total_runtime wc.
Proof.
  intros R V.
  destruct (activity_tables_pure wc w R V) as [E (Km & Kw)].
  set (a := fold_left activity_pure wc (mkActivity months0 weekday0 [])) in *.
  assert (I0 : activity_inv (mkActivity months0 weekday0 []))
    by (split; reflexivity).
  destruct (activity_fold_spec wc _ I0 V) as (Gm & Gw & Sm & Sw & _).
  fold a in Gm, Gw, Sm, Sw. simpl months in *. simpl weekday in *.
  assert (Gm' : forall k, dict_get 0 (months a) k = month_total wc k)
    by (intros k; rewrite Gm, months0_get; lia).
  assert (Gw' : forall k, dict_get 0 (weekday a) k = weekday_total wc k)
    by (intros k; rewrite Gw, weekday0_get; lia).
  change (sum (dict_values months0)) with 0 in Sm.
  change (sum (dict_values weekday0)) with 0 in Sw.
  pose proof (get_activity_by_month_and_day_lines wc a w E) as L.
  exists a.
  destruct (days a) as [|x l].
  - eexists _, _, []. split; [exact E |]. split; [exact L |].
    simpl stdout. rewrite app_nil_r.
    repeat split; try assumption; lia.
  - eexists _, _, [_]. split; [exact E |]. split; [exact L |].
    simpl stdout.
    repeat split; try assumption; lia.
Qed.

Lemma activity_days wc (w : World) :
  Forall resolved wc -> Forall (fun c => valid_date (date c)) wc ->
  exists a, activity_tables wc w = (Ok a, w) /\ days a = days_pure wc [].
Proof.
  intros R V. destruct (activity_tables_pure wc w R V) as [E _].
  eexists. split; [exact E |].
  assert (I0 : activity_inv (mkActivity months0 weekday0 []))
    by (split; reflexivity).
  destruct (activity_fold_spec wc _ I0 V) as (_ & _ & _ & _ & D).
  exact D.
Qed.

(** C9. For every collection, every date on which something was
    watched is one key of the per-date table and holds the summed
    runtime of the events of that date, whether or not some date stands
    out; and a date whose total is strictly above the total of every
    other date is the one the report names as the most active. *)
Theorem most_active_date_is_strict_maximum
    (wc : list WatchedContent) (w : World) :
  Forall resolved wc ->
  Forall (fun c => valid_date (date c)) wc ->
  exists a : activity,
    activity_tables wc w = (Ok a, w)
    /\ NoDup (dict_keys (days a))
    /\ (forall c, In c wc ->
                  dict_find (date c) (days a) = Some (day_total wc (date c)))
    /\ (forall d,
          (exists c, In c wc /\ date c = d) ->
          (forall c', In c' wc -> date c' <> d ->
                      day_total wc (date c') < day_total wc d) ->
          get_activity_by_month_and_day wc w
          = (Ok tt,
             mkWorld (calls w)
               (stdout w ++ activity_lines a ++
                [Line "Day with the most activity: {}/{}"
                      [AInt (month d); AInt (day d)]]))).
Proof.
  intros R V.
  destruct (activity_days wc w R V) as (a & E & D).
  exists a. split; [exact E |].
  assert (N : NoDup (dict_keys (days a))).
  { rewrite D. apply days_pure_NoDup. constructor. }
  assert (F : forall k, (exists c, In c wc /\ date c = k) ->
                        dict_find k (days a) = Some (day_total wc k)).
  { intros k Hk.
    assert (I : In k (dict_keys (days a))).
    { rewrite D. apply days_pure_keys. right. exact Hk. }
    apply dict_contains_In in I.
    rewrite (dict_contains_get 0 _ _ I), D, days_pure_get. reflexivity. }
  split; [exact N |]. split; [intros c Hc; apply F; eauto |].
  intros d (c0 & I0 & E0) Hmax.
  rewrite (get_activity_by_month_and_day_lines wc a w E).
  assert (Fd : dict_find d (days a) = Some (day_total wc d)) by (apply F; eauto).
  apply dict_find_Some_In in Fd.
  destruct (days a) as [|x l] eqn:Ed; [contradiction |].
  destruct (max_scan_spec l x) as [Ib B].
  set (b := max_scan x l) in *.
  assert (Eb : fst b = d).
  { destruct (eq_dec (fst b) d) as [Eq | NE]; [exact Eq | exfalso].
    assert (Kb : In (fst b) (dict_keys (x :: l))).
    { unfold dict_keys. apply in_map. exact Ib. }
    rewrite D in Kb. apply days_pure_keys in Kb.
    destruct Kb as [[] | (c' & Ic' & Ec')].
    assert (Fb : dict_find (fst b) (x :: l) = Some (snd b)).
    { apply NoDup_keys_find; [exact N |]. destruct b; exact Ib. }
    rewrite (F (fst b)) in Fb by eauto. injection Fb as Fb.
    specialize (B _ Fd). simpl snd in B.
    specialize (Hmax c' Ic'). rewrite Ec' in Hmax. specialize (Hmax NE).
    lia. }
  rewrite Eb. reflexivity.
Qed.

(** C10. On the empty collection the calendar report prints its two
    tables, all at zero, and then raises: the per-date table is empty
    and [max] has nothing to return. *)
Theorem activity_report_raises_on_empty (w : World) :
  get_activity_by_month_and_day [] w
  = (Raise ValueError,
     mkWorld (calls w)
       (stdout w ++ activity_lines (mkActivity months0 weekday0 []))).
Proof.
  apply (get_activity_by_month_and_day_lines []
           (mkActivity months0 weekday0 []) w).
  reflexivity.
Qed.

(** On any other collection of watch events it returns. *)
Lemma activity_report_returns_on_nonempty c wc (w : World) :
  Forall resolved (c :: wc) ->
  Forall (fun c => valid_date (date c)) (c :: wc) ->
  exists w', get_activity_by_month_and_day (c :: wc) w = (Ok tt, w').
Proof.
  intros R V. destruct (activity_days (c :: wc) w R V) as (a & E & D).
  rewrite (get_activity_by_month_and_day_lines (c :: wc) a w E).
  assert (I : In (date c) (dict_keys (days a))).
  { rewrite D. apply days_pure_keys. right. exists c.
    split; [left |]; reflexivity. }
  destruct (days a) as [|x l]; [contradiction | eauto].
Qed.

(** ** Resolution *)

Section ResolutionFacts.
Variable requests : Catalog.
Variable py_int : string -> option Z.
Variable py_float : string -> option float.

Lemma get_info_from_imdb_id_ok tmdb imdb_id (w : World) :
  status_code (find_response requests tmdb imdb_id) = STATUS_CODE_OK ->
  get_info_from_imdb_id requests tmdb imdb_id w
  = (Ok (find_response requests tmdb imdb_id),
     mkWorld (calls w ++ [find_url imdb_id]) (stdout w)).
Proof.
  intros S. unfold get_info_from_imdb_id, process_API_response.
  fold (find_url imdb_id). fold (find_response requests tmdb imdb_id).
  rewrite S, Z.eqb_refl. reflexivity.
Qed.

Lemma get_info_from_imdb_id_failed tmdb imdb_id (w : World) :
  status_code (find_response requests tmdb imdb_id) <> STATUS_CODE_OK ->
  get_info_from_imdb_id requests tmdb imdb_id w
  = (Raise (FailedAPIRequest (url (find_response requests tmdb imdb_id))
              STATUS_CODE_OK
              (status_code (find_response requests tmdb imdb_id))
              (text (find_response requests tmdb imdb_id))),
     mkWorld (calls w ++ [find_url imdb_id]) (stdout w)).
Proof.
  intros S. unfold get_info_from_imdb_id, process_API_response.
  fold (find_url imdb_id). fold (find_response requests tmdb imdb_id).
  apply Z.eqb_neq in S. rewrite S. reflexivity.
Qed.

(** A resolution without a match: one request, no exception, an
    object with no identifier. *)
Lemma resolve_zero_matches tmdb content (w : World) :
  status_code (find_response requests tmdb (IMDB_ID content)) = STATUS_CODE_OK ->
  matches requests tmdb content = [] ->
  resolve requests py_int tmdb content w
  = (Ok (unresolved_content tmdb (String.eqb (Movie_or_Series content) "Movie")),
     mkWorld (calls w ++ [find_url (IMDB_ID content)]) (stdout w)).
Proof.
  intros S Z. unfold resolve, matches in *.
  destruct (String.eqb (Movie_or_Series content) "Movie").
  - cbv beta iota zeta delta
        [Movie Content_init Movie_class _get_tmdb_id Movie_get_tmdb_id
         set_requester _requester attr_value bind ret].
    rewrite (get_info_from_imdb_id_ok tmdb (IMDB_ID content) w S).
    rewrite Z. reflexivity.
  - cbv beta iota zeta delta
        [SeriesEpisode Content_init SeriesEpisode_class _get_tmdb_id
         SeriesEpisode_get_tmdb_id set_requester _requester attr_value
         bind ret].
    rewrite (get_info_from_imdb_id_ok tmdb (IMDB_ID content) w S).
    rewrite Z. reflexivity.
Qed.

(** A resolution whose first request is refused: the exception of
    [process_API_response] comes out of the constructor. *)
Lemma resolve_request_failed tmdb content (w : World) :
  status_code (find_response requests tmdb (IMDB_ID content)) <> STATUS_CODE_OK ->
  resolve requests py_int tmdb content w
  = (Raise (FailedAPIRequest
              (url (find_response requests tmdb (IMDB_ID content)))
              STATUS_CODE_OK
              (status_code (find_response requests tmdb (IMDB_ID content)))
              (text (find_response requests tmdb (IMDB_ID content)))),
     mkWorld (calls w ++ [find_url (IMDB_ID content)]) (stdout w)).
Proof.
  intros S. unfold resolve.
  destruct (String.eqb (Movie_or_Series content) "Movie").
  - cbv beta iota zeta delta
        [Movie Content_init Movie_class _get_tmdb_id Movie_get_tmdb_id
         set_requester _requester attr_value bind ret].
    rewrite (get_info_from_imdb_id_failed tmdb (IMDB_ID content) w S).
    reflexivity.
  - cbv beta iota zeta delta
        [SeriesEpisode Content_init SeriesEpisode_class _get_tmdb_id
         SeriesEpisode_get_tmdb_id set_requester _requester attr_value
         bind ret].
    rewrite (get_info_from_imdb_id_failed tmdb (IMDB_ID content) w S).
    reflexivity.
Qed.
End ResolutionFacts.

Lemma bind_inv {A B} (m : M A) (k : A -> M B) (w w' : World) (b : B) :
  bind m k w = (Ok b, w') ->
  exists a w1, m w = (Ok a, w1) /\ k a w1 = (Ok b, w').
Proof.
  unfold bind. destruct (m w) as [[a|e] w1]; intros E; [eauto | discriminate].
Qed.

Ltac inv_bind H :=
  let a := fresh "a" in
  let w1 := fresh "w" in
  let E := fresh "E" in
  apply bind_inv in H; destruct H as (a & w1 & E & H).

Section ConstructionFacts.
Variable requests : Catalog.
Variable py_int : string -> option Z.

Lemma Movie_get_tmdb_id_self self imdb_id (w w' : World) self' i :
  Movie_get_tmdb_id requests self imdb_id w = (Ok (self', i), w') ->
  self' = self.
Proof.
  unfold Movie_get_tmdb_id. intros H.
  inv_bind H. inv_bind H. cbv zeta in H.
  destruct (len _ =? 0).
  - injection H as <- _ _. reflexivity.
  - inv_bind H. injection H as <- _ _. reflexivity.
Qed.

Lemma SeriesEpisode_get_tmdb_id_self self imdb_id (w w' : World) self' i :
  SeriesEpisode_get_tmdb_id requests self imdb_id w = (Ok (self', i), w') ->
  production_companies self' = production_companies self.
Proof.
  unfold SeriesEpisode_get_tmdb_id. intros H.
  inv_bind H. inv_bind H. cbv zeta in H.
  destruct (len _ =? 0).
  - injection H as <- _ _. reflexivity.
  - inv_bind H. inv_bind H. inv_bind H. inv_bind H.
    injection H as <- _ _. reflexivity.
Qed.

End ConstructionFacts.

(** Whenever the constructor leaves the identifier at [None], it
    assigns [None] to six metadata attributes and to
    [pruction_companies], and leaves [production_companies] as it
    found it. *)
Lemma Content_init_unresolved cls self tmdb imdb_id movie (w w' : World) c :
  (forall s i w1 w2 s' o,
      _get_tmdb_id cls s i w1 = (Ok (s', o), w2) ->
      production_companies s' = production_companies s) ->
  production_companies self = Unset ->
  Content_init cls self tmdb imdb_id movie w = (Ok c, w') ->
  tmdb_id c = PyNone ->
  title c = PyNone /\ genres c = PyNone /\ actors c = PyNone
  /\ directors c = PyNone /\ production_companies c = Unset
  /\ release_date c = PyNone /\ runtime c = PyNone
  /\ pruction_companies c = PyNone.
Proof.
  intros Hp Hu H Hid. unfold Content_init in H.
  inv_bind H. destruct a as [self' o].
  apply Hp in E. cbv zeta in H. inv_bind H.
  destruct a.
  - repeat inv_bind H. injection H as <- _. simpl in Hid.
    destruct o; discriminate.
  - injection H as <- _. simpl. rewrite E. simpl. rewrite Hu. tauto.
Qed.

Lemma for_each_app {A S} (body : S -> A -> M S) (l1 l2 : list A) :
  forall (acc : S) (w : World),
    for_each (l1 ++ l2) body acc w
    = match for_each l1 body acc w with
      | (Ok acc', w') => for_each l2 body acc' w'
      | (Raise e, w') => (Raise e, w')
      end.
Proof.
  induction l1 as [|x l1 IH]; intros acc w; simpl.
  - reflexivity.
  - unfold bind. destruct (body acc x w) as [[acc'|e] w']; [apply IH |].
    reflexivity.
Qed.

(** C2. A content object whose identifier was left at [None] by its
    constructor, movie or episode, has its title, genres, actors,
    directors, release date and runtime at [None], as the claim says,
    but not its production companies: the constructor assigns [None]
    to an attribute named [pruction_companies] instead, so
    [production_companies] is no attribute of the object, and reading
    it raises [AttributeError] where the claim has it empty. *)
Theorem unresolved_content_misses_production_companies
    (requests : Catalog) (py_int : string -> option Z) (tmdb : APIRequests)
    (imdb_id : string) (w w' : World) (c : Content) :
  Movie requests py_int tmdb imdb_id w = (Ok c, w')
  \/ SeriesEpisode requests py_int tmdb imdb_id w = (Ok c, w') ->
  tmdb_id c = PyNone ->
  title c = PyNone /\ genres c = PyNone /\ actors c = PyNone
  /\ directors c = PyNone /\ release_date c = PyNone /\ runtime c = PyNone
  /\ pruction_companies c = PyNone
  /\ production_companies c = Unset
  /\ (forall w0 : World,
        attr_is_none (production_companies c) w0 = (Raise AttributeError, w0)).
Proof.
  intros H Hid.
  assert (F : title c = PyNone /\ genres c = PyNone /\ actors c = PyNone
              /\ directors c = PyNone /\ production_companies c = Unset
              /\ release_date c = PyNone /\ runtime c = PyNone
              /\ pruction_companies c = PyNone).
  { destruct H as [H | H].
    - apply (Content_init_unresolved (Movie_class requests py_int) new_object
               tmdb imdb_id true w w' c); auto.
      intros s i w1 w2 s' o E. simpl in E.
      apply Movie_get_tmdb_id_self in E. subst. reflexivity.
    - apply (Content_init_unresolved (SeriesEpisode_class requests py_int)
               (set_episode_ids new_object PyNone PyNone PyNone)
               tmdb imdb_id false w w' c); auto.
      intros s i w1 w2 s' o E. simpl in E.
      apply SeriesEpisode_get_tmdb_id_self in E. exact E. }
  destruct F as (Ft & Fg & Fa & Fd & Fp & Fr & Fu & Fy).
  repeat split; try assumption.
  intros w0. rewrite Fp. reflexivity.
Qed.

(** C6. When the catalog answers the resolution request with no match,
    the constructor returns after that one request with the identifier
    at [None]; the builder then leaves the collection as it was, prints
    one diagnostic and goes on with the remaining records. *)
Theorem zero_matches_skip_the_record
    (requests : Catalog) (py_int : string -> option Z)
    (py_float : string -> option float) (tmdb : APIRequests)
    (content : raw_record) (rest : list raw_record)
    (watched_content : list WatchedContent) (w : World) :
  status_code (find_response requests tmdb (IMDB_ID content)) = STATUS_CODE_OK ->
  matches requests tmdb content = [] ->
  (exists c,
      resolve requests py_int tmdb content w
      = (Ok c, mkWorld (calls w ++ [find_url (IMDB_ID content)]) (stdout w))
      /\ tmdb_id c = PyNone)
  /\ build_step requests py_int py_float tmdb watched_content content w
     = (Ok watched_content,
        mkWorld (calls w ++ [find_url (IMDB_ID content)])
                (stdout w ++ [diagnostic content]))
  /\ for_each (content :: rest) (build_step requests py_int py_float tmdb)
       watched_content w
     = for_each rest (build_step requests py_int py_float tmdb)
         watched_content
         (mkWorld (calls w ++ [find_url (IMDB_ID content)])
                  (stdout w ++ [diagnostic content])).
Proof.
  intros S Z.
  pose proof (resolve_zero_matches requests py_int tmdb content w S Z) as R.
  assert (B : build_step requests py_int py_float tmdb watched_content content w
              = (Ok watched_content,
                 mkWorld (calls w ++ [find_url (IMDB_ID content)])
                         (stdout w ++ [diagnostic content]))).
  { unfold build_step. rewrite (bind_ok _ R). reflexivity. }
  split; [eexists; split; [exact R | reflexivity] |].
  split; [exact B |].
  simpl for_each. rewrite (bind_ok _ B). reflexivity.
Qed.


(** ** Division and truncation

    The quotient of two integers, rounded to binary64 and truncated, is
    their integer quotient as long as the dividend is below [2 ^ 53]. *)

Lemma digits2_pos_bounds (p : positive) :
  2 ^ (Zpos (digits2_pos p) - 1) <= Zpos p < 2 ^ Zpos (digits2_pos p).
Proof.
  induction p as [p IH | p IH |]; simpl digits2_pos.
  - rewrite Pos2Z.inj_succ.
    replace (Z.succ (Zpos (digits2_pos p)) - 1) with (Z.succ (Zpos (digits2_pos p) - 1)) by lia.
    rewrite !Z.pow_succ_r by lia. lia.
  - rewrite Pos2Z.inj_succ.
    replace (Z.succ (Zpos (digits2_pos p)) - 1) with (Z.succ (Zpos (digits2_pos p) - 1)) by lia.
    rewrite !Z.pow_succ_r by lia. lia.
  - simpl. lia.
Qed.

Lemma Zdigits2_bounds (q : Z) :
  0 < q -> 2 ^ (Zdigits2 q - 1) <= q < 2 ^ Zdigits2 q.
Proof.
  destruct q as [|p|p]; try lia. intros _. apply digits2_pos_bounds.
Qed.

Lemma Zdigits2_le (q n : Z) : 0 <= n -> 0 <= q < 2 ^ n -> Zdigits2 q <= n.
Proof.
  intros Hn [H0 H]. destruct (Z.eq_dec q 0) as [->|NZ]; [simpl; lia|].
  pose proof (Zdigits2_bounds q ltac:(lia)) as [L _].
  destruct (Z.le_gt_cases (Zdigits2 q) n) as [?|G]; [assumption|].
  assert (2 ^ n <= 2 ^ (Zdigits2 q - 1)) by (apply Z.pow_le_mono_r; lia).
  lia.
Qed.

Lemma Zdigits2_ge (q n : Z) : 0 <= n -> 2 ^ n <= q -> n < Zdigits2 q.
Proof.
  intros Hn H. assert (0 < q) by (pose proof (Z.pow_pos_nonneg 2 n); lia).
  pose proof (Zdigits2_bounds q ltac:(lia)) as [_ U].
  destruct (Z.lt_ge_cases n (Zdigits2 q)) as [?|G]; [assumption|].
  assert (2 ^ (Zdigits2 q) <= 2 ^ n) by (apply Z.pow_le_mono_r; lia).
  lia.
Qed.

Lemma Zdigits2_nonneg q : 0 <= Zdigits2 q.
Proof. destruct q; simpl; lia. Qed.

Lemma fexp_eq e : fexp prec emax e = Z.max (e - 53) (-1074).
Proof. reflexivity. Qed.

Lemma shr_fexp_noshift (q e : Z) (l : location) :
  0 <= q < 2 ^ 53 -> -1074 <= e ->
  shr_fexp prec emax q e l = (shr_record_of_loc q l, e).
Proof.
  intros Hq He. unfold shr_fexp. rewrite fexp_eq.
  pose proof (Zdigits2_le q 53 ltac:(lia) Hq) as D.
  pose proof (Zdigits2_nonneg q) as D0.
  unfold shr.
  destruct (Z.max (Zdigits2 q + e - 53) (-1074) - e) eqn:E; try reflexivity.
  lia.
Qed.

Lemma shr_fexp_shift1 (q e : Z) (l : location) :
  2 ^ 53 <= q < 2 ^ 54 -> -1074 <= e ->
  shr_fexp prec emax q e l = (shr_1 (shr_record_of_loc q l), e + 1).
Proof.
  intros Hq He. unfold shr_fexp. rewrite fexp_eq.
  pose proof (Zdigits2_le q 54 ltac:(lia) ltac:(lia)) as D.
  pose proof (Zdigits2_ge q 53 ltac:(lia) ltac:(lia)) as D'.
  replace (Z.max (Zdigits2 q + e - 53) (-1074) - e) with 1 by lia.
  reflexivity.
Qed.

Lemma loc_of_shr_record_of_loc m l :
  loc_of_shr_record (shr_record_of_loc m l) = l.
Proof. destruct l as [|[]]; reflexivity. Qed.

Lemma shr_m_record_of_loc m l : shr_m (shr_record_of_loc m l) = m.
Proof. destruct l as [|[]]; reflexivity. Qed.

Lemma round_nearest_even_cases m l :
  round_nearest_even m l = m
  \/ (round_nearest_even m l = m + 1
      /\ (l = loc_Inexact Eq \/ l = loc_Inexact Gt)).
Proof.
  destruct l as [|[]]; simpl; auto.
  destruct (Z.even m); auto.
Qed.

Lemma shr_1_spec (q : Z) (l : location) :
  0 < q ->
  shr_m (shr_1 (shr_record_of_loc q l)) = q / 2
  /\ (loc_of_shr_record (shr_1 (shr_record_of_loc q l)) = loc_Inexact Eq
      \/ loc_of_shr_record (shr_1 (shr_record_of_loc q l)) = loc_Inexact Gt ->
      Z.odd q = true).
Proof.
  intros Hq. destruct q as [|p|p]; try lia.
  destruct p as [p|p|]; destruct l as [|[]]; simpl; split;
    try (intros [E|E]; discriminate E); try reflexivity;
    try (apply (Z.div_unique (Z.pos p~1) 2 (Z.pos p) 1); lia);
    try (apply (Z.div_unique (Z.pos p~0) 2 (Z.pos p) 0); lia).
Qed.

Lemma trunc_val_nonpos m e : e <= 0 -> trunc_val m e = m / 2 ^ (- e).
Proof.
  intros He. unfold trunc_val. destruct (Z.leb_spec 0 e) as [L|G]; [|reflexivity].
  assert (e = 0) by lia. subst. simpl. rewrite Z.div_1_r. lia.
Qed.

Lemma round_finish (sx : bool) (m2 e1 : Z) :
  0 <= m2 <= 2 ^ 53 -> -1074 <= e1 <= 0 ->
  float_trunc sx
    (let '(mrs, e) := shr_fexp prec emax m2 e1 loc_Exact in
     match shr_m mrs with
     | Z0 => S754_zero sx
     | Zpos m => if e <=? emax - prec then S754_finite sx m e
                 else S754_infinity sx
     | Zneg _ => S754_nan
     end)
    (trunc_val m2 e1).
Proof.
  intros Hm He.
  destruct (Z.eq_dec m2 (2 ^ 53)) as [->|NE].
  - rewrite shr_fexp_shift1 by lia.
    change (shr_m (shr_1 (shr_record_of_loc (2 ^ 53) loc_Exact))) with (Z.pos (2 ^ 52)).
    destruct (Z.leb_spec (e1 + 1) (emax - prec)) as [L|G];
      [| unfold emax, prec in G; lia].
    unfold float_trunc. split; [reflexivity |].
    destruct (Z.eq_dec e1 0) as [->|NZ].
    + reflexivity.
    + rewrite !trunc_val_nonpos by lia.
      replace (- e1) with (Z.succ (- (e1 + 1))) by lia.
      rewrite Z.pow_succ_r by lia.
      change (2 ^ 53) with (2 * Z.pos (2 ^ 52)).
      rewrite Z.div_mul_cancel_l; [reflexivity | | lia].
      apply Z.pow_nonzero; lia.
  - rewrite shr_fexp_noshift by lia.
    rewrite shr_m_record_of_loc.
    destruct m2 as [|p|p]; [| | lia].
    + unfold float_trunc, trunc_val. destruct (0 <=? e1); [lia |].
      rewrite Z.div_0_l; [reflexivity |]. apply Z.pow_nonzero; lia.
    + destruct (Z.leb_spec e1 (emax - prec)) as [L|G];
        [| unfold emax, prec in G; lia].
      split; reflexivity.
Qed.

Lemma binary_round_aux_trunc (sx : bool) (q e : Z) (l : location) :
  0 <= q < 2 ^ 54 -> -1074 <= e <= -1 ->
  exists m2 e1,
    float_trunc sx (binary_round_aux prec emax sx q e l) (trunc_val m2 e1)
    /\ ((q < 2 ^ 53 /\ e1 = e
         /\ (m2 = q \/ (m2 = q + 1
                        /\ (l = loc_Inexact Eq \/ l = loc_Inexact Gt))))
        \/ (2 ^ 53 <= q /\ e1 = e + 1
            /\ (m2 = q / 2 \/ (m2 = q / 2 + 1 /\ Z.odd q = true)))).
Proof.
  intros Hq He. unfold binary_round_aux.
  destruct (Z.lt_ge_cases q (2 ^ 53)) as [Lt|Ge].
  - rewrite shr_fexp_noshift by lia.
    rewrite shr_m_record_of_loc, loc_of_shr_record_of_loc.
    exists (round_nearest_even q l), e. split.
    + apply round_finish; [| lia].
      destruct (round_nearest_even_cases q l) as [-> | [-> _]]; lia.
    + left. split; [exact Lt |]. split; [reflexivity |].
      destruct (round_nearest_even_cases q l) as [-> | [-> C]]; auto.
  - rewrite shr_fexp_shift1 by lia.
    destruct (shr_1_spec q l ltac:(lia)) as [Em Eo].
    set (mrs := shr_1 (shr_record_of_loc q l)) in *.
    exists (round_nearest_even (shr_m mrs) (loc_of_shr_record mrs)), (e + 1).
    assert (B : 0 <= q / 2 < 2 ^ 53).
    { split; [apply Z.div_pos; lia |].
      apply Z.div_lt_upper_bound; [lia |].
      change (2 * 2 ^ 53) with (2 ^ 54). lia. }
    split.
    + apply round_finish; [| lia].
      destruct (round_nearest_even_cases (shr_m mrs) (loc_of_shr_record mrs))
        as [-> | [-> _]]; rewrite Em; lia.
    + right. split; [exact Ge |]. split; [reflexivity |].
      destruct (round_nearest_even_cases (shr_m mrs) (loc_of_shr_record mrs))
        as [-> | [-> C]]; rewrite Em; auto.
Qed.

Lemma new_location_up (b r : Z) :
  0 < b -> 0 <= r < b ->
  new_location b r = loc_Inexact Eq \/ new_location b r = loc_Inexact Gt ->
  b <= 2 * r.
Proof.
  intros Hb Hr. unfold new_location, new_location_even, new_location_odd.
  destruct (Z.even b) eqn:Ev; destruct (Z.eqb_spec r 0) as [->|NZ].
  - intros [E|E]; discriminate.
  - destruct (Z.compare_spec (2 * r) b); intros [E|E]; try discriminate; lia.
  - intros [E|E]; discriminate.
  - destruct (Z.compare_spec (2 * r + 1) b); intros [E|E]; try discriminate; lia.
Qed.

Lemma div_eucl_div_mod (x y : Z) : Z.div_eucl x y = (x / y, x mod y).
Proof. unfold Z.div, Z.modulo. destruct (Z.div_eucl x y); reflexivity. Qed.

Lemma div_succ_same (x P n : Z) :
  0 < P -> x / P = n -> x + 1 <> (n + 1) * P -> (x + 1) / P = n.
Proof.
  intros HP E NE. pose proof (Z.div_mod x P ltac:(lia)) as D.
  pose proof (Z.mod_pos_bound x P HP) as B. rewrite E in D.
  symmetry. apply Z.div_unique with (x mod P + 1); nia.
Qed.

Lemma no_carry (a b q r P n : Z) :
  0 < b -> 0 < P -> 0 <= r < b -> a * P = b * q + r -> n = a / b ->
  q + 1 = (n + 1) * P -> P <= b - r.
Proof.
  intros Hb HP Hr E En C.
  pose proof (Z.div_mod a b ltac:(lia)) as D.
  pose proof (Z.mod_pos_bound a b Hb) as B. rewrite <- En in D.
  assert (H1 : a + 1 <= b * (n + 1)) by nia.
  assert (H2 : (a + 1) * P <= b * (n + 1) * P) by (apply Z.mul_le_mono_nonneg_r; lia).
  nia.
Qed.

Lemma truediv_trunc_pos (sa : bool) (a b : positive) :
  Zpos a < 2 ^ 53 ->
  float_trunc sa (float_div (S754_finite sa a 0) (S754_finite false b 0))
              (Zpos a / Zpos b).
Proof.
  intros Ha.
  unfold float_div, SFdiv, SFdiv_core_binary.
  set (d1 := Zdigits2 (Zpos a)). set (d2 := Zdigits2 (Zpos b)).
  pose proof (Zdigits2_bounds (Zpos a) ltac:(lia)) as [A1 A2].
  pose proof (Zdigits2_bounds (Zpos b) ltac:(lia)) as [B1 B2].
  fold d1 in A1, A2. fold d2 in B1, B2.
  assert (D1 : 1 <= d1 <= 53).
  { split; [unfold d1; simpl; lia |].
    apply Zdigits2_le; lia. }
  assert (D2 : 1 <= d2) by (unfold d2; simpl; lia).
  rewrite fexp_eq.
  replace (d1 + 0 - (d2 + 0) - 53) with (d1 - d2 - 53) by lia.
  set (e' := Z.min (Z.max (d1 - d2 - 53) (-1074)) (0 - 0)).
  assert (He : -1074 <= e' <= -1) by (unfold e'; lia).
  replace (0 - 0 - e') with (- e') by lia.
  set (s := - e'). assert (Hs : 1 <= s <= 1074) by (unfold s; lia).
  destruct s as [|ps|ps] eqn:Es; try lia. rewrite <- Es in *. clear ps Es.
  rewrite Z.shiftl_mul_pow2 by lia.
  set (P := 2 ^ s). assert (HP : 0 < P) by (apply Z.pow_pos_nonneg; lia).
  rewrite div_eucl_div_mod.
  set (q := Zpos a * P / Zpos b). set (r := (Zpos a * P) mod Zpos b).
  assert (Hr : 0 <= r < Zpos b) by (apply Z.mod_pos_bound; lia).
  assert (Eq : Zpos a * P = Zpos b * q + r) by (apply Z.div_mod; lia).
  assert (Hq0 : 0 <= q) by (apply Z.div_pos; lia).
  set (n := Zpos a / Zpos b).
  assert (F1 : q / P = n).
  { unfold q, n. rewrite Z.div_div by lia.
    apply Z.div_mul_cancel_r; lia. }
  assert (Hsd : s <= 53 + d2 - d1) by (unfold s, e'; lia).
  assert (Hq : q < 2 ^ 54).
  { assert (Pw : 2 ^ d1 * P <= 2 ^ 54 * 2 ^ (d2 - 1)).
    { unfold P. rewrite <- !Z.pow_add_r by lia.
      apply Z.pow_le_mono_r; lia. }
    assert (0 < 2 ^ (d2 - 1)) by (apply Z.pow_pos_nonneg; lia).
    nia. }
  destruct (binary_round_aux_trunc (xorb sa false) q e'
              (new_location (Zpos b) r) ltac:(lia) He) as (m2 & e1 & T & C).
  replace (xorb sa false) with sa in * by (destruct sa; reflexivity).
  assert (V : trunc_val m2 e1 = n); [| rewrite <- V; exact T].
  destruct C as [(Lq & -> & Cm) | (Gq & -> & Cm)].
  - rewrite trunc_val_nonpos by lia. fold s. fold P.
    destruct Cm as [-> | (-> & Up)]; [exact F1 |].
    apply div_succ_same; [exact HP | exact F1 |].
    intros Cy.
    pose proof (no_carry (Zpos a) (Zpos b) q r P n
                  ltac:(lia) HP Hr Eq eq_refl Cy) as NC.
    pose proof (new_location_up (Zpos b) r ltac:(lia) Hr Up) as U.
    assert (Hn : 0 <= n) by (apply Z.div_pos; lia).
    assert (P53 : P <= 2 ^ 53) by nia.
    assert (s53 : s <= 53).
    { destruct (Z.le_gt_cases s 53) as [?|G]; [assumption |].
      assert (2 ^ 54 <= P) by (apply Z.pow_le_mono_r; lia). lia. }
    assert (sn : s = 53 + d2 - d1) by (unfold s, e' in *; lia).
    assert (2 ^ d2 <= P) by (apply Z.pow_le_mono_r; lia).
    lia.
  - assert (HbP : Zpos b < P) by nia.
    rewrite trunc_val_nonpos by lia.
    replace (- (e' + 1)) with (s - 1) by (unfold s; lia).
    set (P' := 2 ^ (s - 1)).
    assert (HP' : 0 < P') by (apply Z.pow_pos_nonneg; lia).
    assert (EP : P = 2 * P').
    { unfold P, P'. rewrite <- Z.pow_succ_r by lia. f_equal. lia. }
    assert (F2 : q / 2 / P' = n).
    { rewrite Z.div_div by lia. rewrite <- EP. exact F1. }
    destruct Cm as [-> | (-> & Od)]; [exact F2 |].
    apply div_succ_same; [exact HP' | exact F2 |].
    intros Cy.
    assert (Q2 : q = 2 * (q / 2) + 1).
    { rewrite (Z.div_mod q 2) at 1 by lia.
      rewrite <- Z.bit0_mod, Z.bit0_odd, Od. reflexivity. }
    assert (Cy' : q + 1 = (n + 1) * P) by lia.
    pose proof (no_carry (Zpos a) (Zpos b) q r P n
                  ltac:(lia) HP Hr Eq eq_refl Cy') as NC.
    lia.
Qed.

Lemma int_truediv_trunc (a b : Z) (w : World) :
  - 2 ^ 53 < a < 2 ^ 53 -> 0 < b ->
  bind (int_truediv a b) int_of_float w = (Ok (Z.quot a b), w).
Proof.
  intros Ha Hb. unfold int_truediv.
  destruct (Z.eqb_spec b 0) as [E|_]; [lia |].
  destruct b as [|pb|pb]; try lia.
  destruct a as [|pa|pa].
  - reflexivity.
  - pose proof (truediv_trunc_pos false pa pb ltac:(lia)) as T.
    rewrite Z.quot_div_nonneg by lia.
    unfold exact_float.
    destruct (float_div (S754_finite false pa 0) (S754_finite false pb 0))
      as [s | s | | s m e]; simpl in T; try contradiction.
    + unfold bind, ret, int_of_float. rewrite T. reflexivity.
    + destruct T as [-> T].
      unfold bind, ret, int_of_float, trunc_val in *. simpl cond_Zopp.
      rewrite T. reflexivity.
  - pose proof (truediv_trunc_pos true pa pb ltac:(lia)) as T.
    change (Z.neg pa) with (- Z.pos pa).
    rewrite Z.quot_opp_l, Z.quot_div_nonneg by lia.
    change (exact_float (- Z.pos pa)) with (S754_finite true pa 0).
    unfold exact_float.
    destruct (float_div (S754_finite true pa 0) (S754_finite false pb 0))
      as [s | s | | s m e]; simpl in T; try contradiction.
    + unfold bind, ret, int_of_float. rewrite T. reflexivity.
    + destruct T as [-> T].
      unfold bind, ret, int_of_float, trunc_val in *. simpl cond_Zopp.
      rewrite T. reflexivity.
Qed.

(** C5, as the code has it.  The runtime of an episode is the
    truncated mean of the show's [episode_run_time] when the list is
    not empty and its sum is below [2 ^ 53] in absolute value; on the
    empty list the division raises [ZeroDivisionError], which nothing
    catches. *)
Theorem episode_runtime_truncated_mean
    (self : Content) (content_info : TMDB.details) (l : list Z) (w : World) :
  TMDB.episode_run_time content_info = Some l ->
  - 2 ^ 53 < sum l < 2 ^ 53 ->
  SeriesEpisode_get_runtime self content_info w
  = if len l =? 0 then (Raise ZeroDivisionError, w)
    else (Ok (Z.quot (sum l) (len l)), w).
Proof.
  intros E B. unfold SeriesEpisode_get_runtime. rewrite E.
  change (bind (getitem_key (Some l)) ?k w) with (k l w). cbv beta.
  destruct (Z.eqb_spec (len l) 0) as [Z0 | NZ].
  - unfold int_truediv, bind. rewrite Z0. reflexivity.
  - assert (L : 0 < len l) by (unfold len in *; lia).
    apply int_truediv_trunc; assumption.
Qed.

(** ** Worked examples *)

Example sample_most_watched_genres :
  get_most_watched_genres sample_events empty_world
  = (Ok tt,
     mkWorld [] [Line "Most watched genres" [];
                 Line "{}: {}" [AStr "Drama"; AInt 363];
                 Line "{}: {}" [AStr "War"; AInt 240]]).
Proof. reflexivity. Qed.

Example sample_most_liked_genres :
  get_most_liked_genres sample_events empty_world
  = (Ok tt,
     mkWorld [] [Line "Best rated genres" [];
                 Line "{}: {}" [AStr "Drama"; AFloat (float_of_int 8)]]).
Proof. reflexivity. Qed.

Example sample_monday : weekday_of (mkDate 2021 3 1) = 0.
Proof. reflexivity. Qed.

Lemma sample_events_resolved : Forall resolved sample_events.
Proof. repeat constructor. Qed.

Lemma sample_events_dated :
  Forall (fun c => valid_date (date c)) sample_events.
Proof.
  unfold sample_events.
  repeat (apply Forall_cons; [repeat split; vm_compute; discriminate |]).
  apply Forall_nil.
Qed.



(** C2 at a catalog without a match: the movie constructed for
    [tt0050825] has no attribute [production_companies]. *)
Lemma unresolved_content_misses_production_companies_witness :
  let c := unresolved_content sample_tmdb true in
  Movie catalog_empty no_int sample_tmdb "tt0050825" empty_world
  = (Ok c, mkWorld [find_url "tt0050825"] [])
  /\ title c = PyNone /\ genres c = PyNone /\ actors c = PyNone
  /\ directors c = PyNone /\ release_date c = PyNone /\ runtime c = PyNone
  /\ pruction_companies c = PyNone
  /\ production_companies c = Unset
  /\ (forall w0 : World,
        attr_is_none (production_companies c) w0 = (Raise AttributeError, w0)).
Proof.
  split; [reflexivity |].
  apply (unresolved_content_misses_production_companies catalog_empty no_int
           sample_tmdb "tt0050825" empty_world
           (mkWorld [find_url "tt0050825"] [])
           (unresolved_content sample_tmdb true)).
  - left. reflexivity.
  - reflexivity.
Defined.

(** C3 on the sample events. *)
Lemma average_ranking_suppresses_rare_keys_witness :
  average_ranking_report genres 5 "Best rated genres"
    get_most_liked_genres sample_events empty_world
  /\ average_ranking_report actors 5 "Best rated actor"
       get_most_liked_actors sample_events empty_world
  /\ average_ranking_report production_companies 5
       "Best rated production companies"
       get_most_liked_production_companies sample_events empty_world
  /\ average_ranking_report directors 2 "Best rated director"
       get_most_liked_directors sample_events empty_world.
Proof.
  apply (average_ranking_suppresses_rare_keys sample_events empty_world).
  repeat constructor.
Defined.

(** C4 on the sample events. *)
Lemma sum_ranking_reports_sound_witness :
  sum_ranking_report genres "Most watched genres"
    get_most_watched_genres sample_events empty_world
  /\ sum_ranking_report actors "Most watched actors"
       get_most_watched_actors sample_events empty_world
  /\ sum_ranking_report directors "Most watched directors"
       get_most_watched_directors sample_events empty_world
  /\ sum_ranking_report production_companies "Most watched production_companies"
       get_most_watched_production_companies sample_events empty_world.
Proof.
  apply (sum_ranking_reports_sound sample_events empty_world).
  - repeat constructor.
  - unfold sample_events.
    repeat (apply Forall_cons; [vm_compute; discriminate |]).
    apply Forall_nil.
Defined.

(** C5 on a show with episodes of 30, 45 and 50 minutes. *)
Lemma episode_runtime_truncated_mean_witness :
  SeriesEpisode_get_runtime new_object short_show empty_world
  = (Ok 41, empty_world).
Proof.
  apply (episode_runtime_truncated_mean new_object short_show [30; 45; 50]
           empty_world).
  - reflexivity.
  - vm_compute. split; reflexivity.
Defined.

(** C5 as the specification words it fails on a sum that binary64
    cannot hold: the list is not empty, its truncated mean is
    [2 ^ 53 + 1], the runtime computed is [2 ^ 53]. *)
Lemma episode_runtime_rounds_large_sums :
  TMDB.episode_run_time long_show = Some [9007199254740993]
  /\ Z.quot (sum [9007199254740993]) (len [9007199254740993])
     = 9007199254740993
  /\ SeriesEpisode_get_runtime new_object long_show empty_world
     = (Ok 9007199254740992, empty_world)
  /\ SeriesEpisode_get_runtime new_object long_show empty_world
     <> (Ok (Z.quot (sum [9007199254740993]) (len [9007199254740993])),
         empty_world).
Proof.
  split; [reflexivity |]. split; [reflexivity |]. split; [reflexivity |].
  vm_compute. discriminate.
Qed.

(** C6 at a catalog without a match. *)
Lemma zero_matches_skip_the_record_witness :
  (exists c,
      resolve catalog_empty no_int sample_tmdb first_record empty_world
      = (Ok c, mkWorld ([] ++ [find_url "tt0050825"]) [])
      /\ tmdb_id c = PyNone)
  /\ build_step catalog_empty no_int no_float sample_tmdb [] first_record
       empty_world
     = (Ok [],
        mkWorld ([] ++ [find_url "tt0050825"])
                ([] ++ [diagnostic first_record]))
  /\ for_each (first_record :: [second_record])
       (build_step catalog_empty no_int no_float sample_tmdb) [] empty_world
     = for_each [second_record]
         (build_step catalog_empty no_int no_float sample_tmdb) []
         (mkWorld ([] ++ [find_url "tt0050825"])
                  ([] ++ [diagnostic first_record])).
Proof.
  apply (zero_matches_skip_the_record catalog_empty no_int no_float
           sample_tmdb first_record [second_record] [] empty_world).
  - reflexivity.
  - reflexivity.
Defined.

(** C7 on the sample events. *)
Lemma calendar_buckets_complete_witness :
  exists (a : activity) (r : result unit) (w' : World) (rest : list line),
    activity_tables sample_events empty_world = (Ok a, empty_world)
    /\ get_activity_by_month_and_day sample_events empty_world = (r, w')
    /\ stdout w' = stdout empty_world ++ activity_lines a ++ rest
    /\ dict_keys (months a)
       = ["January"; "February"; "March"; "April"; "May"; "June"; "July";
          "August"; "September"; "October"; "November"; "December"]
    /\ dict_keys (weekday a)
       = ["Sunday"; "Monday"; "Tuesday"; "Wednesday"; "Thursday"; "Friday";
          "Saturday"]
    /\ (forall k, dict_get 0 (months a) k = month_total sample_events k)
    /\ (forall k, dict_get 0 (weekday a) k = weekday_total sample_events k)
    /\ sum (dict_values (months a)) = total_runtime sample_events
    /\ sum (dict_values (weekday a)) = total_runtime sample_events.
Proof.
  apply (calendar_buckets_complete sample_events empty_world).
  - repeat constructor.
  - unfold sample_events.
    repeat (apply Forall_cons; [repeat split; vm_compute; discriminate |]).
    apply Forall_nil.
Defined.

(** C8 on the sample events. *)
Lemma category_totals_partition_witness :
  exists n : counters,
    count_movies_and_series sample_events empty_world = (Ok n, empty_world)
    /\ get_amount_of_movies_and_series_watched sample_events empty_world
       = (Ok tt,
          mkWorld (calls empty_world)
            (stdout empty_world ++
             [Line "Amount of movies watched: {} ({} minutes)"
                   [AInt (movie_counter n); AInt (movie_minutes n)];
              Line "Amount of series watched: {} ({} minutes)"
                   [AInt (series_counter n); AInt (series_minutes n)]]))
    /\ movie_counter n = len (filter movie_of sample_events)
    /\ series_counter n
       = len (filter (fun c => negb (movie_of c)) sample_events)
    /\ movie_counter n + series_counter n = len sample_events
    /\ movie_minutes n + series_minutes n = total_runtime sample_events.
Proof.
  apply (category_totals_partition sample_events empty_world).
  repeat constructor.
Defined.

(** C9 on the sample events, where 1 March, with 161 minutes over two
    events, is the most active day, and on two events of 120 minutes
    on two days, where no day stands out. *)
Lemma most_active_date_is_strict_maximum_witness :
  (exists a : activity,
     activity_tables sample_events empty_world = (Ok a, empty_world)
     /\ NoDup (dict_keys (days a))
     /\ (forall c, In c sample_events ->
                   dict_find (date c) (days a)
                   = Some (day_total sample_events (date c)))
     /\ get_activity_by_month_and_day sample_events empty_world
        = (Ok tt,
           mkWorld (calls empty_world)
             (stdout empty_world ++ activity_lines a ++
              [Line "Day with the most activity: {}/{}" [AInt 3; AInt 1]])))
  /\ (exists a : activity,
        activity_tables tied_events empty_world = (Ok a, empty_world)
        /\ NoDup (dict_keys (days a))
        /\ (forall c, In c tied_events ->
                      dict_find (date c) (days a)
                      = Some (day_total tied_events (date c)))).
Proof.
  split.
  - destruct (most_active_date_is_strict_maximum sample_events empty_world)
      as (a & E & N & F & Mx).
    + repeat constructor.
    + unfold sample_events.
      repeat (apply Forall_cons; [repeat split; vm_compute; discriminate |]).
      apply Forall_nil.
    + exists a. split; [exact E |]. split; [exact N |]. split; [exact F |].
      apply (Mx (mkDate 2021 3 1)).
      * eexists. split; [left; reflexivity | reflexivity].
      * intros c' [<- | [<- | [<- | [<- | [<- | []]]]]] NE;
          try (exfalso; apply NE; reflexivity); vm_compute; reflexivity.
  - destruct (most_active_date_is_strict_maximum tied_events empty_world)
      as (a & E & N & F & _).
    + repeat constructor.
    + unfold tied_events.
      repeat (apply Forall_cons; [repeat split; vm_compute; discriminate |]).
      apply Forall_nil.
    + exists a. split; [exact E |]. split; [exact N | exact F].
Defined.

(** ** The events that [main] builds

    Every event of the collection handed to the reports comes from a
    resolution that found a match and from a date that [datetime]
    accepted: the hypotheses of the report theorems hold in every run. *)

Lemma str_of_int_nonempty (n : Z) : str_of_int n <> EmptyString.
Proof.
  unfold str_of_int. destruct (Z.to_int n) as [d | d]; destruct d; discriminate.
Qed.

Lemma valid_dateb_valid (d : datetime) : valid_dateb d = true -> valid_date d.
Proof.
  unfold valid_dateb, valid_date. intros V.
  repeat (apply andb_prop in V; destruct V as [V ?]).
  repeat match goal with
         | H : (_ <=? _) = true |- _ => apply Z.leb_le in H
         end.
  lia.
Qed.

Lemma new_datetime_inv y m d dt (w w' : World) :
  new_datetime y m d w = (Ok dt, w') ->
  dt = mkDate y m d /\ valid_dateb (mkDate y m d) = true /\ w' = w.
Proof.
  unfold new_datetime.
  destruct (fits_c_int y && fits_c_int m && fits_c_int d); [| discriminate].
  destruct (valid_dateb _); [| discriminate].
  intros E. injection E as <- <-. auto.
Qed.

Lemma valid_dateb_fits y m d :
  valid_dateb (mkDate y m d) = true ->
  fits_c_int y && fits_c_int m && fits_c_int d = true.
Proof.
  intros V. apply valid_dateb_valid in V. destruct V as (Y & Mo & D).
  cbn [year month day] in *.
  assert (B : days_in_month y m <= 31).
  { unfold days_in_month. destruct ((m =? 2) && is_leap y); [lia |].
    assert (Em : m = 1 \/ m = 2 \/ m = 3 \/ m = 4 \/ m = 5 \/ m = 6 \/ m = 7
                 \/ m = 8 \/ m = 9 \/ m = 10 \/ m = 11 \/ m = 12) by lia.
    repeat (destruct Em as [-> | Em]; [vm_compute; discriminate |]).
    subst m. vm_compute. discriminate. }
  unfold fits_c_int.
  repeat (apply andb_true_intro; split);
    first [apply Z.leb_le | apply Z.ltb_lt]; lia.
Qed.

Lemma Content_init_resolved cls self tmdb imdb_id movie (w w' : World) c :
  (forall s i w1 w2 s' o,
      _get_tmdb_id cls s i w1 = (Ok (s', o), w2) -> o <> Some EmptyString) ->
  Content_init cls self tmdb imdb_id movie w = (Ok c, w') ->
  tmdb_id c <> PyNone ->
  is_val (genres c) && is_val (actors c) && is_val (directors c)
  && is_val (production_companies c) && is_val (is_movie c)
  && is_val (runtime c) = true.
Proof.
  intros Hne H Hid. unfold Content_init in H.
  inv_bind H. destruct a as [self' o].
  apply Hne in E. cbv zeta in H. inv_bind H.
  destruct a.
  - repeat inv_bind H. injection H as <- _. reflexivity.
  - injection H as <- _. simpl in Hid.
    destruct o as [s|]; [| contradiction].
    simpl in E0. injection E0 as E0 _.
    apply negb_false_iff, String.eqb_eq in E0. congruence.
Qed.

Section BuilderFacts.
Variable requests : Catalog.
Variable py_int : string -> option Z.
Variable py_float : string -> option float.

Lemma Movie_get_tmdb_id_nonempty self imdb_id (w w' : World) self' o :
  Movie_get_tmdb_id requests self imdb_id w = (Ok (self', o), w') ->
  o <> Some EmptyString.
Proof.
  unfold Movie_get_tmdb_id. intros H.
  inv_bind H. inv_bind H. cbv zeta in H.
  destruct (len _ =? 0).
  - injection H as _ <- _. discriminate.
  - inv_bind H. injection H as _ <- _.
    intros N. injection N as N. exact (str_of_int_nonempty _ N).
Qed.

Lemma SeriesEpisode_get_tmdb_id_nonempty self imdb_id (w w' : World) self' o :
  SeriesEpisode_get_tmdb_id requests self imdb_id w = (Ok (self', o), w') ->
  o <> Some EmptyString.
Proof.
  unfold SeriesEpisode_get_tmdb_id. intros H.
  inv_bind H. inv_bind H. cbv zeta in H.
  destruct (len _ =? 0).
  - injection H as _ <- _. discriminate.
  - inv_bind H. inv_bind H. inv_bind H. inv_bind H. injection H as _ <- _.
    intros N. injection N as N. exact (str_of_int_nonempty _ N).
Qed.

Lemma resolve_resolved tmdb content (w w' : World) c :
  resolve requests py_int tmdb content w = (Ok c, w') ->
  tmdb_id c <> PyNone ->
  is_val (genres c) && is_val (actors c) && is_val (directors c)
  && is_val (production_companies c) && is_val (is_movie c)
  && is_val (runtime c) = true.
Proof.
  unfold resolve, Movie, SeriesEpisode.
  destruct (String.eqb (Movie_or_Series content) "Movie"); intros H Hid.
  - apply (Content_init_resolved (Movie_class requests py_int) _ _ _ _ _ _ _
             (fun s i w1 w2 s' o => Movie_get_tmdb_id_nonempty s i w1 w2 s' o)
             H Hid).
  - apply (Content_init_resolved (SeriesEpisode_class requests py_int)
             _ _ _ _ _ _ _
             (fun s i w1 w2 s' o =>
                SeriesEpisode_get_tmdb_id_nonempty s i w1 w2 s' o)
             H Hid).
Qed.

Lemma build_step_resolved tmdb acc content (w w' : World) acc' :
  build_step requests py_int py_float tmdb acc content w = (Ok acc', w') ->
  Forall resolved acc /\ Forall (fun c => valid_date (date c)) acc ->
  Forall resolved acc' /\ Forall (fun c => valid_date (date c)) acc'.
Proof.
  unfold build_step. intros H [R V].
  inv_bind H. inv_bind H. destruct a0.
  - inv_bind H. injection H as <- _. split; assumption.
  - inv_bind H. destruct a0 as [[mo da] ye].
    inv_bind H. inv_bind H. injection H as <- _.
    assert (Hid : tmdb_id a <> PyNone).
    { intros N. rewrite N in E0. discriminate E0. }
    pose proof (resolve_resolved _ _ _ _ _ E Hid) as Rc.
    assert (Vd : valid_date a0).
    { unfold date_of_parts in E2. repeat inv_bind E2.
      apply new_datetime_inv in E2. destruct E2 as (-> & Vb & _).
      apply valid_dateb_valid. exact Vb. }
    split; apply Forall_app; split; try assumption;
      (apply Forall_cons; [assumption | apply Forall_nil]).
Qed.

Lemma build_loop_resolved tmdb raw : forall acc (w w' : World) acc',
  for_each raw (build_step requests py_int py_float tmdb) acc w = (Ok acc', w') ->
  Forall resolved acc /\ Forall (fun c => valid_date (date c)) acc ->
  Forall resolved acc' /\ Forall (fun c => valid_date (date c)) acc'.
Proof.
  induction raw as [|r raw IH]; intros acc w w' acc' H I; simpl in H.
  - injection H as <- _. exact I.
  - inv_bind H. apply (IH _ _ _ _ H).
    apply (build_step_resolved _ _ _ _ _ _ E I).
Qed.

(** The collection that [main] hands to the reports. *)
Lemma build_watched_content_resolved tmdb raw (w w' : World) wc :
  build_watched_content requests py_int py_float tmdb raw w = (Ok wc, w') ->
  Forall resolved wc /\ Forall (fun c => valid_date (date c)) wc.
Proof.
  intros H. apply (build_loop_resolved _ _ _ _ _ _ H).
  split; constructor.
Qed.
End BuilderFacts.

(** * Further properties *)

(** ** Tables keyed by a label of the event *)

Lemma dict_values_setitem_new {K V} `{EqDec K} (k : K) (v : V) (d : dict K V) :
  dict_contains k d = false ->
  dict_setitem k v d = d ++ [(k, v)].
Proof.
  unfold dict_contains.
  induction d as [|[k0 v0] d IH]; simpl; [reflexivity |].
  destruct (eq_dec k k0) as [E|NE]; intros C; [discriminate |].
  f_equal. auto.
Qed.

Lemma sum_values_add {K} `{EqDec K} (k : K) (r : Z) (d : dict K Z) :
  sum (dict_values (add_pure k r d)) = sum (dict_values d) + r.
Proof.
  unfold add_pure. destruct (dict_contains k d) eqn:C.
  - rewrite (sum_values_setitem _ _ _ _ (dict_contains_get 0 _ _ C)). lia.
  - assert (F : dict_find k (dict_setitem k 0 d) = Some 0)
      by apply dict_find_setitem_same.
    rewrite (sum_values_setitem _ _ _ _ F).
    rewrite (dict_get_found 0 _ _ _ F).
    rewrite (dict_values_setitem_new _ _ _ C).
    unfold dict_values. rewrite map_app, sum_app. simpl map.
    rewrite sum_cons, sum_nil. lia.
Qed.

Lemma dict_keys_add_order {K} `{EqDec K} (k : K) (r : Z) (d : dict K Z) :
  dict_keys (add_pure k r d)
  = if in_dec eq_dec k (dict_keys d) then dict_keys d else dict_keys d ++ [k].
Proof.
  unfold add_pure. destruct (dict_contains k d) eqn:C.
  - rewrite dict_keys_setitem_old by exact C.
    destruct (in_dec eq_dec k (dict_keys d)) as [I|NI]; [reflexivity |].
    exfalso. apply NI. apply dict_contains_In. exact C.
  - rewrite dict_keys_setitem_old
      by (rewrite dict_contains_setitem; destruct (eq_dec k k); congruence).
    rewrite dict_keys_setitem_new by exact C.
    destruct (in_dec eq_dec k (dict_keys d)) as [I|NI]; [| reflexivity].
    apply dict_contains_In in I. congruence.
Qed.

Section BucketFacts.
Context {K : Type} `{EqDec K} (label : WatchedContent -> K).

Lemma bucket_pure_get wc : forall d k,
  dict_get 0 (bucket_pure label wc d) k = dict_get 0 d k + bucket_total label wc k.
Proof.
  induction wc as [|c wc IH]; intros d k.
  - unfold bucket_total; simpl. rewrite sum_nil. lia.
  - unfold bucket_pure in *. simpl fold_left. rewrite IH, dict_get_add.
    rewrite bucket_total_cons. lia.
Qed.

Lemma bucket_pure_keys wc : forall d,
  dict_keys (bucket_pure label wc d)
  = fold_left (fun acc x => if in_dec eq_dec x acc then acc else acc ++ [x])
              (map label wc) (dict_keys d).
Proof.
  induction wc as [|c wc IH]; intros d; [reflexivity |].
  unfold bucket_pure in *. simpl fold_left. rewrite IH, dict_keys_add_order.
  reflexivity.
Qed.

Lemma bucket_pure_NoDup wc : forall d,
  NoDup (dict_keys d) -> NoDup (dict_keys (bucket_pure label wc d)).
Proof.
  induction wc as [|c wc IH]; intros d N; [exact N |].
  unfold bucket_pure in *. simpl fold_left. apply IH, add_pure_NoDup, N.
Qed.

Lemma bucket_pure_sum wc : forall d,
  sum (dict_values (bucket_pure label wc d))
  = sum (dict_values d) + total_runtime wc.
Proof.
  induction wc as [|c wc IH]; intros d.
  - unfold total_runtime; simpl. rewrite sum_nil. lia.
  - unfold bucket_pure in *. simpl fold_left.
    rewrite IH, sum_values_add, total_runtime_cons. lia.
Qed.
End BucketFacts.

(** A dictionary with distinct keys is the table of its lookups. *)
Lemma dict_as_table {K} `{EqDec K} (d : dict K Z) :
  NoDup (dict_keys d) -> d = table_of (dict_get 0 d) (dict_keys d).
Proof.
  unfold table_of, dict_keys. intros N. rewrite map_map.
  rewrite <- (map_id d) at 1. apply map_ext_in.
  intros [k v] I. simpl.
  rewrite (dict_get_found 0 _ _ _ (NoDup_keys_find k v d N I)). reflexivity.
Qed.

Lemma bucket_pure_table {K} `{EqDec K} (label : WatchedContent -> K) wc :
  bucket_pure label wc []
  = table_of (bucket_total label wc) (first_seen (map label wc)).
Proof.
  rewrite (dict_as_table (bucket_pure label wc []))
    by (apply bucket_pure_NoDup; constructor).
  rewrite bucket_pure_keys. unfold first_seen, table_of. simpl dict_keys.
  apply map_ext. intros k. rewrite bucket_pure_get.
  reflexivity.
Qed.

Lemma first_seen_In {K} `{EqDec K} (l : list K) (k : K) :
  In k (first_seen l) <-> In k l.
Proof.
  unfold first_seen.
  assert (G : forall acc,
             In k (fold_left (fun acc x => if in_dec eq_dec x acc then acc
                                           else acc ++ [x]) l acc)
             <-> In k acc \/ In k l).
  { induction l as [|x l IH]; intros acc; simpl; [tauto |].
    rewrite IH. destruct (in_dec eq_dec x acc) as [I|NI].
    - split; [tauto |]. intros [I'|[<-|I']]; auto.
    - rewrite in_app_iff. simpl. tauto. }
  rewrite G. simpl. tauto.
Qed.

Lemma get_platform_usage_lines wc (w : World) :
  Forall resolved wc ->
  get_platform_usage wc w
  = (Ok tt,
     mkWorld (calls w)
       (stdout w ++ Line "Platform usage" []
        :: map int_line
             (table_of (bucket_total platform wc) (first_seen (map platform wc))))).
Proof.
  intros R.
  assert (E : for_each wc
                (fun counter c => add_to (platform c) (runtime (content c)) counter)
                [] w
              = (Ok (bucket_pure platform wc []), w)).
  { unfold bucket_pure. apply for_each_pure. intros d c w' Hc.
    rewrite Forall_forall in R. rewrite (resolved_runtime (R c Hc)).
    apply add_to_pure. }
  unfold get_platform_usage. rewrite (bind_ok _ E).
  rewrite (bind_ok _ (print_ok _ _ _)).
  rewrite (iter_prints int_line) by (intros x w' _; reflexivity).
  simpl calls; simpl stdout.
  rewrite (bucket_pure_table platform wc), <- app_assoc. reflexivity.
Qed.

(** X1. The platform report prints its header and then one line per
    platform, in the order in which the platforms are first seen, each
    with the summed runtime of the events watched on it; the lines add
    up to the total runtime. *)
Theorem platform_usage_by_first_seen (wc : list WatchedContent) (w : World) :
  Forall resolved wc ->
  get_platform_usage wc w
  = (Ok tt,
     mkWorld (calls w)
       (stdout w ++ Line "Platform usage" []
        :: map int_line
             (table_of (bucket_total platform wc) (first_seen (map platform wc)))))
  /\ NoDup (first_seen (map platform wc))
  /\ (forall p, In p (first_seen (map platform wc))
                <-> exists c, In c wc /\ platform c = p)
  /\ sum (map (bucket_total platform wc) (first_seen (map platform wc)))
     = total_runtime wc.
Proof.
  intros R.
  pose proof (bucket_pure_table platform wc) as T.
  split; [| split; [| split]].
  - apply get_platform_usage_lines. exact R.
  - pose proof (bucket_pure_NoDup platform wc [] (NoDup_nil _)) as N.
    rewrite bucket_pure_keys in N. exact N.
  - intros p. rewrite first_seen_In, in_map_iff.
    split; intros (c & A & B); exists c; tauto.
  - pose proof (bucket_pure_sum platform wc []) as S.
    rewrite T in S. unfold table_of, dict_values in S. rewrite map_map in S.
    simpl in S. exact S.
Qed.

(** ** The largest entries *)

Lemma StronglySorted_app_inv {A} (R : A -> A -> Prop) (l1 l2 : list A) :
  StronglySorted R (l1 ++ l2) ->
  forall x y, In x l1 -> In y l2 -> R x y.
Proof.
  induction l1 as [|a l1 IH]; simpl; intros S x y Hx Hy; [contradiction |].
  inversion S as [|? ? S' F]; subst.
  destruct Hx as [<- | Hx].
  - rewrite Forall_forall in F. apply F. apply in_or_app. right. exact Hy.
  - apply (IH S' x y Hx Hy).
Qed.

Lemma nlargest_top {A} (key : A -> Z) (n : nat) (l : list A) (x : A) :
  In x l ->
  In x (nlargest Z.ltb key n l)
  \/ (length (nlargest Z.ltb key n l) = n
      /\ forall y, In y (nlargest Z.ltb key n l) -> key x <= key y).
Proof.
  intros I. unfold nlargest.
  set (s := sorted_reverse Z.ltb key l).
  assert (Is : In x s).
  { apply (Permutation_in x (Permutation_sym (sorted_reverse_perm Z.ltb key l))).
    exact I. }
  rewrite <- (firstn_skipn n s) in Is. apply in_app_or in Is.
  destruct Is as [Is | Is]; [left; exact Is | right].
  split.
  - apply firstn_length_le.
    destruct (Nat.le_gt_cases n (length s)) as [L|G]; [exact L |].
    rewrite skipn_all2 in Is by lia. contradiction.
  - intros y Hy.
    pose proof (sorted_reverse_sorted key l) as S. fold s in S.
    rewrite <- (firstn_skipn n s) in S.
    apply (StronglySorted_app_inv _ _ _ S y x Hy Is).
Qed.

Lemma most_watched_top field header wc (w : World) :
  reportable field ->
  Forall resolved wc ->
  sum_ranking_top field header (most_watched field header) wc w.
Proof.
  intros Hf R.
  set (scores := scores_pure field wc []).
  set (top := nlargest Z.ltb (dict_get 0 scores) TOP_N (dict_keys scores)).
  exists (map (fun x => (x, dict_get 0 scores x)) top).
  assert (G : forall k, dict_get 0 scores k = score_of field wc k).
  { intros k. unfold scores, scores_pure. rewrite tally_get. reflexivity. }
  split.
  - unfold most_watched.
    rewrite (bind_ok _ (watched_scores_pure field wc w Hf R)).
    fold scores. unfold bind at 1. unfold print at 1.
    rewrite print_top_int_lines. simpl calls. simpl stdout.
    rewrite <- app_assoc. reflexivity.
  - intros k Hk.
    assert (Ik : In k (dict_keys scores)).
    { unfold scores, scores_pure. apply tally_keys. right. exact Hk. }
    destruct (nlargest_top (dict_get 0 scores) TOP_N _ k Ik) as [I | [L B]].
    + left. rewrite <- G. apply in_map_iff. exists k. split; [reflexivity | exact I].
    + right. split; [rewrite length_map; exact L |].
      intros k' v' I'. apply in_map_iff in I'. destruct I' as (x & Ex & Ix).
      injection Ex as <- <-. rewrite <- G. apply B. exact Ix.
Qed.

(** X2. In each of the four "most watched" reports, a key seen in the
    field is printed with its summed runtime unless twenty entries are
    printed already, none of them with a smaller total: the report
    shows the largest totals and, with at most twenty keys, all of
    them. *)
Theorem sum_ranking_reports_show_the_largest
    (wc : list WatchedContent) (w : World) :
  Forall resolved wc ->
  sum_ranking_top genres "Most watched genres" get_most_watched_genres wc w
  /\ sum_ranking_top actors "Most watched actors" get_most_watched_actors wc w
  /\ sum_ranking_top directors "Most watched directors"
       get_most_watched_directors wc w
  /\ sum_ranking_top production_companies "Most watched production_companies"
       get_most_watched_production_companies wc w.
Proof.
  intros R.
  repeat split; apply most_watched_top; unfold reportable; auto.
Qed.

(** ** The values of the average-ranking reports *)

Lemma nlargest_in_or_full {A K} (ltb : K -> K -> bool) (key : A -> K)
    (n : nat) (l : list A) (x : A) :
  In x l -> In x (nlargest ltb key n l) \/ length (nlargest ltb key n l) = n.
Proof.
  intros I. unfold nlargest.
  set (s := sorted_reverse ltb key l).
  assert (Is : In x s).
  { apply (Permutation_in x (Permutation_sym (sorted_reverse_perm ltb key l))).
    exact I. }
  rewrite <- (firstn_skipn n s) in Is. apply in_app_or in Is.
  destruct Is as [Is | Is]; [left; exact Is | right].
  apply firstn_length_le.
  destruct (Nat.le_gt_cases n (length s)) as [L|G]; [exact L |].
  rewrite skipn_all2 in Is by lia. contradiction.
Qed.

Lemma liked_pure_ratings x acc k k' :
  dict_get (float_of_int 0) (fst (liked_pure x acc k)) k'
  = if eq_dec k' k
    then float_add (dict_get (float_of_int 0) (fst acc) k) x
    else dict_get (float_of_int 0) (fst acc) k'.
Proof.
  destruct acc as [ra am]. unfold liked_pure. cbn [fst].
  unfold dict_contains, dict_get. unfold float in *.
  destruct (dict_find k ra) as [v|] eqn:F; cbn [fst].
  - rewrite dict_find_setitem. repeat rewrite F.
    destruct (eq_dec k' k); reflexivity.
  - rewrite !dict_find_setitem. repeat rewrite F.
    destruct (eq_dec k k) as [_|N]; [| congruence].
    destruct (eq_dec k' k); reflexivity.
Qed.

Lemma liked_pure_ratings_NoDup x acc k :
  NoDup (dict_keys (fst acc)) -> NoDup (dict_keys (fst (liked_pure x acc k))).
Proof.
  destruct acc as [ra am]. unfold liked_pure. cbn [fst]. intros N.
  destruct (dict_contains k ra); cbn [fst];
    repeat apply dict_setitem_NoDup; exact N.
Qed.

Lemma liked_inner_ratings x k ks : forall acc,
  dict_get (float_of_int 0) (fst (fold_left (liked_pure x) ks acc)) k
  = rating_sum_step k x ks (dict_get (float_of_int 0) (fst acc) k).
Proof.
  induction ks as [|k' ks IH]; intros acc; simpl; [reflexivity |].
  rewrite IH, liked_pure_ratings. unfold rating_sum_step. simpl.
  destruct (eq_dec k k') as [->|NE]; reflexivity.
Qed.

Lemma liked_inner_NoDup x ks : forall acc,
  NoDup (dict_keys (fst acc)) ->
  NoDup (dict_keys (fst (fold_left (liked_pure x) ks acc))).
Proof.
  induction ks as [|k' ks IH]; intros acc N; simpl; [exact N |].
  apply IH, liked_pure_ratings_NoDup, N.
Qed.

Lemma tables_pure_ratings field wc k : forall acc,
  dict_get (float_of_int 0) (fst (tables_pure field wc acc)) k
  = fold_left
      (fun s c => rating_sum_step k (rating c) (list_of (field (content c))) s)
      wc (dict_get (float_of_int 0) (fst acc) k).
Proof.
  induction wc as [|c wc IH]; intros acc; [reflexivity |].
  unfold tables_pure in *. simpl fold_left. rewrite IH, liked_inner_ratings.
  reflexivity.
Qed.

Lemma tables_pure_NoDup field wc : forall acc,
  NoDup (dict_keys (fst acc)) ->
  NoDup (dict_keys (fst (tables_pure field wc acc))).
Proof.
  induction wc as [|c wc IH]; intros acc N; [exact N |].
  unfold tables_pure in *. simpl fold_left. apply IH, liked_inner_NoDup, N.
Qed.

Lemma suppress_find threshold am l :
  NoDup (dict_keys l) ->
  forall scores k,
    dict_find k (fold_left (suppress threshold am) l scores)
    = match dict_find k l with
      | Some x =>
          if dict_get 0 am k <? threshold then dict_find k scores
          else Some (float_div x (float_of_int (dict_get 0 am k)))
      | None => dict_find k scores
      end.
Proof.
  induction l as [|[k0 x0] l IH]; intros N scores k; [reflexivity |].
  inversion N as [|? ? N0 N']; subst.
  simpl fold_left. rewrite (IH N'). simpl dict_find.
  destruct (eq_dec k k0) as [->|NE].
  - destruct (dict_find k0 l) as [x|] eqn:F.
    + exfalso. apply N0. apply dict_contains_In.
      unfold dict_contains. rewrite F. reflexivity.
    + unfold suppress. cbn [fst snd].
      destruct (dict_get 0 am k0 <? threshold); [reflexivity |].
      apply dict_find_setitem_same.
  - assert (E : dict_find k (suppress threshold am scores (k0, x0))
                = dict_find k scores).
    { unfold suppress. cbn [fst snd].
      destruct (dict_get 0 am k0 <? threshold); [reflexivity |].
      rewrite dict_find_setitem. destruct (eq_dec k k0); congruence. }
    rewrite E. reflexivity.
Qed.

Lemma suppress_NoDup threshold am l : forall scores,
  NoDup (dict_keys scores) ->
  NoDup (dict_keys (fold_left (suppress threshold am) l scores)).
Proof.
  induction l as [|[k0 x0] l IH]; intros scores N; [exact N |].
  simpl fold_left. apply IH. unfold suppress. cbn [fst snd].
  destruct (dict_get 0 am k0 <? threshold); [exact N |].
  apply dict_setitem_NoDup, N.
Qed.

Lemma most_liked_values field threshold header wc (w : World) :
  reportable field -> 0 < threshold ->
  Forall resolved wc ->
  average_ranking_values field threshold header
    (most_liked field threshold header) wc w.
Proof.
  intros Hf T R.
  destruct (tables_pure field wc ([], [])) as [ra am] eqn:Et.
  destruct (tables_pure_spec field wc ([], [])) as [S E];
    [intros k; reflexivity |].
  pose proof (tables_pure_ratings field wc) as Gr.
  pose proof (tables_pure_NoDup field wc ([], []) (NoDup_nil _)) as Nr.
  rewrite Et in S, E, Nr. simpl snd in E. simpl fst in Nr.
  assert (Gr' : forall k, dict_get (float_of_int 0) ra k = rating_sum field wc k).
  { intros k. specialize (Gr k ([], [])). rewrite Et in Gr. exact Gr. }
  assert (Ga : forall k, dict_get 0 am k = occurrences field wc k).
  { intros k. rewrite E, tally_get. reflexivity. }
  assert (Ka : forall k, In k (dict_keys ra)
                         <-> exists c, In c wc /\ In k (list_of (field (content c)))).
  { intros k. rewrite <- dict_contains_In.
    pose proof (S k) as Sk. simpl in Sk. rewrite Sk.
    rewrite dict_contains_In, E, tally_keys. simpl. tauto. }
  set (scores := fold_left (suppress threshold am) ra []).
  assert (Fs : forall k,
             dict_find k scores
             = if in_dec eq_dec k (dict_keys ra)
               then if occurrences field wc k <? threshold then None
                    else Some (mean_rating field wc k)
               else None).
  { intros k. unfold scores. rewrite (suppress_find threshold am ra Nr).
    destruct (in_dec eq_dec k (dict_keys ra)) as [I|NI].
    - apply dict_contains_In in I.
      rewrite (dict_contains_get (float_of_int 0) _ _ I), Gr', Ga.
      reflexivity.
    - destruct (dict_find k ra) eqn:F; [| reflexivity].
      exfalso. apply NI. apply dict_contains_In. unfold dict_contains.
      rewrite F. reflexivity. }
  set (top := nlargest float_lt (dict_get S754_nan scores) TOP_N (dict_keys scores)).
  exists (map (fun x => (x, dict_get S754_nan scores x)) top).
  split; [| split; [| split]].
  - unfold most_liked.
    rewrite (bind_ok _ (liked_tables_pure field wc w Hf R)). rewrite Et.
    rewrite (bind_ok _ (liked_scores_pure threshold ra am w T
                          (fun k I => eq_trans (eq_sym (S k))
                                        (proj2 (dict_contains_In k ra) I)))).
    fold scores. unfold bind at 1. unfold print at 1.
    rewrite print_top_float_lines. simpl calls. simpl stdout.
    rewrite <- app_assoc. reflexivity.
  - intros k v I. apply in_map_iff in I. destruct I as (x & Ex & I).
    injection Ex as -> <-.
    apply nlargest_In, dict_find_In_keys in I. destruct I as [v F].
    rewrite (dict_get_found S754_nan _ _ _ F).
    rewrite Fs in F.
    destruct (in_dec eq_dec k (dict_keys ra)); [| discriminate].
    destruct (occurrences field wc k <? threshold); [discriminate |].
    congruence.
  - rewrite map_map. simpl. rewrite map_id.
    apply firstn_NoDup.
    apply (Permutation_NoDup
             (Permutation_sym (sorted_reverse_perm float_lt _ (dict_keys scores)))).
    apply suppress_NoDup. constructor.
  - intros k Hk Ht.
    assert (F : dict_find k scores = Some (mean_rating field wc k)).
    { rewrite Fs. destruct (in_dec eq_dec k (dict_keys ra)) as [I|NI].
      - destruct (Z.ltb_spec (occurrences field wc k) threshold); [lia |].
        reflexivity.
      - exfalso. apply NI. apply Ka. exact Hk. }
    assert (Ik : In k (dict_keys scores)).
    { apply dict_contains_In. unfold dict_contains. rewrite F. reflexivity. }
    destruct (nlargest_in_or_full float_lt (dict_get S754_nan scores) TOP_N
                _ k Ik) as [I | L].
    + left. apply in_map_iff. exists k.
      rewrite (dict_get_found S754_nan _ _ _ F). auto.
    + right. rewrite length_map. exact L.
Qed.

(** X3. In each of the four "best rated" reports every entry is the
    mean rating of its key, the ratings added up in the order of the
    events and divided by the number of occurrences, no key is printed
    twice, and a key seen at least as often as the threshold is printed
    unless twenty entries are printed already. *)
Theorem average_ranking_reports_show_the_means
    (wc : list WatchedContent) (w : World) :
  Forall resolved wc ->
  average_ranking_values genres 5 "Best rated genres"
    get_most_liked_genres wc w
  /\ average_ranking_values actors 5 "Best rated actor"
       get_most_liked_actors wc w
  /\ average_ranking_values production_companies 5
       "Best rated production companies"
       get_most_liked_production_companies wc w
  /\ average_ranking_values directors 2 "Best rated director"
       get_most_liked_directors wc w.
Proof.
  intros R.
  repeat split; apply most_liked_values; unfold reportable; auto; lia.
Qed.

(** ** The most active day *)

Lemma max_scan_first l : forall x,
  exists l1 l2,
    x :: l = l1 ++ max_scan x l :: l2
    /\ (forall y, In y l1 -> snd y < snd (max_scan x l))
    /\ (forall y, In y l2 -> snd y <= snd (max_scan x l)).
Proof.
  induction l as [|z l IH]; intros x.
  - exists [], []. split; [reflexivity |]. split; intros y [].
  - unfold max_scan. simpl fold_left.
    destruct (Z.ltb_spec (snd x) (snd z)) as [L|G].
    + fold (max_scan z l).
      destruct (IH z) as (l1 & l2 & E & B1 & B2).
      destruct (max_scan_spec l z) as [_ M].
      exists (x :: l1), l2. split; [simpl; rewrite <- E; reflexivity |].
      split; [| exact B2].
      intros y [<- | Hy]; [| apply B1; exact Hy].
      specialize (M z (or_introl eq_refl)). lia.
    + fold (max_scan x l).
      destruct (IH x) as (l1 & l2 & E & B1 & B2).
      destruct l1 as [|x' l1].
      * simpl in E. injection E as Ex El.
        exists [], (z :: l). split; [simpl; rewrite <- Ex; reflexivity |].
        split; [intros y [] |].
        intros y [<- | Hy]; [rewrite <- Ex; exact G |].
        apply B2. rewrite <- El. exact Hy.
      * simpl in E. injection E as Ex El. subst x'.
        exists (x :: z :: l1), l2.
        split; [simpl; do 2 f_equal; exact El |].
        split; [| exact B2].
        intros y [<- | [<- | Hy]].
        -- apply B1. left; reflexivity.
        -- specialize (B1 x (or_introl eq_refl)). lia.
        -- apply B1. right; exact Hy.
Qed.

Lemma map_eq_app_inv {A B} (f : A -> B) (l : list A) (m1 m2 : list B) :
  map f l = m1 ++ m2 ->
  exists l1 l2, l = l1 ++ l2 /\ map f l1 = m1 /\ map f l2 = m2.
Proof.
  revert l. induction m1 as [|b m1 IH]; intros l E.
  - exists [], l. auto.
  - destruct l as [|a l]; [discriminate |].
    simpl in E. injection E as Eb E.
    destruct (IH l E) as (l1 & l2 & -> & <- & <-).
    exists (a :: l1), l2. simpl. rewrite Eb. auto.
Qed.

(** X4. On a collection that is not empty the calendar report names a
    day on which something was watched and whose summed runtime no
    other day exceeds; among days with that same runtime it is the one
    first seen in the collection.  The per-day totals add up to the
    total runtime. *)
Theorem most_active_date_is_first_maximum
    (c : WatchedContent) (wc : list WatchedContent) (w : World) :
  Forall resolved (c :: wc) ->
  Forall (fun c => valid_date (date c)) (c :: wc) ->
  exists (a : activity) (d : datetime) (before after : list datetime),
    activity_tables (c :: wc) w = (Ok a, w)
    /\ get_activity_by_month_and_day (c :: wc) w
       = (Ok tt,
          mkWorld (calls w)
            (stdout w ++ activity_lines a ++
             [Line "Day with the most activity: {}/{}"
                   [AInt (month d); AInt (day d)]]))
    /\ first_seen (map date (c :: wc)) = before ++ d :: after
    /\ (forall d', In d' before ->
                   day_total (c :: wc) d' < day_total (c :: wc) d)
    /\ (forall d', In d' after ->
                   day_total (c :: wc) d' <= day_total (c :: wc) d)
    /\ sum (map (day_total (c :: wc)) (first_seen (map date (c :: wc))))
       = total_runtime (c :: wc).
Proof.
  intros R V. set (ev := c :: wc) in *.
  destruct (activity_days ev w R V) as (a & E & D).
  change (days_pure ev []) with (bucket_pure date ev []) in D.
  pose proof (bucket_pure_table date ev) as T.
  change (bucket_total date ev) with (day_total ev) in T.
  rewrite T in D.
  pose proof (get_activity_by_month_and_day_lines ev a w E) as L.
  destruct (days a) as [|x l] eqn:Ed.
  - exfalso. symmetry in D. unfold table_of in D.
    apply map_eq_nil in D.
    assert (I : In (date c) (first_seen (map date ev)))
      by (apply first_seen_In; left; reflexivity).
    rewrite D in I. contradiction.
  - destruct (max_scan_first l x) as (l1 & l2 & Es & B1 & B2).
    set (b := max_scan x l) in *.
    rewrite Es in D. unfold table_of in D. symmetry in D.
    apply map_eq_app_inv in D. destruct D as (k1 & k2' & Ek & M1 & M2).
    destruct k2' as [|d k2]; [discriminate |].
    simpl in M2. injection M2 as Mb M2.
    exists a, d, k1, k2.
    split; [exact E |].
    assert (Eb : b = (d, day_total ev d)) by (symmetry; exact Mb).
    split; [rewrite L, Eb; reflexivity |].
    split; [exact Ek |].
    rewrite Eb in B1, B2. simpl snd in B1, B2.
    split; [| split].
    + intros d' I. apply (B1 (d', day_total ev d')).
      rewrite <- M1. apply in_map_iff. exists d'. auto.
    + intros d' I. apply (B2 (d', day_total ev d')).
      rewrite <- M2. apply in_map_iff. exists d'. auto.
    + pose proof (bucket_pure_sum date ev []) as S.
      rewrite T in S. unfold table_of, dict_values in S.
      rewrite map_map in S. simpl in S. exact S.
Qed.

(** ** What a computation leaves alone *)

Lemma keeps_pure {A X} (f : World -> X) (m : M A) :
  (forall w, exists r, m w = (r, w)) -> keeps f m.
Proof.
  intros P w r w' E. destruct (P w) as [r0 E0]. rewrite E0 in E.
  injection E as _ <-. reflexivity.
Qed.

Lemma keeps_bind {A B X} (f : World -> X) (m : M A) (k : A -> M B) :
  keeps f m -> (forall a, keeps f (k a)) -> keeps f (bind m k).
Proof.
  intros Km Kk w r w' E. unfold bind in E.
  destruct (m w) as [[a|e] w1] eqn:Em.
  - rewrite (Kk a _ _ _ E). apply (Km _ _ _ Em).
  - injection E as _ <-. apply (Km _ _ _ Em).
Qed.

Lemma keeps_for_each {A S X} (f : World -> X) (body : S -> A -> M S)
    (l : list A) :
  (forall acc x, keeps f (body acc x)) ->
  forall acc, keeps f (for_each l body acc).
Proof.
  intros Kb. induction l as [|x l IH]; intros acc; simpl.
  - apply keeps_pure. intros w. eexists. reflexivity.
  - apply keeps_bind; [apply Kb | exact IH].
Qed.

Lemma keeps_iter {A X} (f : World -> X) (body : A -> M unit) (l : list A) :
  (forall x, keeps f (body x)) -> keeps f (iter l body).
Proof.
  intros Kb. induction l as [|x l IH]; simpl.
  - apply keeps_pure. intros w. eexists. reflexivity.
  - apply keeps_bind; [apply Kb | intros _; exact IH].
Qed.

Lemma print_keeps_calls fmt args : keeps calls (print fmt args).
Proof. intros w r w' E. injection E as _ <-. reflexivity. Qed.

Lemma log_call_keeps_stdout u : keeps stdout (log_call u).
Proof. intros w r w' E. injection E as _ <-. reflexivity. Qed.

Lemma list_getitem_keeps {A X} (f : World -> X) (l : list A) (i : Z) :
  keeps f (list_getitem l i).
Proof.
  apply keeps_pure. intros w. unfold list_getitem. cbv zeta.
  destruct (_ || _); [eexists; reflexivity |].
  destruct (nth_error _ _); eexists; reflexivity.
Qed.

(** Computations that do not touch the world at all. *)
Ltac pure_step :=
  apply keeps_pure; intros ?w;
  cbv beta delta [ret raise attr_value attr_truth attr_is_none tmdb_id_truth
                  getitem_key dict_getitem unpack3 int_of_str
                  new_datetime py_max float_truediv int_truediv int_of_float
                  float_of_str process_API_response];
  repeat match goal with
         | |- context [match ?x with _ => _ end] => destruct x
         end;
  eexists; reflexivity.

Ltac keeps_step :=
  first
    [ apply keeps_bind; [| intros ?]
    | apply keeps_for_each; intros ? ?
    | apply keeps_iter; intros ?
    | apply print_keeps_calls
    | apply log_call_keeps_stdout
    | apply list_getitem_keeps
    | pure_step
    | match goal with
      | |- keeps _ (match ?x with _ => _ end) => destruct x
      | |- keeps _ (let (_, _) := ?x in _) => destruct x
      end ].

Lemma most_watched_keeps_calls field header wc :
  keeps calls (most_watched field header wc).
Proof.
  unfold most_watched, watched_scores, print_top_int, watched_step.
  repeat keeps_step.
Qed.

Lemma most_liked_keeps_calls field threshold header wc :
  keeps calls (most_liked field threshold header wc).
Proof.
  unfold most_liked, liked_tables, liked_scores, print_top_float, liked_step.
  repeat keeps_step.
Qed.

(** X5. No report sends a request to the catalog: whatever the
    collection holds, and whether the report returns or raises, the
    list of requests is as it was. *)
Theorem reports_send_no_request (wc : list WatchedContent) :
  keeps calls (get_most_watched_genres wc)
  /\ keeps calls (get_most_liked_genres wc)
  /\ keeps calls (get_amount_of_movies_and_series_watched wc)
  /\ keeps calls (get_platform_usage wc)
  /\ keeps calls (get_most_watched_actors wc)
  /\ keeps calls (get_most_liked_actors wc)
  /\ keeps calls (get_most_watched_production_companies wc)
  /\ keeps calls (get_most_liked_production_companies wc)
  /\ keeps calls (get_most_watched_directors wc)
  /\ keeps calls (get_most_liked_directors wc)
  /\ keeps calls (get_activity_by_month_and_day wc).
Proof.
  repeat split;
    try apply most_watched_keeps_calls; try apply most_liked_keeps_calls.
  - unfold get_amount_of_movies_and_series_watched, count_movies_and_series.
    repeat keeps_step.
  - unfold get_platform_usage, add_to. repeat keeps_step.
  - unfold get_activity_by_month_and_day, activity_tables, activity_step,
      print_int_items, bump, add_to.
    repeat keeps_step.
Qed.

(** ** Construction, step by step *)

Lemma getitem_key_inv {A} (o : option A) (a : A) (w w' : World) :
  getitem_key o w = (Ok a, w') -> o = Some a /\ w' = w.
Proof.
  destruct o as [x|]; simpl; intros E; [| discriminate].
  injection E as -> ->. auto.
Qed.

Lemma attr_value_inv {A} (a : attr A) (v : A) (w w' : World) :
  attr_value a w = (Ok v, w') -> a = Val v /\ w' = w.
Proof.
  destruct a as [| |x]; simpl; intros E; try discriminate.
  injection E as -> ->. auto.
Qed.

Lemma process_API_response_inv {A} (r : response A) (w w' : World) u :
  process_API_response r STATUS_CODE_OK w = (Ok u, w') ->
  status_code r = STATUS_CODE_OK /\ w' = w.
Proof.
  unfold process_API_response.
  destruct (Z.eqb_spec (status_code r) STATUS_CODE_OK) as [E|NE]; simpl;
    intros H; [| discriminate].
  injection H as _ ->. auto.
Qed.

Section RequestFacts.
Variable requests : Catalog.

Lemma get_info_from_imdb_id_inv tmdb imdb_id (w w' : World) r :
  get_info_from_imdb_id requests tmdb imdb_id w = (Ok r, w') ->
  r = find_response requests tmdb imdb_id
  /\ status_code r = STATUS_CODE_OK
  /\ w' = mkWorld (calls w ++ [find_url imdb_id]) (stdout w).
Proof.
  unfold get_info_from_imdb_id. cbv zeta. intros H.
  inv_bind H. injection E as _ <-. inv_bind H.
  apply process_API_response_inv in E. destruct E as [S ->].
  injection H as <- <-. auto.
Qed.

Lemma get_movie_info_inv tmdb i (w w' : World) r :
  get_movie_info requests tmdb i w = (Ok r, w') ->
  r = details_response requests tmdb (movie_url i)
  /\ status_code r = STATUS_CODE_OK
  /\ w' = mkWorld (calls w ++ [movie_url i]) (stdout w).
Proof.
  unfold get_movie_info. cbv zeta. intros H.
  inv_bind H. injection E as _ <-. inv_bind H.
  apply process_API_response_inv in E. destruct E as [S ->].
  injection H as <- <-. auto.
Qed.

Lemma get_show_info_inv tmdb i (w w' : World) r :
  get_show_info requests tmdb i w = (Ok r, w') ->
  r = details_response requests tmdb (show_url i)
  /\ status_code r = STATUS_CODE_OK
  /\ w' = mkWorld (calls w ++ [show_url i]) (stdout w).
Proof.
  unfold get_show_info. cbv zeta. intros H.
  inv_bind H. injection E as _ <-. inv_bind H.
  apply process_API_response_inv in E. destruct E as [S ->].
  injection H as <- <-. auto.
Qed.

Lemma get_episode_info_inv tmdb sh se ep (w w' : World) r :
  get_episode_info requests tmdb sh se ep w = (Ok r, w') ->
  r = details_response requests tmdb (episode_url sh se ep)
  /\ status_code r = STATUS_CODE_OK
  /\ w' = mkWorld (calls w ++ [episode_url sh se ep]) (stdout w).
Proof.
  unfold get_episode_info. cbv zeta. intros H.
  inv_bind H. injection E as _ <-. inv_bind H.
  apply process_API_response_inv in E. destruct E as [S ->].
  injection H as <- <-. auto.
Qed.
End RequestFacts.

Lemma unpack3_inv {A} (l : list A) (a b c : A) (w w' : World) :
  unpack3 l w = (Ok (a, b, c), w') -> l = [a; b; c] /\ w' = w.
Proof.
  destruct l as [|x [|y [|z [|? ?]]]]; simpl; intros E; try discriminate.
  injection E as -> -> -> ->. auto.
Qed.

Lemma list_getitem_first {A} (x : A) (l : list A) (w : World) :
  list_getitem (x :: l) 0 w = (Ok x, w).
Proof.
  unfold list_getitem. cbv zeta. change (0 <? 0) with false. cbv iota.
  cbn [length]. rewrite Nat2Z.inj_succ.
  destruct (Z.leb_spec (Z.succ (Z.of_nat (length l))) 0) as [L|G]; [lia |].
  reflexivity.
Qed.

Lemma len_cons_nonzero {A} (x : A) (l : list A) : (len (x :: l) =? 0) = false.
Proof. unfold len. cbn [length]. apply Z.eqb_neq. lia. Qed.

Section StepFacts.
Variable py_int : string -> option Z.

Lemma int_of_str_inv s n (w w' : World) :
  int_of_str py_int s w = (Ok n, w') -> py_int s = Some n /\ w' = w.
Proof.
  unfold int_of_str. destruct (py_int s); simpl; intros E; [| discriminate].
  injection E as -> ->. auto.
Qed.

Lemma date_text_inv (key : option string) dt (w w' : World) :
  bind (getitem_key key)
       (fun s => bind (unpack3 (str_split "-" s))
                      (fun p => let '(year, month, day) := p in
                                date_of_parts py_int year month day)) w
  = (Ok dt, w') ->
  date_from py_int key (Val dt) /\ w' = w.
Proof.
  intros H. inv_bind H. apply getitem_key_inv in E. destruct E as [-> ->].
  inv_bind H. destruct a0 as [[y m] d].
  apply unpack3_inv in E. destruct E as [Es ->].
  unfold date_of_parts in H.
  inv_bind H. apply int_of_str_inv in E. destruct E as [Ey ->].
  inv_bind H. apply int_of_str_inv in E. destruct E as [Em ->].
  inv_bind H. apply int_of_str_inv in E. destruct E as [Ed ->].
  apply new_datetime_inv in H. destruct H as (-> & V & ->).
  split; [| reflexivity].
  exists a, y, m, d, (mkDate a0 a1 a2).
  repeat split; try assumption; try reflexivity;
    apply (valid_dateb_valid _ V).
Qed.
End StepFacts.

Lemma names_inv {A} (key : option (list A)) (f : list A -> list string)
    (l : list string) (w w' : World) :
  bind (getitem_key key) (fun x => ret (f x)) w = (Ok l, w') ->
  read_from key f (Val l) /\ w' = w.
Proof.
  intros H. inv_bind H. apply getitem_key_inv in E. destruct E as [-> ->].
  injection H as <- <-. split; [exists a; auto | reflexivity].
Qed.

Lemma credits_inv (key : option TMDB.credits_t)
    (f : TMDB.credits_t -> list string) (l : list string) (w w' : World) :
  bind (getitem_key key) (fun x => ret (f x)) w = (Ok l, w') ->
  read_from key f (Val l) /\ w' = w.
Proof.
  intros H. inv_bind H. apply getitem_key_inv in E. destruct E as [-> ->].
  injection H as <- <-. split; [exists a; auto | reflexivity].
Qed.

Section MovieFacts.
Variable requests : Catalog.
Variable py_int : string -> option Z.

Lemma Movie_get_tmdb_id_inv self tmdb imdb_id (w w' : World) self' o :
  _requester self = Val tmdb ->
  Movie_get_tmdb_id requests self imdb_id w = (Ok (self', o), w') ->
  self' = self
  /\ status_code (find_response requests tmdb imdb_id) = STATUS_CODE_OK
  /\ w' = mkWorld (calls w ++ [find_url imdb_id]) (stdout w)
  /\ o = match TMDB.movie_results (json (find_response requests tmdb imdb_id)) with
         | [] => None
         | e :: _ => Some (str_of_int (TMDB.id e))
         end.
Proof.
  intros Hr H. unfold Movie_get_tmdb_id in H. rewrite Hr in H.
  inv_bind H. injection E as <- <-.
  inv_bind H. apply get_info_from_imdb_id_inv in E. destruct E as (-> & S & ->).
  cbv zeta in H.
  destruct (TMDB.movie_results (json (find_response requests tmdb imdb_id)))
    as [|e l].
  - injection H as <- <- <-. auto.
  - rewrite len_cons_nonzero in H.
    rewrite (bind_ok _ (list_getitem_first e l _)) in H.
    injection H as <- <- <-. auto.
Qed.

Lemma Movie_get_content_info_inv self tmdb i (w w' : World) r :
  _requester self = Val tmdb -> tmdb_id self = Val i ->
  Movie_get_content_info requests self w = (Ok r, w') ->
  r = details_response requests tmdb (movie_url i)
  /\ status_code r = STATUS_CODE_OK
  /\ w' = mkWorld (calls w ++ [movie_url i]) (stdout w).
Proof.
  intros Hr Hi H. unfold Movie_get_content_info in H. rewrite Hr, Hi in H.
  change (get_movie_info requests tmdb i w = (Ok r, w')) in H.
  apply get_movie_info_inv. exact H.
Qed.

Lemma Movie_get_runtime_inv self info rt (w w' : World) :
  Movie_get_runtime self info w = (Ok rt, w') ->
  TMDB.runtime info = Some (Some rt) /\ w' = w.
Proof.
  unfold Movie_get_runtime. intros H.
  inv_bind H. apply getitem_key_inv in E. destruct E as [-> ->].
  destruct a as [n|]; [| discriminate].
  injection H as <- <-. auto.
Qed.

Lemma Movie_built tmdb imdb_id (w w' : World) c :
  Movie requests py_int tmdb imdb_id w = (Ok c, w') ->
  movie_built requests py_int tmdb imdb_id w c w'.
Proof.
  unfold Movie, Content_init. intros H.
  cbn [_get_tmdb_id _get_content_info _get_title _get_directors
       _get_release_date _get_runtime Movie_class] in H.
  inv_bind H. destruct a as [self o].
  apply (Movie_get_tmdb_id_inv _ tmdb) in E; [| reflexivity].
  destruct E as (-> & S & -> & ->).
  unfold movie_built. cbn [stdout].
  destruct (TMDB.movie_results (json (find_response requests tmdb imdb_id)))
    as [|e l].
  - simpl in H. injection H as <- <-. auto.
  - cbv zeta in H. inv_bind H.
    cbn [attr_of_option set_tmdb_id tmdb_id tmdb_id_truth] in E.
    injection E as <- <-.
    destruct (String.eqb_spec (str_of_int (TMDB.id e)) EmptyString) as [Em|_];
      [exfalso; exact (str_of_int_nonempty _ Em) |].
    cbn [negb] in H.
    inv_bind H.
    apply (Movie_get_content_info_inv _ tmdb (str_of_int (TMDB.id e))) in E;
      [| reflexivity | reflexivity].
    destruct E as (-> & Sd & ->).
    inv_bind H. apply getitem_key_inv in E. destruct E as [Et ->].
    inv_bind H. apply names_inv in E. destruct E as [Eg ->].
    inv_bind H. apply credits_inv in E. destruct E as [Ea ->].
    inv_bind H. apply credits_inv in E. destruct E as [Edr ->].
    inv_bind H. apply names_inv in E. destruct E as [Ep ->].
    inv_bind H. apply date_text_inv in E. destruct E as [Erd ->].
    inv_bind H. apply Movie_get_runtime_inv in E. destruct E as [Ert ->].
    injection H as <- <-. cbn.
    rewrite <- app_assoc.
    repeat split; try assumption; try reflexivity.
    + exists a. auto.
    + exists a5. auto.
Qed.
End MovieFacts.

(** X6. A [Movie] that is constructed has printed nothing.  Without a
    match it has sent the one resolution request and is the empty
    object; with a match it has sent the resolution request and then
    the details request of the first match, both answered with status
    200, and holds what that answer says: the original title, the genre
    and company names, the first 15 cast names, the first 2 crew names
    whose job is "Director", the release date and the runtime. *)
Theorem movie_construction
    (requests : Catalog) (py_int : string -> option Z) (tmdb : APIRequests)
    (imdb_id : string) (w w' : World) (c : Content) :
  Movie requests py_int tmdb imdb_id w = (Ok c, w') ->
  movie_built requests py_int tmdb imdb_id w c w'.
Proof. apply Movie_built. Qed.

Lemma SeriesEpisode_get_runtime_inv self info rt (w w' : World) :
  SeriesEpisode_get_runtime self info w = (Ok rt, w') ->
  w' = w
  /\ exists l,
       TMDB.episode_run_time info = Some l /\ l <> []
       /\ (- 2 ^ 53 < sum l < 2 ^ 53 -> rt = Z.quot (sum l) (len l)).
Proof.
  intros H.
  assert (K : keeps (fun w => w) (SeriesEpisode_get_runtime self info)).
  { unfold SeriesEpisode_get_runtime. repeat keeps_step. }
  pose proof (K _ _ _ H) as Ew. simpl in Ew. subst w'.
  split; [reflexivity |].
  unfold SeriesEpisode_get_runtime in H.
  inv_bind H. apply getitem_key_inv in E. destruct E as [El ->].
  exists a. split; [exact El |].
  destruct a as [|x l].
  - discriminate H.
  - split; [discriminate |]. intros B.
    assert (L : 0 < len (x :: l)) by (unfold len; cbn [length]; lia).
    rewrite (int_truediv_trunc _ _ _ B L) in H.
    injection H as <-. reflexivity.
Qed.

Section EpisodeFacts.
Variable requests : Catalog.
Variable py_int : string -> option Z.

Lemma SeriesEpisode_get_tmdb_id_inv self tmdb imdb_id (w w' : World) self' o :
  _requester self = Val tmdb ->
  SeriesEpisode_get_tmdb_id requests self imdb_id w = (Ok (self', o), w') ->
  status_code (find_response requests tmdb imdb_id) = STATUS_CODE_OK
  /\ w' = mkWorld (calls w ++ [find_url imdb_id]) (stdout w)
  /\ match TMDB.tv_episode_results
             (json (find_response requests tmdb imdb_id)) with
     | [] => self' = set_episode_ids self PyNone PyNone PyNone /\ o = None
     | e :: _ =>
         exists sh se ep,
           TMDB.show_id e = Some sh /\ TMDB.season_number e = Some se
           /\ TMDB.episode_number e = Some ep
           /\ self' = set_episode_ids self (Val (str_of_int sh))
                        (Val (str_of_int se)) (Val (str_of_int ep))
           /\ o = Some (str_of_int (TMDB.id e))
     end.
Proof.
  intros Hr H. unfold SeriesEpisode_get_tmdb_id in H. rewrite Hr in H.
  inv_bind H. injection E as <- <-.
  inv_bind H. apply get_info_from_imdb_id_inv in E. destruct E as (-> & S & ->).
  cbv zeta in H.
  destruct (TMDB.tv_episode_results
              (json (find_response requests tmdb imdb_id))) as [|e l].
  - injection H as <- <- <-. auto.
  - rewrite len_cons_nonzero in H.
    rewrite (bind_ok _ (list_getitem_first e l _)) in H.
    inv_bind H. apply getitem_key_inv in E. destruct E as [Esh ->].
    inv_bind H. apply getitem_key_inv in E. destruct E as [Ese ->].
    inv_bind H. apply getitem_key_inv in E. destruct E as [Eep ->].
    injection H as <- <- <-.
    split; [exact S |]. split; [reflexivity |].
    exists a, a0, a1. auto.
Qed.

Lemma episode_details_inv self tmdb sh se ep (w w' : World) info :
  _requester self = Val tmdb -> show_id self = Val sh ->
  season self = Val se -> episode self = Val ep ->
  episode_details requests self w = (Ok info, w') ->
  info = json (details_response requests tmdb (episode_url sh se ep))
  /\ status_code (details_response requests tmdb (episode_url sh se ep))
     = STATUS_CODE_OK
  /\ w' = mkWorld (calls w ++ [episode_url sh se ep]) (stdout w).
Proof.
  intros Hr Hsh Hse Hep H. unfold episode_details in H.
  rewrite Hr, Hsh, Hse, Hep in H.
  change (bind (get_episode_info requests tmdb sh se ep)
               (fun r => ret (json r)) w = (Ok info, w')) in H.
  inv_bind H. apply get_episode_info_inv in E. destruct E as (-> & S & ->).
  injection H as <- <-. auto.
Qed.

Lemma SeriesEpisode_built tmdb imdb_id (w w' : World) c :
  SeriesEpisode requests py_int tmdb imdb_id w = (Ok c, w') ->
  episode_built requests py_int tmdb imdb_id w c w'.
Proof.
  unfold SeriesEpisode, Content_init. intros H.
  cbn [_get_tmdb_id _get_content_info _get_title _get_directors
       _get_release_date _get_runtime SeriesEpisode_class] in H.
  inv_bind H. destruct a as [self o].
  apply (SeriesEpisode_get_tmdb_id_inv _ tmdb) in E; [| reflexivity].
  destruct E as (S & -> & M).
  unfold episode_built. cbn [stdout].
  destruct (TMDB.tv_episode_results
              (json (find_response requests tmdb imdb_id))) as [|e l].
  - destruct M as [-> ->]. simpl in H. injection H as <- <-. auto.
  - destruct M as (sh & se & ep & Esh & Ese & Eep & -> & ->).
    cbv zeta in H. inv_bind H.
    cbn [attr_of_option set_tmdb_id tmdb_id tmdb_id_truth] in E.
    injection E as <- <-.
    destruct (String.eqb_spec (str_of_int (TMDB.id e)) EmptyString) as [Em|_];
      [exfalso; exact (str_of_int_nonempty _ Em) |].
    cbn [negb] in H.
    inv_bind H. unfold SeriesEpisode_get_content_info in E.
    change (get_show_info requests tmdb (str_of_int sh)
              {| calls := calls w ++ [find_url imdb_id]; stdout := stdout w |}
            = (Ok a, w0)) in E.
    apply get_show_info_inv in E. destruct E as (-> & Ss & ->).
    inv_bind H. apply getitem_key_inv in E. destruct E as [Et ->].
    inv_bind H. apply names_inv in E. destruct E as [Eg ->].
    inv_bind H. apply credits_inv in E. destruct E as [Ea ->].
    inv_bind H. unfold SeriesEpisode_get_directors in E.
    inv_bind E.
    apply (episode_details_inv _ tmdb (str_of_int sh) (str_of_int se)
             (str_of_int ep)) in E0; try reflexivity.
    destruct E0 as (-> & Se & ->).
    apply credits_inv in E. destruct E as [Edr ->].
    inv_bind H. apply names_inv in E. destruct E as [Ep ->].
    inv_bind H. unfold SeriesEpisode_get_release_date in E.
    inv_bind E.
    apply (episode_details_inv _ tmdb (str_of_int sh) (str_of_int se)
             (str_of_int ep)) in E0; try reflexivity.
    destruct E0 as (-> & _ & ->).
    apply date_text_inv in E. destruct E as [Erd ->].
    inv_bind H. apply SeriesEpisode_get_runtime_inv in E.
    destruct E as (-> & lr & Elr & Nlr & Brt).
    injection H as <- <-. cbn [calls stdout tmdb_id show_id season episode
                              is_movie is_series title genres actors directors
                              production_companies release_date runtime
                              set_tmdb_id set_episode_ids set_requester negb].
    rewrite <- !app_assoc.
    split; [reflexivity |]. split; [exact S |].
    exists sh, se, ep.
    repeat split; try assumption; try reflexivity.
    + exists a. auto.
    + exists lr, a5. auto.
Qed.
End EpisodeFacts.

(** X7. A [SeriesEpisode] that is constructed has printed nothing.
    Without a match it has sent the one resolution request and is the
    empty object; with a match it has sent four requests, in this
    order: the resolution, the details of the show, and the details of
    the episode twice.  Title, genres, cast, companies and runtime come
    from the show's answer, directors and air date from the episode's;
    the runtime is the truncated mean of the show's episode runtimes
    when their sum is below [2 ^ 53] in absolute value. *)
Theorem episode_construction
    (requests : Catalog) (py_int : string -> option Z) (tmdb : APIRequests)
    (imdb_id : string) (w w' : World) (c : Content) :
  SeriesEpisode requests py_int tmdb imdb_id w = (Ok c, w') ->
  episode_built requests py_int tmdb imdb_id w c w'.
Proof. apply SeriesEpisode_built. Qed.

(** ** Invariants of a constructed content *)

Lemma read_from_val {A B} (key : option A) (f : A -> B) (v : B) :
  read_from key f (Val v) -> exists x, key = Some x /\ v = f x.
Proof. intros (x & E & V). injection V as ->. eauto. Qed.

Lemma actors_of_length cr : (length (actors_of cr) <= 15)%nat.
Proof. unfold actors_of. rewrite length_map. apply firstn_le_length. Qed.

Lemma directors_of_length cr : (length (directors_of cr) <= 2)%nat.
Proof. unfold directors_of. apply firstn_le_length. Qed.

Lemma directors_of_job cr n :
  In n (directors_of cr) ->
  exists m, In m (TMDB.crew cr) /\ TMDB.job m = "Director"
            /\ TMDB.crew_name m = n.
Proof.
  unfold directors_of. intros I. apply firstn_incl in I.
  apply in_map_iff in I. destruct I as (m & E & I).
  apply filter_In in I. destruct I as [I J].
  apply String.eqb_eq in J. eauto.
Qed.

(** X8. Whatever the catalog answers, a content that [Movie] or
    [SeriesEpisode] constructs has at most 15 actors and at most 2
    directors, its two kind flags are set and opposite, and its
    identifier is either [None] or a string that is not empty. *)
Theorem constructed_content_invariants
    (requests : Catalog) (py_int : string -> option Z) (tmdb : APIRequests)
    (imdb_id : string) (w w' : World) (c : Content) :
  Movie requests py_int tmdb imdb_id w = (Ok c, w')
  \/ SeriesEpisode requests py_int tmdb imdb_id w = (Ok c, w') ->
  (forall l, actors c = Val l -> (length l <= 15)%nat)
  /\ (forall l, directors c = Val l -> (length l <= 2)%nat)
  /\ (exists b, is_movie c = Val b /\ is_series c = Val (negb b))
  /\ (tmdb_id c = PyNone
      \/ exists i, tmdb_id c = Val i /\ i <> EmptyString).
Proof.
  intros [H | H].
  - apply Movie_built in H. destruct H as (_ & _ & H).
    destruct (TMDB.movie_results _) as [|e l].
    + destruct H as [-> _]. simpl.
      repeat split; try discriminate; eauto.
    + cbv zeta in H.
      destruct H as (_ & _ & Ei & Em & Es & _ & _ & Ea & Ed & _).
      repeat split.
      * intros la Ela. rewrite Ela in Ea. apply read_from_val in Ea.
        destruct Ea as (cr & _ & ->). apply actors_of_length.
      * intros ld Eld. rewrite Eld in Ed. apply read_from_val in Ed.
        destruct Ed as (cr & _ & ->). apply directors_of_length.
      * exists true. auto.
      * right. eexists. split; [exact Ei | apply str_of_int_nonempty].
  - apply SeriesEpisode_built in H. destruct H as (_ & _ & H).
    destruct (TMDB.tv_episode_results _) as [|e l].
    + destruct H as [-> _]. simpl.
      repeat split; try discriminate; eauto.
    + destruct H as (sh & se & ep & _ & _ & _ & H). cbv zeta in H.
      destruct H as (_ & _ & _ & Ei & _ & _ & _ & Em & Es & _ & _ & Ea & Ed & _).
      repeat split.
      * intros la Ela. rewrite Ela in Ea. apply read_from_val in Ea.
        destruct Ea as (cr & _ & ->). apply actors_of_length.
      * intros ld Eld. rewrite Eld in Ed. apply read_from_val in Ed.
        destruct Ed as (cr & _ & ->). apply directors_of_length.
      * exists false. auto.
      * right. eexists. split; [exact Ei | apply str_of_int_nonempty].
Qed.

(** ** What the builder makes of the records *)

Section AccountingFacts.
Variable requests : Catalog.
Variable py_int : string -> option Z.
Variable py_float : string -> option float.

Lemma resolve_inv tmdb record (w w' : World) c :
  resolve requests py_int tmdb record w = (Ok c, w') ->
  stdout w' = stdout w
  /\ if unmatched requests tmdb record
     then tmdb_id c = PyNone
     else exists i, tmdb_id c = Val i /\ i <> EmptyString.
Proof.
  unfold resolve, unmatched, matches. cbv zeta.
  destruct (String.eqb (Movie_or_Series record) "Movie"); intros H.
  - apply Movie_built in H. destruct H as (So & _ & H).
    split; [exact So |].
    destruct (TMDB.movie_results _) as [|e l].
    + destruct H as [-> _]. reflexivity.
    + cbv zeta in H. destruct H as (_ & _ & Ei & _).
      eexists. split; [exact Ei | apply str_of_int_nonempty].
  - apply SeriesEpisode_built in H. destruct H as (So & _ & H).
    split; [exact So |].
    destruct (TMDB.tv_episode_results _) as [|e l].
    + destruct H as [-> _]. reflexivity.
    + destruct H as (sh & se & ep & _ & _ & _ & H). cbv zeta in H.
      destruct H as (_ & _ & _ & Ei & _).
      eexists. split; [exact Ei | apply str_of_int_nonempty].
Qed.

Lemma build_step_inv tmdb acc record (w w' : World) acc' :
  build_step requests py_int py_float tmdb acc record w = (Ok acc', w') ->
  if unmatched requests tmdb record
  then acc' = acc /\ stdout w' = stdout w ++ [diagnostic record]
  else exists ev,
         acc' = acc ++ [ev] /\ stdout w' = stdout w
         /\ event_of_record py_int py_float record ev.
Proof.
  unfold build_step. intros H.
  inv_bind H. pose proof (resolve_inv _ _ _ _ _ E) as [So M].
  inv_bind H.
  destruct (unmatched requests tmdb record).
  - rewrite M in E0. injection E0 as <- <-.
    inv_bind H. rewrite print_ok in E0. injection E0 as _ <-.
    injection H as <- <-. simpl. rewrite So. auto.
  - destruct M as (i & Ei & Ni).
    assert (Rc := resolve_resolved requests py_int _ _ _ _ _ E
                    ltac:(rewrite Ei; discriminate)).
    rewrite Ei in E0. injection E0 as <- <-.
    inv_bind H. destruct a0 as [[m d] y].
    apply unpack3_inv in E0. destruct E0 as [Es ->].
    inv_bind H. unfold date_of_parts in E0.
    inv_bind E0. apply int_of_str_inv in E1. destruct E1 as [Ey ->].
    inv_bind E0. apply int_of_str_inv in E1. destruct E1 as [Em ->].
    inv_bind E0. apply int_of_str_inv in E1. destruct E1 as [Ed ->].
    apply new_datetime_inv in E0. destruct E0 as (-> & V & ->).
    inv_bind H. unfold float_of_str in E0.
    destruct (py_float (Rating record)) as [r|] eqn:Er; [| discriminate].
    injection E0 as <- <-. injection H as <- <-.
    eexists. split; [reflexivity |]. split; [exact So |].
    unfold event_of_record. simpl.
    split; [reflexivity |]. split; [exact Er |].
    split; [exists m, d, y; auto |].
    split; [apply (valid_dateb_valid _ V) |].
    split; [exact Rc |]. exists i. auto.
Qed.

Lemma build_loop_inv tmdb raw : forall acc (w w' : World) acc',
  for_each raw (build_step requests py_int py_float tmdb) acc w = (Ok acc', w') ->
  exists evs,
    acc' = acc ++ evs
    /\ Forall2 (event_of_record py_int py_float)
         (filter (fun r => negb (unmatched requests tmdb r)) raw) evs
    /\ stdout w' = stdout w ++ map diagnostic (filter (unmatched requests tmdb) raw).
Proof.
  induction raw as [|r raw IH]; intros acc w w' acc' H; simpl in H.
  - injection H as <- <-. exists []. rewrite !app_nil_r. simpl. auto.
  - inv_bind H. apply build_step_inv in E.
    destruct (IH _ _ _ _ H) as (evs & -> & F & So).
    simpl filter. destruct (unmatched requests tmdb r); simpl negb; cbv iota.
    + destruct E as [-> Sd]. exists evs.
      split; [reflexivity |]. split; [exact F |].
      rewrite So, Sd, <- app_assoc. reflexivity.
    + destruct E as (ev & -> & Sd & Ev). exists (ev :: evs).
      split; [rewrite <- app_assoc; reflexivity |].
      split; [constructor; assumption |].
      rewrite So, Sd. reflexivity.
Qed.
End AccountingFacts.

(** X9. When the builder's loop completes, the events it returns are,
    in order, what it made of the records that have a match in the
    catalog, one event per such record, and the lines it printed are,
    in order, the diagnostics of the records without a match; every
    record is one or the other. *)
Theorem builder_accounts_for_every_record
    (requests : Catalog) (py_int : string -> option Z)
    (py_float : string -> option float) (tmdb : APIRequests)
    (raw : list raw_record) (w w' : World) (wc : list WatchedContent) :
  build_watched_content requests py_int py_float tmdb raw w = (Ok wc, w') ->
  Forall2 (event_of_record py_int py_float)
    (filter (fun r => negb (unmatched requests tmdb r)) raw) wc
  /\ stdout w'
     = stdout w ++ map diagnostic (filter (unmatched requests tmdb) raw)
  /\ (length wc + length (filter (unmatched requests tmdb) raw)
      = length raw)%nat.
Proof.
  intros H. apply build_loop_inv in H. destruct H as (evs & -> & F & So).
  split; [exact F |]. split; [exact So |].
  simpl. rewrite <- (Forall2_length F).
  clear. induction raw as [|r raw IH]; simpl; [reflexivity |].
  destruct (unmatched requests tmdb r); simpl; lia.
Qed.

(** ** The run as a whole *)

Lemma ends_bind {A B} (a : A) (r : result B) (m : M A) (k : A -> M B) :
  ends_with (Ok a) m -> ends_with r (k a) -> ends_with r (bind m k).
Proof.
  intros Em Ek w. destruct (Em w) as (w1 & E1 & C1).
  destruct (Ek w1) as (w2 & E2 & C2).
  exists w2. rewrite (bind_ok _ E1). split; [exact E2 | congruence].
Qed.

Lemma ends_at {A} (r : result A) (m : M A) (w : World) :
  ends_with r m -> exists w', m w = (r, w') /\ calls w' = calls w.
Proof. intros E. apply E. Qed.

Lemma print_ends fmt args : ends_with (Ok tt) (print fmt args).
Proof. intros w. eexists. split; reflexivity. Qed.

Lemma most_watched_ends field header wc :
  reportable field -> Forall resolved wc ->
  ends_with (Ok tt) (most_watched field header wc).
Proof.
  intros Hf R w. destruct (most_watched_top field header wc w Hf R) as (l & E & _).
  eexists. split; [exact E | reflexivity].
Qed.

Lemma most_liked_ends field threshold header wc :
  reportable field -> 0 < threshold -> Forall resolved wc ->
  ends_with (Ok tt) (most_liked field threshold header wc).
Proof.
  intros Hf T R w.
  destruct (most_liked_values field threshold header wc w Hf T R) as (l & E & _).
  eexists. split; [exact E | reflexivity].
Qed.

Lemma amount_ends wc :
  Forall resolved wc ->
  ends_with (Ok tt) (get_amount_of_movies_and_series_watched wc).
Proof.
  intros R w. unfold get_amount_of_movies_and_series_watched.
  rewrite (bind_ok _ (count_movies_and_series_fold wc w R)).
  eexists. split; reflexivity.
Qed.

Lemma platform_ends wc :
  Forall resolved wc -> ends_with (Ok tt) (get_platform_usage wc).
Proof.
  intros R w. rewrite (get_platform_usage_lines wc w R).
  eexists. split; reflexivity.
Qed.

Lemma activity_ends wc :
  Forall resolved wc -> Forall (fun c => valid_date (date c)) wc ->
  ends_with (match wc with [] => Raise ValueError | _ :: _ => Ok tt end)
    (get_activity_by_month_and_day wc).
Proof.
  intros R V w. destruct (activity_days wc w R V) as (a & E & D).
  rewrite (get_activity_by_month_and_day_lines wc a w E).
  destruct wc as [|c wc].
  - rewrite D. simpl. eexists. split; reflexivity.
  - assert (I : In (date c) (dict_keys (days a))).
    { rewrite D. apply days_pure_keys. right. exists c.
      split; [left |]; reflexivity. }
    destruct (days a) as [|x l]; [contradiction |].
    eexists. split; reflexivity.
Qed.

(** X10. Once the builder has returned its collection, the run sends
    no further request and its outcome is decided by the collection
    alone: with at least one event every report returns and so does
    the run; with none, the ten first reports return and the run ends
    in the [ValueError] of the last one. *)
Theorem run_ends_by_the_collection
    (requests : Catalog) (py_int : string -> option Z)
    (py_float : string -> option float)
    (raw : list raw_record) (w w1 : World) (wc : list WatchedContent) :
  build_watched_content requests py_int py_float (mkAPIRequests API_KEY) raw w
  = (Ok wc, w1) ->
  exists w',
    main requests py_int py_float raw w
    = (match wc with [] => Raise ValueError | _ :: _ => Ok tt end, w')
    /\ calls w' = calls w1.
Proof.
  intros H.
  destruct (build_watched_content_resolved _ _ _ _ _ _ _ _ H) as [R V].
  unfold main. cbv zeta. rewrite (bind_ok _ H).
  assert (T1 : 0 < MIN_THRESHOLD) by reflexivity.
  assert (T2 : 0 < MIN_THRESHOLD_FOR_DIRECTORS) by reflexivity.
  apply ends_at.
  repeat (apply (ends_bind tt);
          [ first [ apply print_ends
                  | apply most_watched_ends; unfold reportable; auto
                  | apply most_liked_ends; unfold reportable; auto
                  | apply amount_ends; exact R
                  | apply platform_ends; exact R ] |]).
  apply activity_ends; assumption.
Qed.

(** ** A content without metadata in a collection *)

Lemma for_each_raise_at {A S} (body : S -> A -> M S) (pre post : list A)
    (x : A) (acc acc' : S) (e : exn) (w : World) :
  for_each pre body acc w = (Ok acc', w) ->
  body acc' x w = (Raise e, w) ->
  for_each (pre ++ x :: post) body acc w = (Raise e, w).
Proof.
  intros P X. rewrite for_each_app, P. simpl.
  apply (bind_raise _ X).
Qed.

Lemma most_watched_raises field header pre ev post e (w : World) :
  reportable field -> Forall resolved pre ->
  attr_value (field (content ev)) w = (Raise e, w) ->
  most_watched field header (pre ++ ev :: post) w = (Raise e, w).
Proof.
  intros Hf R X. unfold most_watched. apply bind_raise.
  unfold watched_scores.
  apply (for_each_raise_at _ _ _ _ _ _ _ _ (watched_scores_pure field pre w Hf R)).
  apply (bind_raise _ X).
Qed.

Lemma most_liked_raises field threshold header pre ev post e (w : World) :
  reportable field -> Forall resolved pre ->
  attr_value (field (content ev)) w = (Raise e, w) ->
  most_liked field threshold header (pre ++ ev :: post) w = (Raise e, w).
Proof.
  intros Hf R X. unfold most_liked. apply bind_raise.
  unfold liked_tables.
  apply (for_each_raise_at _ _ _ _ _ _ _ _ (liked_tables_pure field pre w Hf R)).
  apply (bind_raise _ X).
Qed.

(** X11. A content built without a match breaks every report of a
    collection that holds it: the loops over genres, actors and
    directors raise [TypeError] on its [None], the two reports over
    production companies raise [AttributeError] on the attribute the
    constructor never sets, and the reports that add up runtimes raise
    [TypeError]; all of them before anything is printed. *)
Theorem content_without_metadata_breaks_the_reports
    (tmdb : APIRequests) (movie : bool)
    (pre post : list WatchedContent) (ev : WatchedContent) (w : World) :
  Forall resolved pre ->
  Forall (fun c => valid_date (date c)) pre ->
  valid_date (date ev) ->
  content ev = unresolved_content tmdb movie ->
  let wc := pre ++ ev :: post in
  get_most_watched_genres wc w = (Raise TypeError, w)
  /\ get_most_liked_genres wc w = (Raise TypeError, w)
  /\ get_most_watched_actors wc w = (Raise TypeError, w)
  /\ get_most_liked_actors wc w = (Raise TypeError, w)
  /\ get_most_watched_directors wc w = (Raise TypeError, w)
  /\ get_most_liked_directors wc w = (Raise TypeError, w)
  /\ get_most_watched_production_companies wc w = (Raise AttributeError, w)
  /\ get_most_liked_production_companies wc w = (Raise AttributeError, w)
  /\ get_amount_of_movies_and_series_watched wc w = (Raise TypeError, w)
  /\ get_platform_usage wc w = (Raise TypeError, w)
  /\ get_activity_by_month_and_day wc w = (Raise TypeError, w).
Proof.
  intros R V Vd Ec wc. subst wc.
  repeat match goal with |- _ /\ _ => split end;
    try (first [apply most_watched_raises | apply most_liked_raises];
         [unfold reportable; auto | exact R | rewrite Ec; reflexivity]).
  - unfold get_amount_of_movies_and_series_watched. apply bind_raise.
    unfold count_movies_and_series.
    apply (for_each_raise_at _ _ _ _ _ _ _ _ (count_movies_and_series_fold pre w R)).
    rewrite Ec. destruct movie; reflexivity.
  - unfold get_platform_usage. apply bind_raise.
    assert (E : for_each pre
                  (fun counter c =>
                     add_to (platform c) (runtime (content c)) counter) [] w
                = (Ok (bucket_pure platform pre []), w)).
    { unfold bucket_pure. apply for_each_pure. intros d c w' Hc.
      rewrite Forall_forall in R. rewrite (resolved_runtime (R c Hc)).
      apply add_to_pure. }
    apply (for_each_raise_at _ _ _ _ _ _ _ _ E).
    rewrite Ec. unfold add_to. cbv zeta.
    destruct (dict_contains (platform ev) (bucket_pure platform pre [])) eqn:C.
    + rewrite (bind_ok _ (dict_getitem_found _ _ _ w (dict_contains_get 0 _ _ C))).
      reflexivity.
    + rewrite (bind_ok _ (dict_getitem_found _ _ _ w
                            (dict_find_setitem_same _ _ _))).
      reflexivity.
  - unfold get_activity_by_month_and_day. apply bind_raise.
    destruct (activity_tables_pure pre w R V) as [E (Km & _)].
    unfold activity_tables in *.
    apply (for_each_raise_at _ _ _ _ _ _ _ _ E).
    destruct Vd as (_ & Bm & _).
    destruct (month_name_getitem (date ev) w Bm) as [Em Im].
    rewrite <- Km in Im. apply dict_contains_In in Im.
    unfold activity_step. rewrite (bind_ok _ Em).
    apply bind_raise. unfold bump.
    rewrite (bind_ok _ (dict_getitem_found _ _ _ w (dict_contains_get 0 _ _ Im))).
    rewrite Ec. reflexivity.
Qed.

(** ** A record that cannot be read *)

Section UnreadableFacts.
Variable requests : Catalog.
Variable py_int : string -> option Z.
Variable py_float : string -> option float.

Lemma build_step_unreadable tmdb acc record (w w1 : World) c :
  resolve requests py_int tmdb record w = (Ok c, w1) ->
  unmatched requests tmdb record = false ->
  read_date py_int (Date record) = None \/ py_float (Rating record) = None ->
  build_step requests py_int py_float tmdb acc record w
  = (Raise (record_fault py_int record), w1).
Proof.
  intros E U B. pose proof (resolve_inv _ _ _ _ _ _ _ E) as [_ M].
  rewrite U in M. destruct M as (i & Ei & _).
  unfold build_step. rewrite (bind_ok _ E), Ei. unfold attr_is_none.
  unfold bind at 1, ret at 1. cbv iota.
  unfold read_date in B. unfold record_fault.
  unfold date_of_parts, int_of_str, new_datetime, float_of_str, unpack3.
  destruct (str_split "/" (Date record)) as [|m [|d [|y [|? ?]]]];
    try reflexivity.
  unfold bind, ret, raise.
  destruct (py_int y) as [y'|]; [| reflexivity].
  destruct (py_int m) as [m'|]; [| reflexivity].
  destruct (py_int d) as [d'|]; [| reflexivity].
  destruct (valid_dateb _) eqn:V.
  - rewrite (valid_dateb_fits _ _ _ V).
    destruct B as [B | B]; [discriminate |].
    rewrite B. reflexivity.
  - destruct (fits_c_int y' && fits_c_int m' && fits_c_int d'); reflexivity.
Qed.
End UnreadableFacts.

(** X12. A record the catalog matches but whose date or rating cannot
    be read ends the run at that record: in an [OverflowError] when the
    three parts of the date are integers of which one does not fit a C
    [int], in a [ValueError] otherwise.  The records after it are not
    looked up, what was built before it is dropped, and no report and
    no diagnostic is printed for it. *)
Theorem unreadable_record_aborts_the_run
    (requests : Catalog) (py_int : string -> option Z)
    (py_float : string -> option float)
    (pre post : list raw_record) (record : raw_record)
    (w w0 w1 : World) (built : list WatchedContent) (c : Content) :
  build_watched_content requests py_int py_float (mkAPIRequests API_KEY) pre w
  = (Ok built, w0) ->
  resolve requests py_int (mkAPIRequests API_KEY) record w0 = (Ok c, w1) ->
  unmatched requests (mkAPIRequests API_KEY) record = false ->
  read_date py_int (Date record) = None \/ py_float (Rating record) = None ->
  main requests py_int py_float (pre ++ record :: post) w
  = (Raise (record_fault py_int record), w1)
  /\ stdout w1 = stdout w0.
Proof.
  intros P E U B. split.
  - unfold main. cbv zeta. apply bind_raise.
    unfold build_watched_content in *. rewrite for_each_app, P. simpl.
    apply bind_raise. apply (build_step_unreadable _ _ _ _ _ _ _ _ _ E U B).
  - apply (resolve_inv _ _ _ _ _ _ _ E).
Qed.

(** ** Construction from complete answers *)

Section ReturnFacts.
Variable requests : Catalog.
Variable py_int : string -> option Z.

Lemma bind_step {A B} (m : M A) (k : A -> M B) (w w1 : World) (a : A)
    (res : result B * World) :
  m w = (Ok a, w1) -> k a w1 = res -> bind m k w = res.
Proof. intros E <-. apply (bind_ok _ E). Qed.

Lemma details_request_ok tmdb u (w : World) :
  status_code (details_response requests tmdb u) = STATUS_CODE_OK ->
  (log_call u ;;
   process_API_response (details_response requests tmdb u) STATUS_CODE_OK ;;
   ret (details_response requests tmdb u))%monad w
  = (Ok (details_response requests tmdb u),
     mkWorld (calls w ++ [u]) (stdout w)).
Proof.
  intros S. unfold process_API_response. rewrite S, Z.eqb_refl. reflexivity.
Qed.

Lemma details_request_refused tmdb u (w : World) :
  let r := details_response requests tmdb u in
  status_code r <> STATUS_CODE_OK ->
  (log_call u ;;
   process_API_response r STATUS_CODE_OK ;;
   ret r)%monad w
  = (Raise (FailedAPIRequest (url r) STATUS_CODE_OK (status_code r) (text r)),
     mkWorld (calls w ++ [u]) (stdout w)).
Proof.
  intros r S. unfold process_API_response.
  apply Z.eqb_neq in S. rewrite S. reflexivity.
Qed.

Lemma get_movie_info_refused tmdb i (w : World) :
  let r := details_response requests tmdb (movie_url i) in
  status_code r <> STATUS_CODE_OK ->
  get_movie_info requests tmdb i w
  = (Raise (FailedAPIRequest (url r) STATUS_CODE_OK (status_code r) (text r)),
     mkWorld (calls w ++ [movie_url i]) (stdout w)).
Proof. apply details_request_refused. Qed.

Lemma get_show_info_refused tmdb i (w : World) :
  let r := details_response requests tmdb (show_url i) in
  status_code r <> STATUS_CODE_OK ->
  get_show_info requests tmdb i w
  = (Raise (FailedAPIRequest (url r) STATUS_CODE_OK (status_code r) (text r)),
     mkWorld (calls w ++ [show_url i]) (stdout w)).
Proof. apply details_request_refused. Qed.

Lemma get_movie_info_ok tmdb i (w : World) :
  status_code (details_response requests tmdb (movie_url i)) = STATUS_CODE_OK ->
  get_movie_info requests tmdb i w
  = (Ok (details_response requests tmdb (movie_url i)),
     mkWorld (calls w ++ [movie_url i]) (stdout w)).
Proof. apply details_request_ok. Qed.

Lemma get_show_info_ok tmdb i (w : World) :
  status_code (details_response requests tmdb (show_url i)) = STATUS_CODE_OK ->
  get_show_info requests tmdb i w
  = (Ok (details_response requests tmdb (show_url i)),
     mkWorld (calls w ++ [show_url i]) (stdout w)).
Proof. apply details_request_ok. Qed.

Lemma get_episode_info_ok tmdb sh se ep (w : World) :
  status_code (details_response requests tmdb (episode_url sh se ep))
  = STATUS_CODE_OK ->
  get_episode_info requests tmdb sh se ep w
  = (Ok (details_response requests tmdb (episode_url sh se ep)),
     mkWorld (calls w ++ [episode_url sh se ep]) (stdout w)).
Proof. apply details_request_ok. Qed.

Lemma iso_date_ok s dt (w : World) :
  read_iso_date py_int s = Some dt ->
  ('(year, month, day) <- unpack3 (str_split "-" s) ;;
   date_of_parts py_int year month day)%monad w = (Ok dt, w).
Proof.
  unfold read_iso_date, date_of_parts, int_of_str, new_datetime, unpack3.
  destruct (str_split "-" s) as [|y [|m [|d [|? ?]]]]; try discriminate.
  unfold bind, ret, raise.
  destruct (py_int y); [| discriminate].
  destruct (py_int m); [| discriminate].
  destruct (py_int d); [| discriminate].
  destruct (valid_dateb _) eqn:V; [| discriminate].
  rewrite (valid_dateb_fits _ _ _ V).
  intros E. injection E as <-. reflexivity.
Qed.

Lemma tmdb_id_truth_str n (w : World) :
  tmdb_id_truth (Val (str_of_int n)) w = (Ok true, w).
Proof.
  unfold tmdb_id_truth, ret.
  destruct (String.eqb_spec (str_of_int n) EmptyString) as [E|_];
    [destruct (str_of_int_nonempty n E) | reflexivity].
Qed.

Lemma SeriesEpisode_upto_runtime tmdb imdb_id (w : World) e rest sh se ep
    t g cr cre pc s dt :
  status_code (find_response requests tmdb imdb_id) = STATUS_CODE_OK ->
  TMDB.tv_episode_results (json (find_response requests tmdb imdb_id))
  = e :: rest ->
  TMDB.show_id e = Some sh -> TMDB.season_number e = Some se ->
  TMDB.episode_number e = Some ep ->
  let show := details_response requests tmdb (show_url (str_of_int sh)) in
  let u := episode_url (str_of_int sh) (str_of_int se) (str_of_int ep) in
  let epi := details_response requests tmdb u in
  status_code show = STATUS_CODE_OK ->
  status_code epi = STATUS_CODE_OK ->
  TMDB.original_name (json show) = Some t ->
  TMDB.genres (json show) = Some g ->
  TMDB.credits (json show) = Some cr ->
  TMDB.credits (json epi) = Some cre ->
  TMDB.production_companies (json show) = Some pc ->
  TMDB.air_date (json epi) = Some s ->
  read_iso_date py_int s = Some dt ->
  let w' := mkWorld (calls w ++ [find_url imdb_id; show_url (str_of_int sh); u; u])
                    (stdout w) in
  forall res,
    SeriesEpisode_get_runtime new_object (json show) w' = (res, w') ->
    SeriesEpisode requests py_int tmdb imdb_id w
    = (match res with
       | Ok rt =>
           Ok (mkContent (Val tmdb) (Val (str_of_int (TMDB.id e))) (Val t)
                 (Val (map TMDB.name g)) (Val false) (Val true)
                 (Val (actors_of cr)) (Val (directors_of cre))
                 (Val (map TMDB.name pc)) Unset (Val dt) (Val rt)
                 (Val (str_of_int sh)) (Val (str_of_int se))
                 (Val (str_of_int ep)))
       | Raise x => Raise x
       end, w').
Proof.
  intros Sf Em Esh Ese Eep show u epi Ss Se Et Eg Ec Ece Ep Es Ed w' res Er.
  assert (Epi : forall w0,
             episode_details requests
               (set_tmdb_id
                  (set_episode_ids
                     (set_requester
                        (set_episode_ids new_object PyNone PyNone PyNone) tmdb)
                     (Val (str_of_int sh)) (Val (str_of_int se))
                     (Val (str_of_int ep)))
                  (Val (str_of_int (TMDB.id e)))) w0
             = (Ok (json epi), mkWorld (calls w0 ++ [u]) (stdout w0))).
  { intros w0. unfold episode_details.
    eapply bind_step; [reflexivity |].
    eapply bind_step; [reflexivity |].
    eapply bind_step; [reflexivity |].
    eapply bind_step; [reflexivity |].
    eapply bind_step; [apply get_episode_info_ok; exact Se |].
    reflexivity. }
  unfold SeriesEpisode, Content_init. cbv zeta.
  cbn [_get_tmdb_id _get_content_info _get_title _get_directors
       _get_release_date _get_runtime SeriesEpisode_class].
  eapply bind_step.
  { unfold SeriesEpisode_get_tmdb_id.
    eapply bind_step; [reflexivity |].
    eapply bind_step; [apply get_info_from_imdb_id_ok; exact Sf |].
    rewrite Em, len_cons_nonzero.
    eapply bind_step; [apply list_getitem_first |].
    rewrite Esh, Ese, Eep. reflexivity. }
  cbv beta iota. cbn [attr_of_option].
  eapply bind_step; [apply tmdb_id_truth_str |]. cbv iota.
  eapply bind_step.
  { unfold SeriesEpisode_get_content_info.
    eapply bind_step; [reflexivity |].
    eapply bind_step; [reflexivity |].
    apply get_show_info_ok. exact Ss. }
  fold show.
  eapply bind_step; [unfold SeriesEpisode_get_title; rewrite Et; reflexivity |].
  eapply bind_step; [unfold _get_genres; rewrite Eg; reflexivity |].
  eapply bind_step; [unfold _get_actors; rewrite Ec; reflexivity |].
  eapply bind_step.
  { unfold SeriesEpisode_get_directors.
    eapply bind_step; [apply Epi |].
    unfold director_names. rewrite Ece. reflexivity. }
  eapply bind_step;
    [unfold _get_production_companies; rewrite Ep; reflexivity |].
  eapply bind_step.
  { unfold SeriesEpisode_get_release_date.
    eapply bind_step; [apply Epi |]. rewrite Es.
    eapply bind_step; [reflexivity |]. apply iso_date_ok. exact Ed. }
  cbn [calls stdout]. rewrite <- !app_assoc. cbn [app]. fold u. fold w'.
  unfold SeriesEpisode_get_runtime in *. unfold bind at 1.
  rewrite Er. destruct res; reflexivity.
Qed.
End ReturnFacts.

(** X13. A movie the catalog matches and answers for in full is
    constructed, and a [null] runtime is the one thing that then stops
    it: with the lookup and the details request answered 200, the
    title a string, the genres, credits and production companies
    lists as the catalog documents them, the release date a
    [YYYY-MM-DD] date of the calendar and the runtime key present, the
    constructor sends exactly those two requests, prints nothing, and
    returns the object with every attribute read from the details of
    the first match when the runtime is an integer, or raises the
    [TypeError] of [int(None)] when it is [null]. *)
Theorem movie_construction_returns_unless_null_runtime
    (requests : Catalog) (py_int : string -> option Z) (tmdb : APIRequests)
    (imdb_id : string) (w : World) (e : TMDB.find_entry)
    (rest : list TMDB.find_entry) (t : string) (g : list TMDB.named)
    (cr : TMDB.credits_t) (pc : list TMDB.named) (s : string) (dt : datetime)
    (v : option Z) :
  status_code (find_response requests tmdb imdb_id) = STATUS_CODE_OK ->
  TMDB.movie_results (json (find_response requests tmdb imdb_id)) = e :: rest ->
  let i := str_of_int (TMDB.id e) in
  let r := details_response requests tmdb (movie_url i) in
  status_code r = STATUS_CODE_OK ->
  TMDB.original_title (json r) = Some t ->
  TMDB.genres (json r) = Some g ->
  TMDB.credits (json r) = Some cr ->
  TMDB.production_companies (json r) = Some pc ->
  TMDB.release_date (json r) = Some s ->
  read_iso_date py_int s = Some dt ->
  TMDB.runtime (json r) = Some v ->
  Movie requests py_int tmdb imdb_id w
  = (match v with
     | Some rt =>
         Ok (mkContent (Val tmdb) (Val i) (Val t) (Val (map TMDB.name g))
               (Val true) (Val false) (Val (actors_of cr))
               (Val (directors_of cr)) (Val (map TMDB.name pc)) Unset
               (Val dt) (Val rt) Unset Unset Unset)
     | None => Raise TypeError
     end,
     mkWorld (calls w ++ [find_url imdb_id; movie_url i]) (stdout w)).
Proof.
  intros Sf Em i r Sr Et Eg Ec Ep Es Ed Er.
  unfold Movie, Content_init. cbv zeta.
  cbn [_get_tmdb_id _get_content_info _get_title _get_directors
       _get_release_date _get_runtime Movie_class].
  eapply bind_step.
  { unfold Movie_get_tmdb_id.
    eapply bind_step; [reflexivity |].
    eapply bind_step; [apply get_info_from_imdb_id_ok; exact Sf |].
    rewrite Em, len_cons_nonzero.
    eapply bind_step; [apply list_getitem_first | reflexivity]. }
  cbv beta iota.
  eapply bind_step; [apply tmdb_id_truth_str |]. cbv iota.
  eapply bind_step.
  { unfold Movie_get_content_info.
    eapply bind_step; [reflexivity |].
    eapply bind_step; [reflexivity |].
    apply get_movie_info_ok. exact Sr. }
  fold i. fold r.
  eapply bind_step; [unfold Movie_get_title; rewrite Et; reflexivity |].
  eapply bind_step; [unfold _get_genres; rewrite Eg; reflexivity |].
  eapply bind_step; [unfold _get_actors; rewrite Ec; reflexivity |].
  eapply bind_step;
    [unfold Movie_get_directors, director_names; rewrite Ec; reflexivity |].
  eapply bind_step;
    [unfold _get_production_companies; rewrite Ep; reflexivity |].
  eapply bind_step.
  { unfold Movie_get_release_date. rewrite Es.
    eapply bind_step; [reflexivity |]. apply iso_date_ok. exact Ed. }
  cbn [calls stdout]. rewrite <- app_assoc. cbn [app].
  unfold Movie_get_runtime. rewrite Er.
  destruct v as [rt|].
  - eapply bind_step; [reflexivity |]. reflexivity.
  - apply bind_raise. reflexivity.
Qed.

(** X14. An episode the catalog matches and answers for in full is
    constructed, and an empty list of episode runtimes is the one thing
    that then stops it: with every other key present and the air date
    readable, the constructor sends its four requests and returns the
    object whose runtime is the integer quotient of the sum of the
    show's episode runtimes by their number (for a sum below [2 ^ 53]),
    or raises [ZeroDivisionError] when the show lists none. *)
Theorem episode_construction_returns_unless_no_runtime
    (requests : Catalog) (py_int : string -> option Z) (tmdb : APIRequests)
    (imdb_id : string) (w : World) (e : TMDB.find_entry)
    (rest : list TMDB.find_entry) (sh se ep : Z) (t : string)
    (g : list TMDB.named) (cr cre : TMDB.credits_t) (pc : list TMDB.named)
    (s : string) (dt : datetime) (l : list Z) :
  status_code (find_response requests tmdb imdb_id) = STATUS_CODE_OK ->
  TMDB.tv_episode_results (json (find_response requests tmdb imdb_id))
  = e :: rest ->
  TMDB.show_id e = Some sh -> TMDB.season_number e = Some se ->
  TMDB.episode_number e = Some ep ->
  let show := details_response requests tmdb (show_url (str_of_int sh)) in
  let u := episode_url (str_of_int sh) (str_of_int se) (str_of_int ep) in
  let epi := details_response requests tmdb u in
  status_code show = STATUS_CODE_OK ->
  status_code epi = STATUS_CODE_OK ->
  TMDB.original_name (json show) = Some t ->
  TMDB.genres (json show) = Some g ->
  TMDB.credits (json show) = Some cr ->
  TMDB.credits (json epi) = Some cre ->
  TMDB.production_companies (json show) = Some pc ->
  TMDB.air_date (json epi) = Some s ->
  read_iso_date py_int s = Some dt ->
  TMDB.episode_run_time (json show) = Some l ->
  - 2 ^ 53 < sum l < 2 ^ 53 ->
  SeriesEpisode requests py_int tmdb imdb_id w
  = (match l with
     | [] => Raise ZeroDivisionError
     | _ :: _ =>
         Ok (mkContent (Val tmdb) (Val (str_of_int (TMDB.id e))) (Val t)
               (Val (map TMDB.name g)) (Val false) (Val true)
               (Val (actors_of cr)) (Val (directors_of cre))
               (Val (map TMDB.name pc)) Unset (Val dt)
               (Val (Z.quot (sum l) (len l)))
               (Val (str_of_int sh)) (Val (str_of_int se))
               (Val (str_of_int ep)))
     end,
     mkWorld (calls w ++ [find_url imdb_id; show_url (str_of_int sh); u; u])
             (stdout w)).
Proof.
  intros Sf Em Esh Ese Eep show u epi Ss Se Et Eg Ec Ece Ep Es Ed El Bl.
  destruct l as [|x l].
  - apply (SeriesEpisode_upto_runtime requests py_int tmdb imdb_id w e rest
             sh se ep t g cr cre pc s dt Sf Em Esh Ese Eep Ss Se Et Eg Ec Ece
             Ep Es Ed (Raise ZeroDivisionError)).
    unfold SeriesEpisode_get_runtime. fold show. rewrite El. reflexivity.
  - apply (SeriesEpisode_upto_runtime requests py_int tmdb imdb_id w e rest
             sh se ep t g cr cre pc s dt Sf Em Esh Ese Eep Ss Se Et Eg Ec Ece
             Ep Es Ed (Ok (Z.quot (sum (x :: l)) (len (x :: l))))).
    unfold SeriesEpisode_get_runtime. fold show. rewrite El.
    eapply bind_step; [reflexivity |].
    apply int_truediv_trunc; [exact Bl |].
    unfold len. cbn [length]. lia.
Qed.

(** X15. A details request the catalog refuses stops the construction
    with [FailedAPIRequest]: for a matched movie after the lookup and
    the details request, for a matched episode after the lookup and
    the request for its show; the exception carries the answer's URL,
    the expected status 200, the status received and the answer's
    text, and nothing is printed. *)
Theorem refused_details_request_stops_construction
    (requests : Catalog) (py_int : string -> option Z) (tmdb : APIRequests)
    (imdb_id : string) (w : World) (e : TMDB.find_entry)
    (rest : list TMDB.find_entry) :
  status_code (find_response requests tmdb imdb_id) = STATUS_CODE_OK ->
  (TMDB.movie_results (json (find_response requests tmdb imdb_id)) = e :: rest ->
   let r := details_response requests tmdb
              (movie_url (str_of_int (TMDB.id e))) in
   status_code r <> STATUS_CODE_OK ->
   Movie requests py_int tmdb imdb_id w
   = (Raise (FailedAPIRequest (url r) STATUS_CODE_OK (status_code r) (text r)),
      mkWorld (calls w ++ [find_url imdb_id;
                           movie_url (str_of_int (TMDB.id e))])
              (stdout w)))
  /\ (TMDB.tv_episode_results (json (find_response requests tmdb imdb_id))
      = e :: rest ->
      forall sh se ep,
        TMDB.show_id e = Some sh -> TMDB.season_number e = Some se ->
        TMDB.episode_number e = Some ep ->
        let r := details_response requests tmdb (show_url (str_of_int sh)) in
        status_code r <> STATUS_CODE_OK ->
        SeriesEpisode requests py_int tmdb imdb_id w
        = (Raise (FailedAPIRequest (url r) STATUS_CODE_OK (status_code r)
                    (text r)),
           mkWorld (calls w ++ [find_url imdb_id; show_url (str_of_int sh)])
                   (stdout w))).
Proof.
  intros Sf. split.
  - intros Em r Sr.
    unfold Movie, Content_init. cbv zeta.
    cbn [_get_tmdb_id _get_content_info Movie_class].
    eapply bind_step.
    { unfold Movie_get_tmdb_id.
      eapply bind_step; [reflexivity |].
      eapply bind_step; [apply get_info_from_imdb_id_ok; exact Sf |].
      rewrite Em, len_cons_nonzero.
      eapply bind_step; [apply list_getitem_first | reflexivity]. }
    cbv beta iota.
    eapply bind_step; [apply tmdb_id_truth_str |]. cbv iota.
    apply bind_raise. unfold Movie_get_content_info.
    eapply bind_step; [reflexivity |].
    eapply bind_step; [reflexivity |].
    rewrite (get_movie_info_refused requests tmdb _ _ Sr).
    cbn [calls stdout]. rewrite <- app_assoc. reflexivity.
  - intros Em sh se ep Esh Ese Eep r Sr.
    unfold SeriesEpisode, Content_init. cbv zeta.
    cbn [_get_tmdb_id _get_content_info SeriesEpisode_class].
    eapply bind_step.
    { unfold SeriesEpisode_get_tmdb_id.
      eapply bind_step; [reflexivity |].
      eapply bind_step; [apply get_info_from_imdb_id_ok; exact Sf |].
      rewrite Em, len_cons_nonzero.
      eapply bind_step; [apply list_getitem_first |].
      rewrite Esh, Ese, Eep. reflexivity. }
    cbv beta iota. cbn [attr_of_option].
    eapply bind_step; [apply tmdb_id_truth_str |]. cbv iota.
    apply bind_raise. unfold SeriesEpisode_get_content_info.
    eapply bind_step; [reflexivity |].
    eapply bind_step; [reflexivity |].
    rewrite (get_show_info_refused requests tmdb _ _ Sr).
    cbn [calls stdout]. rewrite <- app_assoc. reflexivity.
Qed.

(** ** The further properties on sample data *)

Ltac sample_resolved :=
  unfold sample_events;
  repeat (apply Forall_cons; [repeat split; vm_compute; discriminate |]);
  apply Forall_nil.

(** X1 on the sample events. *)
Lemma platform_usage_by_first_seen_witness :
  get_platform_usage sample_events empty_world
  = (Ok tt,
     mkWorld []
       [Line "Platform usage" [];
        Line "{}: {}" [AStr "Netflix"; AInt 240];
        Line "{}: {}" [AStr "HBO"; AInt 123]])
  /\ NoDup (first_seen (map platform sample_events))
  /\ (forall p, In p (first_seen (map platform sample_events))
                <-> exists c, In c sample_events /\ platform c = p)
  /\ sum (map (bucket_total platform sample_events)
            (first_seen (map platform sample_events)))
     = total_runtime sample_events.
Proof.
  apply (platform_usage_by_first_seen sample_events empty_world).
  repeat constructor.
Defined.

(** X2 on the sample events. *)
Lemma sum_ranking_reports_show_the_largest_witness :
  sum_ranking_top genres "Most watched genres"
    get_most_watched_genres sample_events empty_world
  /\ sum_ranking_top actors "Most watched actors"
       get_most_watched_actors sample_events empty_world
  /\ sum_ranking_top directors "Most watched directors"
       get_most_watched_directors sample_events empty_world
  /\ sum_ranking_top production_companies "Most watched production_companies"
       get_most_watched_production_companies sample_events empty_world.
Proof.
  apply (sum_ranking_reports_show_the_largest sample_events empty_world).
  repeat constructor.
Defined.

(** X3 on the sample events. *)
Lemma average_ranking_reports_show_the_means_witness :
  average_ranking_values genres 5 "Best rated genres"
    get_most_liked_genres sample_events empty_world
  /\ average_ranking_values actors 5 "Best rated actor"
       get_most_liked_actors sample_events empty_world
  /\ average_ranking_values production_companies 5
       "Best rated production companies"
       get_most_liked_production_companies sample_events empty_world
  /\ average_ranking_values directors 2 "Best rated director"
       get_most_liked_directors sample_events empty_world.
Proof.
  apply (average_ranking_reports_show_the_means sample_events empty_world).
  repeat constructor.
Defined.

(** X4 on the sample events. *)
Lemma most_active_date_is_first_maximum_witness :
  exists (a : activity) (d : datetime) (before after : list datetime),
    activity_tables sample_events empty_world = (Ok a, empty_world)
    /\ get_activity_by_month_and_day sample_events empty_world
       = (Ok tt,
          mkWorld (calls empty_world)
            (stdout empty_world ++ activity_lines a ++
             [Line "Day with the most activity: {}/{}"
                   [AInt (month d); AInt (day d)]]))
    /\ first_seen (map date sample_events) = before ++ d :: after
    /\ (forall d', In d' before ->
                   day_total sample_events d' < day_total sample_events d)
    /\ (forall d', In d' after ->
                   day_total sample_events d' <= day_total sample_events d)
    /\ sum (map (day_total sample_events)
              (first_seen (map date sample_events)))
       = total_runtime sample_events.
Proof.
  apply (most_active_date_is_first_maximum
           (mkWatched war_movie "Netflix" (mkDate 2021 3 1) (float_of_int 8))
           (tl sample_events) empty_world).
  - repeat constructor.
  - change (Forall (fun c => valid_date (date c)) sample_events).
    sample_resolved.
Defined.

(** X6 on the movie of the sample catalog. *)
Lemma movie_construction_witness :
  movie_built catalog_sample sample_int sample_tmdb "tt0050825"
    empty_world sample_movie movie_world.
Proof.
  apply (movie_construction catalog_sample sample_int sample_tmdb "tt0050825"
           empty_world movie_world sample_movie).
  vm_compute. reflexivity.
Defined.

(** X7 on the episode of the sample catalog. *)
Lemma episode_construction_witness :
  episode_built catalog_sample sample_int sample_tmdb "tt0000002"
    empty_world sample_episode episode_world.
Proof.
  apply (episode_construction catalog_sample sample_int sample_tmdb
           "tt0000002" empty_world episode_world sample_episode).
  vm_compute. reflexivity.
Defined.

(** X8 on the movie of the sample catalog. *)
Lemma constructed_content_invariants_witness :
  (forall l, actors sample_movie = Val l -> (length l <= 15)%nat)
  /\ (forall l, directors sample_movie = Val l -> (length l <= 2)%nat)
  /\ (exists b, is_movie sample_movie = Val b
                /\ is_series sample_movie = Val (negb b))
  /\ (tmdb_id sample_movie = PyNone
      \/ exists i, tmdb_id sample_movie = Val i /\ i <> EmptyString).
Proof.
  apply (constructed_content_invariants catalog_sample sample_int sample_tmdb
           "tt0050825" empty_world movie_world sample_movie).
  left. vm_compute. reflexivity.
Defined.

(** X9 on three sample records, the second unknown to the catalog. *)
Lemma builder_accounts_for_every_record_witness :
  Forall2 (event_of_record sample_int sample_float)
    (filter (fun r => negb (unmatched catalog_sample sample_tmdb r)) sample_raw)
    built_events
  /\ stdout built_world
     = stdout empty_world
       ++ map diagnostic (filter (unmatched catalog_sample sample_tmdb) sample_raw)
  /\ (length built_events
      + length (filter (unmatched catalog_sample sample_tmdb) sample_raw)
      = length sample_raw)%nat.
Proof.
  apply (builder_accounts_for_every_record catalog_sample sample_int
           sample_float sample_tmdb sample_raw empty_world built_world
           built_events).
  vm_compute. reflexivity.
Defined.

(** X10 on the same records. *)
Lemma run_ends_by_the_collection_witness :
  exists w',
    main catalog_sample sample_int sample_float sample_raw empty_world
    = (Ok tt, w')
    /\ calls w' = calls built_world.
Proof.
  apply (run_ends_by_the_collection catalog_sample sample_int sample_float
           sample_raw empty_world built_world built_events).
  vm_compute. reflexivity.
Defined.

(** X11 on the sample events followed by a movie without metadata. *)
Lemma content_without_metadata_breaks_the_reports_witness :
  let wc := sample_events
            ++ [mkWatched (unresolved_content sample_tmdb true) "DVD"
                  (mkDate 2021 3 2) (float_of_int 5)] in
  get_most_watched_genres wc empty_world = (Raise TypeError, empty_world)
  /\ get_most_liked_genres wc empty_world = (Raise TypeError, empty_world)
  /\ get_most_watched_actors wc empty_world = (Raise TypeError, empty_world)
  /\ get_most_liked_actors wc empty_world = (Raise TypeError, empty_world)
  /\ get_most_watched_directors wc empty_world = (Raise TypeError, empty_world)
  /\ get_most_liked_directors wc empty_world = (Raise TypeError, empty_world)
  /\ get_most_watched_production_companies wc empty_world
     = (Raise AttributeError, empty_world)
  /\ get_most_liked_production_companies wc empty_world
     = (Raise AttributeError, empty_world)
  /\ get_amount_of_movies_and_series_watched wc empty_world
     = (Raise TypeError, empty_world)
  /\ get_platform_usage wc empty_world = (Raise TypeError, empty_world)
  /\ get_activity_by_month_and_day wc empty_world
     = (Raise TypeError, empty_world).
Proof.
  apply (content_without_metadata_breaks_the_reports sample_tmdb true
           sample_events []
           (mkWatched (unresolved_content sample_tmdb true) "DVD"
              (mkDate 2021 3 2) (float_of_int 5))
           empty_world).
  - repeat constructor.
  - sample_resolved.
  - repeat split; vm_compute; discriminate.
  - reflexivity.
Defined.

(** X12 on a known movie whose date is written [YYYY-MM-DD], and on
    one whose year is [2 ^ 31]. *)
Lemma unreadable_record_aborts_the_run_witness :
  main catalog_sample sample_int sample_float
    ([first_record] ++ misdated_record :: [second_record]) empty_world
  = (Raise ValueError, twice_movie_world)
  /\ main catalog_sample sample_int sample_float
       ([first_record] ++ far_record :: [second_record]) empty_world
     = (Raise OverflowError, twice_movie_world).
Proof.
  split.
  - apply (proj1 (unreadable_record_aborts_the_run catalog_sample sample_int
             sample_float [first_record] [second_record] misdated_record
             empty_world movie_world twice_movie_world
             [mkWatched sample_movie "Netflix" (mkDate 2021 3 1)
                (float_of_int 8)]
             sample_movie
             ltac:(vm_compute; reflexivity) ltac:(vm_compute; reflexivity)
             ltac:(vm_compute; reflexivity)
             ltac:(left; vm_compute; reflexivity))).
  - apply (proj1 (unreadable_record_aborts_the_run catalog_sample sample_int
             sample_float [first_record] [second_record] far_record
             empty_world movie_world twice_movie_world
             [mkWatched sample_movie "Netflix" (mkDate 2021 3 1)
                (float_of_int 8)]
             sample_movie
             ltac:(vm_compute; reflexivity) ltac:(vm_compute; reflexivity)
             ltac:(vm_compute; reflexivity)
             ltac:(left; vm_compute; reflexivity))).
Defined.

(** X13 on the movie of the sample catalog, with a runtime of 88
    minutes and with a [null] runtime. *)
Lemma movie_construction_returns_unless_null_runtime_witness :
  Movie catalog_sample sample_int sample_tmdb "tt0050825" empty_world
  = (Ok sample_movie, movie_world)
  /\ Movie (catalog_of 200 None [45; 48]) sample_int sample_tmdb "tt0050825"
       empty_world
     = (Raise TypeError, movie_world).
Proof.
  split.
  - apply (movie_construction_returns_unless_null_runtime catalog_sample
             sample_int sample_tmdb "tt0050825" empty_world
             (TMDB.mkEntry 975 None None None) []
             "Paths of Glory" [TMDB.mkNamed "Drama"; TMDB.mkNamed "War"]
             sample_credits [TMDB.mkNamed "Bryna Productions"] "1957-12-25"
             (mkDate 1957 12 25) (Some 88));
      vm_compute; reflexivity.
  - apply (movie_construction_returns_unless_null_runtime
             (catalog_of 200 None [45; 48])
             sample_int sample_tmdb "tt0050825" empty_world
             (TMDB.mkEntry 975 None None None) []
             "Paths of Glory" [TMDB.mkNamed "Drama"; TMDB.mkNamed "War"]
             sample_credits [TMDB.mkNamed "Bryna Productions"] "1957-12-25"
             (mkDate 1957 12 25) None);
      vm_compute; reflexivity.
Defined.

(** X14 on the episode of the sample catalog, with episode runtimes of
    45 and 48 minutes and with none. *)
Lemma episode_construction_returns_unless_no_runtime_witness :
  SeriesEpisode catalog_sample sample_int sample_tmdb "tt0000002" empty_world
  = (Ok sample_episode, episode_world)
  /\ SeriesEpisode (catalog_with 200 []) sample_int sample_tmdb "tt0000002"
       empty_world
     = (Raise ZeroDivisionError, episode_world).
Proof.
  split.
  - apply (episode_construction_returns_unless_no_runtime catalog_sample
             sample_int sample_tmdb "tt0000002" empty_world
             (TMDB.mkEntry 62085 (Some 1396) (Some 1) (Some 1)) [] 1396 1 1
             "Pilot Show" [TMDB.mkNamed "Drama"] sample_credits
             (TMDB.mkCredits [] [TMDB.mkCrew "Director" "Alan Smithee"])
             [TMDB.mkNamed "Bryna Productions"] "2008-01-20"
             (mkDate 2008 1 20) [45; 48]);
      try (vm_compute; reflexivity).
    vm_compute. split; reflexivity.
  - apply (episode_construction_returns_unless_no_runtime (catalog_with 200 [])
             sample_int sample_tmdb "tt0000002" empty_world
             (TMDB.mkEntry 62085 (Some 1396) (Some 1) (Some 1)) [] 1396 1 1
             "Pilot Show" [TMDB.mkNamed "Drama"] sample_credits
             (TMDB.mkCredits [] [TMDB.mkCrew "Director" "Alan Smithee"])
             [TMDB.mkNamed "Bryna Productions"] "2008-01-20"
             (mkDate 2008 1 20) []);
      try (vm_compute; reflexivity).
    vm_compute. split; reflexivity.
Defined.

(** X15 on a catalog that answers every details request with 503. *)
Lemma refused_details_request_stops_construction_witness :
  Movie (catalog_with 503 [45; 48]) sample_int sample_tmdb "tt0050825"
    empty_world
  = (Raise (FailedAPIRequest (movie_url "975") 200 503 "movie"),
     mkWorld [find_url "tt0050825"; movie_url "975"] [])
  /\ SeriesEpisode (catalog_with 503 [45; 48]) sample_int sample_tmdb
       "tt0000002" empty_world
     = (Raise (FailedAPIRequest (show_url "1396") 200 503 "show"),
        mkWorld [find_url "tt0000002"; show_url "1396"] []).
Proof.
  split.
  - apply (proj1 (refused_details_request_stops_construction
                    (catalog_with 503 [45; 48]) sample_int sample_tmdb
                    "tt0050825" empty_world (TMDB.mkEntry 975 None None None)
                    [] ltac:(reflexivity)));
      [reflexivity | vm_compute; discriminate].
  - apply (proj2 (refused_details_request_stops_construction
                    (catalog_with 503 [45; 48]) sample_int sample_tmdb
                    "tt0000002" empty_world
                    (TMDB.mkEntry 62085 (Some 1396) (Some 1) (Some 1))
                    [] ltac:(reflexivity))
             ltac:(reflexivity) 1396 1 1);
      [reflexivity | reflexivity | reflexivity | vm_compute; discriminate].
Defined.
